(** * Loan-application workflow: a shallow embedding of the orchestration core

    The development follows [src/workflow/state.py] (the application record,
    [update_state], [add_message]), [src/agents/master_agent.py]
    ([_determine_next_action], [generate_greeting]), [src/workflow/graph.py]
    (the five stage nodes, [route_master_agent], the compiled graph and
    [LoanApplicationWorkflow.process_message]) and [src/tools/otp_tools.py].

    Conventions of the embedding.
    - Python [str] values are Rocq strings over ASCII; [str.lower], [\d], [\s],
      [\w] and [\b] are given their ASCII meaning.
    - Python [float] values that the code only parses from a decimal token,
      multiplies by an integer constant, tests for truthiness and copies are
      exact rationals ([Q], kept reduced).  On the integer amounts the
      statements below mention, binary64 arithmetic is exact as well.
    - [datetime.now()] and [uuid.uuid4()] are not modelled: the [timestamp],
      [created_at] and [updated_at] fields are left out and a session id is
      an argument of [create_session].
    - Non-ASCII glyphs and line breaks of the user-facing texts are left out
      of the string constants; no statement depends on the wording of a
      message.
    - The collaborators whose code lives outside the embedded files (the
      text generator, the customer lookup, the sales, underwriting and
      sanction agents, the Twilio client, the environment) are Section
      variables: every theorem holds for all of them. *)

From Stdlib Require Import ZArith QArith Ascii String List Bool Lia.
From stdpp Require Import base option list gmap strings pretty.
Import ListNotations.

Local Open Scope string_scope.
Local Open Scope list_scope.
Local Open Scope Z_scope.

(** ** Python string operations (ASCII) *)

Module PyStr.

Definition chars (s : string) : list ascii := list_ascii_of_string s.
Definition of_chars (l : list ascii) : string := string_of_list_ascii l.

Definition code (c : ascii) : nat := nat_of_ascii c.

Definition is_digit (c : ascii) : bool :=
  (48 <=? code c)%nat && (code c <=? 57)%nat.
Definition is_upper (c : ascii) : bool :=
  (65 <=? code c)%nat && (code c <=? 90)%nat.
Definition is_lower (c : ascii) : bool :=
  (97 <=? code c)%nat && (code c <=? 122)%nat.
Definition is_alpha (c : ascii) : bool := is_upper c || is_lower c.
(** [str.isspace] on ASCII: TAB..CR, FS..US and the blank. *)
Definition is_space (c : ascii) : bool :=
  ((9 <=? code c)%nat && (code c <=? 13)%nat)
  || ((28 <=? code c)%nat && (code c <=? 32)%nat).
(** [\w]. *)
Definition is_word (c : ascii) : bool :=
  is_alpha c || is_digit c || Ascii.eqb c "_".

Definition lower_char (c : ascii) : ascii :=
  if is_upper c then ascii_of_nat (code c + 32) else c.
Definition upper_char (c : ascii) : ascii :=
  if is_lower c then ascii_of_nat (code c - 32) else c.

Definition lower (s : string) : string := of_chars (map lower_char (chars s)).
Definition upper (s : string) : string := of_chars (map upper_char (chars s)).

Fixpoint lstrip_chars (l : list ascii) : list ascii :=
  match l with
  | c :: l' => if is_space c then lstrip_chars l' else l
  | [] => []
  end.
Definition strip (s : string) : string :=
  of_chars (rev (lstrip_chars (rev (lstrip_chars (chars s))))).

Fixpoint starts_chars (p l : list ascii) : bool :=
  match p, l with
  | [], _ => true
  | a :: p', b :: l' => Ascii.eqb a b && starts_chars p' l'
  | _ :: _, [] => false
  end.
Definition startswith (s p : string) : bool := starts_chars (chars p) (chars s).

(** [str.find] on character lists: index of the first occurrence. *)
Fixpoint find_chars (p l : list ascii) : option nat :=
  if starts_chars p l then Some O
  else match l with
       | [] => None
       | _ :: l' => S <$> find_chars p l'
       end.
Definition find (s p : string) : option nat := find_chars (chars p) (chars s).

(** [p in s]. *)
Definition contains (s p : string) : bool :=
  match find s p with Some _ => true | None => false end.

(** [any(k in s for k in ks)]. *)
Definition contains_any (s : string) (ks : list string) : bool :=
  existsb (contains s) ks.

(** [s[i:]]. *)
Definition from (i : nat) (s : string) : string := of_chars (drop i (chars s)).

(** [s.split(sep, 1)[1]]: the text after the first [sep]; [None] stands for
    the [IndexError] raised when [sep] does not occur. *)
Definition after_first (s sep : string) : option string :=
  (fun i => from (i + String.length sep) s) <$> find s sep.

(** [s.replace] of the blank by the empty string. *)
Definition remove_blanks (s : string) : string :=
  of_chars (List.filter (fun c => negb (Ascii.eqb c " ")) (chars s)).

(** [s.isdigit()]: non-empty and all digits. *)
Definition isdigit (s : string) : bool :=
  negb (String.eqb s EmptyString) && forallb is_digit (chars s).

(** Python truthiness of a string. *)
Definition nonempty (s : string) : bool := negb (String.eqb s EmptyString).

(** ["\n".join(l)]. *)
Fixpoint join (sep : string) (l : list string) : string :=
  match l with
  | [] => EmptyString
  | [x] => x
  | x :: l' => x ++ sep ++ join sep l'
  end.

(** [int(s)] on a run of decimal digits. *)
Definition digit_val (c : ascii) : Z := Z.of_nat (code c - 48).
Definition int_of_digits (l : list ascii) : Z :=
  fold_left (fun acc c => 10 * acc + digit_val c) l 0.

(** [float(s)] on a token of the shape [\d+\.?\d*]: the digits before the
    point, the digits after it, scaled. *)
Fixpoint leading_digits (l : list ascii) : list ascii :=
  match l with
  | c :: l' => if is_digit c then c :: leading_digits l' else []
  | [] => []
  end.
Definition float_of_token (s : string) : Q :=
  let l := chars s in
  let ip := leading_digits l in
  let fp := List.filter is_digit (drop (length ip) l) in
  Qred (Qmake (int_of_digits (ip ++ fp))
              (Z.to_pos (10 ^ Z.of_nat (length fp)))).

End PyStr.


(** ** Regular expressions

    The fragment of Python's [re] syntax that the embedded code uses:
    character classes, literals, sequence, ordered alternation, greedy and
    lazy repetition of a character class with bounds, optional items, capture
    groups and the word boundary.  [rmatch] is a backtracking matcher in
    continuation-passing style, so that the priorities of [re] (left
    alternative first, greedy repetition longest first, lazy repetition
    shortest first) are the order in which continuations are tried;
    [search] tries the start positions from left to right, as [re.search]
    does. *)

Module Re.
Import PyStr.

Inductive re : Type :=
| Eps
| Chr (p : ascii -> bool)
| Seq (r1 r2 : re)
| Alt (r1 r2 : re)
| Rep (greedy : bool) (p : ascii -> bool) (lo : nat) (hi : option nat)
| Opt (r : re)
| Grp (n : nat) (r : re)
| WordB.

(** Captured groups: group number and matched text. *)
Definition caps : Type := list (nat * string).

Fixpoint group (n : nat) (cs : caps) : option string :=
  match cs with
  | [] => None
  | (m, s) :: cs' => if Nat.eqb n m then Some s else group n cs'
  end.

(** A continuation receives the character before the current position
    (for the word boundary), the rest of the input and the groups. *)
Definition cont (R : Type) : Type :=
  option ascii -> list ascii -> caps -> option R.

Definition or_else {R} (a b : option R) : option R :=
  match a with Some x => Some x | None => b end.

Definition may_take (hi : option nat) : bool :=
  match hi with Some O => false | _ => true end.

Section Matcher.
Context {R : Type}.

Fixpoint rep_greedy (p : ascii -> bool) (lo : nat) (hi : option nat)
    (prev : option ascii) (s : list ascii) (cs : caps) (k : cont R)
    {struct s} : option R :=
  let stop := match lo with O => k prev s cs | S _ => None end in
  match s with
  | c :: s' =>
      if p c && may_take hi
      then or_else (rep_greedy p (Nat.pred lo) (Nat.pred <$> hi)
                               (Some c) s' cs k) stop
      else stop
  | [] => stop
  end.

Fixpoint rep_lazy (p : ascii -> bool) (lo : nat) (hi : option nat)
    (prev : option ascii) (s : list ascii) (cs : caps) (k : cont R)
    {struct s} : option R :=
  let stop := match lo with O => k prev s cs | S _ => None end in
  match s with
  | c :: s' =>
      if p c && may_take hi
      then or_else stop (rep_lazy p (Nat.pred lo) (Nat.pred <$> hi)
                                  (Some c) s' cs k)
      else stop
  | [] => stop
  end.

Definition word_at (c : option ascii) : bool :=
  match c with Some a => is_word a | None => false end.

Fixpoint rmatch (r : re) (prev : option ascii) (s : list ascii)
    (cs : caps) (k : cont R) {struct r} : option R :=
  match r with
  | Eps => k prev s cs
  | Chr p =>
      match s with
      | c :: s' => if p c then k (Some c) s' cs else None
      | [] => None
      end
  | Seq r1 r2 =>
      rmatch r1 prev s cs (fun prev' s' cs' => rmatch r2 prev' s' cs' k)
  | Alt r1 r2 => or_else (rmatch r1 prev s cs k) (rmatch r2 prev s cs k)
  | Rep g p lo hi =>
      (if g then rep_greedy else rep_lazy) p lo hi prev s cs k
  | Opt r1 => or_else (rmatch r1 prev s cs k) (k prev s cs)
  | Grp n r1 =>
      rmatch r1 prev s cs
        (fun prev' s' cs' =>
           k prev' s'
             ((n, of_chars (take (length s - length s') s)) :: cs'))
  | WordB =>
      if xorb (word_at prev) (word_at (head s)) then k prev s cs else None
  end.
End Matcher.

Fixpoint search_from (r : re) (prev : option ascii) (s : list ascii)
    : option caps :=
  match rmatch r prev s [] (fun _ _ cs => Some cs) with
  | Some cs => Some cs
  | None =>
      match s with
      | c :: s' => search_from r (Some c) s'
      | [] => None
      end
  end.

(** [re.search(r, s)]: the groups of the leftmost match, if any. *)
Definition search (r : re) (s : string) : option caps :=
  search_from r None (chars s).

(** Truthiness of the match object. *)
Definition matches (r : re) (s : string) : bool :=
  match search r s with Some _ => true | None => false end.

(** *** Pattern syntax *)

Definition is_char (a : ascii) : ascii -> bool := fun c => Ascii.eqb c a.
(** A character compared under [re.IGNORECASE]. *)
Definition is_char_i (a : ascii) : ascii -> bool :=
  fun c => Ascii.eqb (lower_char c) (lower_char a).
Definition one_of (l : string) : ascii -> bool :=
  fun c => existsb (Ascii.eqb c) (chars l).
Definition any_char : ascii -> bool := fun c => negb (Ascii.eqb c "010").

Fixpoint seq_of (f : ascii -> ascii -> bool) (l : list ascii) : re :=
  match l with
  | [] => Eps
  | [a] => Chr (f a)
  | a :: l' => Seq (Chr (f a)) (seq_of f l')
  end.
Definition lit (s : string) : re := seq_of is_char (chars s).
Definition lit_i (s : string) : re := seq_of is_char_i (chars s).

Fixpoint alts (l : list re) : re :=
  match l with
  | [] => Eps
  | [r] => r
  | r :: l' => Alt r (alts l')
  end.

Definition star (p : ascii -> bool) : re := Rep true p 0 None.
Definition plus (p : ascii -> bool) : re := Rep true p 1 None.
Definition times (p : ascii -> bool) (lo : nat) (hi : option nat) : re :=
  Rep true p lo hi.
Definition digits1 : re := plus is_digit.
Definition spaces : re := star is_space.

Declare Scope re_scope.
Delimit Scope re_scope with re.
Infix "+++" := Seq (at level 60, right associativity) : re_scope.

End Re.

(** ** The application record ([src/workflow/state.py]) *)

Inductive Role : Type := user | assistant | system.

Definition Role_eqb (a b : Role) : bool :=
  match a, b with
  | user, user | assistant, assistant | system, system => true
  | _, _ => false
  end.

(** [ConversationMessage]; the [timestamp] entry is not modelled. *)
Record ConversationMessage : Type := mkMessage {
  role : Role;
  content : string;
  agent : option string
}.

(** [LoanOffer], with the [tenure_display] entry the sales node reads. *)
Record LoanOffer : Type := mkOffer {
  offer_amount : Q;
  offer_tenure_months : Z;
  offer_interest_rate : Q;
  offer_monthly_emi : Q;
  offer_tenure_display : option string
}.

(** [LoanApplicationState].  The entries that no embedded function reads or
    writes ([customer_email], [customer_address], [loan_purpose],
    [objections_raised], [negotiation_history], [verification_notes], the
    document locators, [pre_approved_limit], [salary_slip_url],
    [monthly_salary], [debt_to_income_ratio], [existing_emi_total],
    [error_count]) and the two time stamps are left out. *)
Record LoanApplicationState : Type := mkState {
  (* Customer Information *)
  customer_id : option string;
  customer_name : option string;
  customer_phone : option string;
  conversation_history : list ConversationMessage;
  (* Conversation Flow *)
  current_stage : string;
  active_agent : string;
  next_action : option string;
  (* Loan Parameters *)
  requested_amount : option Q;
  approved_amount : option Q;
  tenure_months : option Z;
  interest_rate : option Q;
  monthly_emi : option Q;
  (* Sales Data *)
  customer_needs : option string;
  recommended_offers : list LoanOffer;
  selected_offer : option LoanOffer;
  (* Verification Data *)
  kyc_verified : bool;
  kyc_pan : option string;
  kyc_aadhaar_last4 : option string;
  kyc_dob : option string;
  kyc_email : option string;
  alt_phone : option string;
  phone_verified : bool;
  address_verified : bool;
  otp_sent : bool;
  otp_attempts : Z;
  otp_provider : option string;
  otp_code : option string;
  otp_phone : option string;
  otp_resend_count : Z;
  (* Underwriting Data *)
  credit_score : option Z;
  salary_slip_uploaded : bool;
  total_monthly_obligation : option Q;
  emi_to_income_ratio : option Q;
  risk_score : option Q;
  underwriting_decision : option string;
  rejection_reason : option string;
  conditional_requirements : list string;
  underwriting_recommendations : list string;
  (* Final Output *)
  sanction_letter_url : option string;
  sanction_letter_ref_no : option string;
  application_status : string;
  (* Metadata *)
  session_id : string;
  total_interactions : Z;
  (* Error Handling *)
  last_error : option string
}.

(** The keys of the record, typed by the value they hold: an entry of a
    Python dict literal passed to [update_state] is a key with a value. *)
Module K.
Inductive key : Type -> Type :=
| customer_id : key (option string)
| customer_name : key (option string)
| customer_phone : key (option string)
| conversation_history : key (list ConversationMessage)
| current_stage : key (string)
| active_agent : key (string)
| next_action : key (option string)
| requested_amount : key (option Q)
| approved_amount : key (option Q)
| tenure_months : key (option Z)
| interest_rate : key (option Q)
| monthly_emi : key (option Q)
| customer_needs : key (option string)
| recommended_offers : key (list LoanOffer)
| selected_offer : key (option LoanOffer)
| kyc_verified : key (bool)
| kyc_pan : key (option string)
| kyc_aadhaar_last4 : key (option string)
| kyc_dob : key (option string)
| kyc_email : key (option string)
| alt_phone : key (option string)
| phone_verified : key (bool)
| address_verified : key (bool)
| otp_sent : key (bool)
| otp_attempts : key (Z)
| otp_provider : key (option string)
| otp_code : key (option string)
| otp_phone : key (option string)
| otp_resend_count : key (Z)
| credit_score : key (option Z)
| salary_slip_uploaded : key (bool)
| total_monthly_obligation : key (option Q)
| emi_to_income_ratio : key (option Q)
| risk_score : key (option Q)
| underwriting_decision : key (option string)
| rejection_reason : key (option string)
| conditional_requirements : key (list string)
| underwriting_recommendations : key (list string)
| sanction_letter_url : key (option string)
| sanction_letter_ref_no : key (option string)
| application_status : key (string)
| session_id : key (string)
| total_interactions : key (Z)
| last_error : key (option string).
End K.

(** [state[k] = v] on a copy of the record. *)
Definition set_key {T : Type} (k : K.key T) : T -> LoanApplicationState -> LoanApplicationState :=
  match k in K.key T return T -> LoanApplicationState -> LoanApplicationState with
  | K.customer_id => fun v s =>
      mkState v (customer_name s) (customer_phone s) (conversation_history s)
      (current_stage s) (active_agent s) (next_action s) (requested_amount s)
      (approved_amount s) (tenure_months s) (interest_rate s) (monthly_emi s)
      (customer_needs s) (recommended_offers s) (selected_offer s)
      (kyc_verified s) (kyc_pan s) (kyc_aadhaar_last4 s) (kyc_dob s)
      (kyc_email s) (alt_phone s) (phone_verified s) (address_verified s)
      (otp_sent s) (otp_attempts s) (otp_provider s) (otp_code s)
      (otp_phone s) (otp_resend_count s) (credit_score s)
      (salary_slip_uploaded s) (total_monthly_obligation s)
      (emi_to_income_ratio s) (risk_score s) (underwriting_decision s)
      (rejection_reason s) (conditional_requirements s)
      (underwriting_recommendations s) (sanction_letter_url s)
      (sanction_letter_ref_no s) (application_status s) (session_id s)
      (total_interactions s) (last_error s)
  | K.customer_name => fun v s =>
      mkState (customer_id s) v (customer_phone s) (conversation_history s)
      (current_stage s) (active_agent s) (next_action s) (requested_amount s)
      (approved_amount s) (tenure_months s) (interest_rate s) (monthly_emi s)
      (customer_needs s) (recommended_offers s) (selected_offer s)
      (kyc_verified s) (kyc_pan s) (kyc_aadhaar_last4 s) (kyc_dob s)
      (kyc_email s) (alt_phone s) (phone_verified s) (address_verified s)
      (otp_sent s) (otp_attempts s) (otp_provider s) (otp_code s)
      (otp_phone s) (otp_resend_count s) (credit_score s)
      (salary_slip_uploaded s) (total_monthly_obligation s)
      (emi_to_income_ratio s) (risk_score s) (underwriting_decision s)
      (rejection_reason s) (conditional_requirements s)
      (underwriting_recommendations s) (sanction_letter_url s)
      (sanction_letter_ref_no s) (application_status s) (session_id s)
      (total_interactions s) (last_error s)
  | K.customer_phone => fun v s =>
      mkState (customer_id s) (customer_name s) v (conversation_history s)
      (current_stage s) (active_agent s) (next_action s) (requested_amount s)
      (approved_amount s) (tenure_months s) (interest_rate s) (monthly_emi s)
      (customer_needs s) (recommended_offers s) (selected_offer s)
      (kyc_verified s) (kyc_pan s) (kyc_aadhaar_last4 s) (kyc_dob s)
      (kyc_email s) (alt_phone s) (phone_verified s) (address_verified s)
      (otp_sent s) (otp_attempts s) (otp_provider s) (otp_code s)
      (otp_phone s) (otp_resend_count s) (credit_score s)
      (salary_slip_uploaded s) (total_monthly_obligation s)
      (emi_to_income_ratio s) (risk_score s) (underwriting_decision s)
      (rejection_reason s) (conditional_requirements s)
      (underwriting_recommendations s) (sanction_letter_url s)
      (sanction_letter_ref_no s) (application_status s) (session_id s)
      (total_interactions s) (last_error s)
  | K.conversation_history => fun v s =>
      mkState (customer_id s) (customer_name s) (customer_phone s) v
      (current_stage s) (active_agent s) (next_action s) (requested_amount s)
      (approved_amount s) (tenure_months s) (interest_rate s) (monthly_emi s)
      (customer_needs s) (recommended_offers s) (selected_offer s)
      (kyc_verified s) (kyc_pan s) (kyc_aadhaar_last4 s) (kyc_dob s)
      (kyc_email s) (alt_phone s) (phone_verified s) (address_verified s)
      (otp_sent s) (otp_attempts s) (otp_provider s) (otp_code s)
      (otp_phone s) (otp_resend_count s) (credit_score s)
      (salary_slip_uploaded s) (total_monthly_obligation s)
      (emi_to_income_ratio s) (risk_score s) (underwriting_decision s)
      (rejection_reason s) (conditional_requirements s)
      (underwriting_recommendations s) (sanction_letter_url s)
      (sanction_letter_ref_no s) (application_status s) (session_id s)
      (total_interactions s) (last_error s)
  | K.current_stage => fun v s =>
      mkState (customer_id s) (customer_name s) (customer_phone s)
      (conversation_history s) v (active_agent s) (next_action s)
      (requested_amount s) (approved_amount s) (tenure_months s)
      (interest_rate s) (monthly_emi s) (customer_needs s)
      (recommended_offers s) (selected_offer s) (kyc_verified s) (kyc_pan s)
      (kyc_aadhaar_last4 s) (kyc_dob s) (kyc_email s) (alt_phone s)
      (phone_verified s) (address_verified s) (otp_sent s) (otp_attempts s)
      (otp_provider s) (otp_code s) (otp_phone s) (otp_resend_count s)
      (credit_score s) (salary_slip_uploaded s) (total_monthly_obligation s)
      (emi_to_income_ratio s) (risk_score s) (underwriting_decision s)
      (rejection_reason s) (conditional_requirements s)
      (underwriting_recommendations s) (sanction_letter_url s)
      (sanction_letter_ref_no s) (application_status s) (session_id s)
      (total_interactions s) (last_error s)
  | K.active_agent => fun v s =>
      mkState (customer_id s) (customer_name s) (customer_phone s)
      (conversation_history s) (current_stage s) v (next_action s)
      (requested_amount s) (approved_amount s) (tenure_months s)
      (interest_rate s) (monthly_emi s) (customer_needs s)
      (recommended_offers s) (selected_offer s) (kyc_verified s) (kyc_pan s)
      (kyc_aadhaar_last4 s) (kyc_dob s) (kyc_email s) (alt_phone s)
      (phone_verified s) (address_verified s) (otp_sent s) (otp_attempts s)
      (otp_provider s) (otp_code s) (otp_phone s) (otp_resend_count s)
      (credit_score s) (salary_slip_uploaded s) (total_monthly_obligation s)
      (emi_to_income_ratio s) (risk_score s) (underwriting_decision s)
      (rejection_reason s) (conditional_requirements s)
      (underwriting_recommendations s) (sanction_letter_url s)
      (sanction_letter_ref_no s) (application_status s) (session_id s)
      (total_interactions s) (last_error s)
  | K.next_action => fun v s =>
      mkState (customer_id s) (customer_name s) (customer_phone s)
      (conversation_history s) (current_stage s) (active_agent s) v
      (requested_amount s) (approved_amount s) (tenure_months s)
      (interest_rate s) (monthly_emi s) (customer_needs s)
      (recommended_offers s) (selected_offer s) (kyc_verified s) (kyc_pan s)
      (kyc_aadhaar_last4 s) (kyc_dob s) (kyc_email s) (alt_phone s)
      (phone_verified s) (address_verified s) (otp_sent s) (otp_attempts s)
      (otp_provider s) (otp_code s) (otp_phone s) (otp_resend_count s)
      (credit_score s) (salary_slip_uploaded s) (total_monthly_obligation s)
      (emi_to_income_ratio s) (risk_score s) (underwriting_decision s)
      (rejection_reason s) (conditional_requirements s)
      (underwriting_recommendations s) (sanction_letter_url s)
      (sanction_letter_ref_no s) (application_status s) (session_id s)
      (total_interactions s) (last_error s)
  | K.requested_amount => fun v s =>
      mkState (customer_id s) (customer_name s) (customer_phone s)
      (conversation_history s) (current_stage s) (active_agent s)
      (next_action s) v (approved_amount s) (tenure_months s)
      (interest_rate s) (monthly_emi s) (customer_needs s)
      (recommended_offers s) (selected_offer s) (kyc_verified s) (kyc_pan s)
      (kyc_aadhaar_last4 s) (kyc_dob s) (kyc_email s) (alt_phone s)
      (phone_verified s) (address_verified s) (otp_sent s) (otp_attempts s)
      (otp_provider s) (otp_code s) (otp_phone s) (otp_resend_count s)
      (credit_score s) (salary_slip_uploaded s) (total_monthly_obligation s)
      (emi_to_income_ratio s) (risk_score s) (underwriting_decision s)
      (rejection_reason s) (conditional_requirements s)
      (underwriting_recommendations s) (sanction_letter_url s)
      (sanction_letter_ref_no s) (application_status s) (session_id s)
      (total_interactions s) (last_error s)
  | K.approved_amount => fun v s =>
      mkState (customer_id s) (customer_name s) (customer_phone s)
      (conversation_history s) (current_stage s) (active_agent s)
      (next_action s) (requested_amount s) v (tenure_months s)
      (interest_rate s) (monthly_emi s) (customer_needs s)
      (recommended_offers s) (selected_offer s) (kyc_verified s) (kyc_pan s)
      (kyc_aadhaar_last4 s) (kyc_dob s) (kyc_email s) (alt_phone s)
      (phone_verified s) (address_verified s) (otp_sent s) (otp_attempts s)
      (otp_provider s) (otp_code s) (otp_phone s) (otp_resend_count s)
      (credit_score s) (salary_slip_uploaded s) (total_monthly_obligation s)
      (emi_to_income_ratio s) (risk_score s) (underwriting_decision s)
      (rejection_reason s) (conditional_requirements s)
      (underwriting_recommendations s) (sanction_letter_url s)
      (sanction_letter_ref_no s) (application_status s) (session_id s)
      (total_interactions s) (last_error s)
  | K.tenure_months => fun v s =>
      mkState (customer_id s) (customer_name s) (customer_phone s)
      (conversation_history s) (current_stage s) (active_agent s)
      (next_action s) (requested_amount s) (approved_amount s) v
      (interest_rate s) (monthly_emi s) (customer_needs s)
      (recommended_offers s) (selected_offer s) (kyc_verified s) (kyc_pan s)
      (kyc_aadhaar_last4 s) (kyc_dob s) (kyc_email s) (alt_phone s)
      (phone_verified s) (address_verified s) (otp_sent s) (otp_attempts s)
      (otp_provider s) (otp_code s) (otp_phone s) (otp_resend_count s)
      (credit_score s) (salary_slip_uploaded s) (total_monthly_obligation s)
      (emi_to_income_ratio s) (risk_score s) (underwriting_decision s)
      (rejection_reason s) (conditional_requirements s)
      (underwriting_recommendations s) (sanction_letter_url s)
      (sanction_letter_ref_no s) (application_status s) (session_id s)
      (total_interactions s) (last_error s)
  | K.interest_rate => fun v s =>
      mkState (customer_id s) (customer_name s) (customer_phone s)
      (conversation_history s) (current_stage s) (active_agent s)
      (next_action s) (requested_amount s) (approved_amount s)
      (tenure_months s) v (monthly_emi s) (customer_needs s)
      (recommended_offers s) (selected_offer s) (kyc_verified s) (kyc_pan s)
      (kyc_aadhaar_last4 s) (kyc_dob s) (kyc_email s) (alt_phone s)
      (phone_verified s) (address_verified s) (otp_sent s) (otp_attempts s)
      (otp_provider s) (otp_code s) (otp_phone s) (otp_resend_count s)
      (credit_score s) (salary_slip_uploaded s) (total_monthly_obligation s)
      (emi_to_income_ratio s) (risk_score s) (underwriting_decision s)
      (rejection_reason s) (conditional_requirements s)
      (underwriting_recommendations s) (sanction_letter_url s)
      (sanction_letter_ref_no s) (application_status s) (session_id s)
      (total_interactions s) (last_error s)
  | K.monthly_emi => fun v s =>
      mkState (customer_id s) (customer_name s) (customer_phone s)
      (conversation_history s) (current_stage s) (active_agent s)
      (next_action s) (requested_amount s) (approved_amount s)
      (tenure_months s) (interest_rate s) v (customer_needs s)
      (recommended_offers s) (selected_offer s) (kyc_verified s) (kyc_pan s)
      (kyc_aadhaar_last4 s) (kyc_dob s) (kyc_email s) (alt_phone s)
      (phone_verified s) (address_verified s) (otp_sent s) (otp_attempts s)
      (otp_provider s) (otp_code s) (otp_phone s) (otp_resend_count s)
      (credit_score s) (salary_slip_uploaded s) (total_monthly_obligation s)
      (emi_to_income_ratio s) (risk_score s) (underwriting_decision s)
      (rejection_reason s) (conditional_requirements s)
      (underwriting_recommendations s) (sanction_letter_url s)
      (sanction_letter_ref_no s) (application_status s) (session_id s)
      (total_interactions s) (last_error s)
  | K.customer_needs => fun v s =>
      mkState (customer_id s) (customer_name s) (customer_phone s)
      (conversation_history s) (current_stage s) (active_agent s)
      (next_action s) (requested_amount s) (approved_amount s)
      (tenure_months s) (interest_rate s) (monthly_emi s) v
      (recommended_offers s) (selected_offer s) (kyc_verified s) (kyc_pan s)
      (kyc_aadhaar_last4 s) (kyc_dob s) (kyc_email s) (alt_phone s)
      (phone_verified s) (address_verified s) (otp_sent s) (otp_attempts s)
      (otp_provider s) (otp_code s) (otp_phone s) (otp_resend_count s)
      (credit_score s) (salary_slip_uploaded s) (total_monthly_obligation s)
      (emi_to_income_ratio s) (risk_score s) (underwriting_decision s)
      (rejection_reason s) (conditional_requirements s)
      (underwriting_recommendations s) (sanction_letter_url s)
      (sanction_letter_ref_no s) (application_status s) (session_id s)
      (total_interactions s) (last_error s)
  | K.recommended_offers => fun v s =>
      mkState (customer_id s) (customer_name s) (customer_phone s)
      (conversation_history s) (current_stage s) (active_agent s)
      (next_action s) (requested_amount s) (approved_amount s)
      (tenure_months s) (interest_rate s) (monthly_emi s) (customer_needs s) v
      (selected_offer s) (kyc_verified s) (kyc_pan s) (kyc_aadhaar_last4 s)
      (kyc_dob s) (kyc_email s) (alt_phone s) (phone_verified s)
      (address_verified s) (otp_sent s) (otp_attempts s) (otp_provider s)
      (otp_code s) (otp_phone s) (otp_resend_count s) (credit_score s)
      (salary_slip_uploaded s) (total_monthly_obligation s)
      (emi_to_income_ratio s) (risk_score s) (underwriting_decision s)
      (rejection_reason s) (conditional_requirements s)
      (underwriting_recommendations s) (sanction_letter_url s)
      (sanction_letter_ref_no s) (application_status s) (session_id s)
      (total_interactions s) (last_error s)
  | K.selected_offer => fun v s =>
      mkState (customer_id s) (customer_name s) (customer_phone s)
      (conversation_history s) (current_stage s) (active_agent s)
      (next_action s) (requested_amount s) (approved_amount s)
      (tenure_months s) (interest_rate s) (monthly_emi s) (customer_needs s)
      (recommended_offers s) v (kyc_verified s) (kyc_pan s)
      (kyc_aadhaar_last4 s) (kyc_dob s) (kyc_email s) (alt_phone s)
      (phone_verified s) (address_verified s) (otp_sent s) (otp_attempts s)
      (otp_provider s) (otp_code s) (otp_phone s) (otp_resend_count s)
      (credit_score s) (salary_slip_uploaded s) (total_monthly_obligation s)
      (emi_to_income_ratio s) (risk_score s) (underwriting_decision s)
      (rejection_reason s) (conditional_requirements s)
      (underwriting_recommendations s) (sanction_letter_url s)
      (sanction_letter_ref_no s) (application_status s) (session_id s)
      (total_interactions s) (last_error s)
  | K.kyc_verified => fun v s =>
      mkState (customer_id s) (customer_name s) (customer_phone s)
      (conversation_history s) (current_stage s) (active_agent s)
      (next_action s) (requested_amount s) (approved_amount s)
      (tenure_months s) (interest_rate s) (monthly_emi s) (customer_needs s)
      (recommended_offers s) (selected_offer s) v (kyc_pan s)
      (kyc_aadhaar_last4 s) (kyc_dob s) (kyc_email s) (alt_phone s)
      (phone_verified s) (address_verified s) (otp_sent s) (otp_attempts s)
      (otp_provider s) (otp_code s) (otp_phone s) (otp_resend_count s)
      (credit_score s) (salary_slip_uploaded s) (total_monthly_obligation s)
      (emi_to_income_ratio s) (risk_score s) (underwriting_decision s)
      (rejection_reason s) (conditional_requirements s)
      (underwriting_recommendations s) (sanction_letter_url s)
      (sanction_letter_ref_no s) (application_status s) (session_id s)
      (total_interactions s) (last_error s)
  | K.kyc_pan => fun v s =>
      mkState (customer_id s) (customer_name s) (customer_phone s)
      (conversation_history s) (current_stage s) (active_agent s)
      (next_action s) (requested_amount s) (approved_amount s)
      (tenure_months s) (interest_rate s) (monthly_emi s) (customer_needs s)
      (recommended_offers s) (selected_offer s) (kyc_verified s) v
      (kyc_aadhaar_last4 s) (kyc_dob s) (kyc_email s) (alt_phone s)
      (phone_verified s) (address_verified s) (otp_sent s) (otp_attempts s)
      (otp_provider s) (otp_code s) (otp_phone s) (otp_resend_count s)
      (credit_score s) (salary_slip_uploaded s) (total_monthly_obligation s)
      (emi_to_income_ratio s) (risk_score s) (underwriting_decision s)
      (rejection_reason s) (conditional_requirements s)
      (underwriting_recommendations s) (sanction_letter_url s)
      (sanction_letter_ref_no s) (application_status s) (session_id s)
      (total_interactions s) (last_error s)
  | K.kyc_aadhaar_last4 => fun v s =>
      mkState (customer_id s) (customer_name s) (customer_phone s)
      (conversation_history s) (current_stage s) (active_agent s)
      (next_action s) (requested_amount s) (approved_amount s)
      (tenure_months s) (interest_rate s) (monthly_emi s) (customer_needs s)
      (recommended_offers s) (selected_offer s) (kyc_verified s) (kyc_pan s) v
      (kyc_dob s) (kyc_email s) (alt_phone s) (phone_verified s)
      (address_verified s) (otp_sent s) (otp_attempts s) (otp_provider s)
      (otp_code s) (otp_phone s) (otp_resend_count s) (credit_score s)
      (salary_slip_uploaded s) (total_monthly_obligation s)
      (emi_to_income_ratio s) (risk_score s) (underwriting_decision s)
      (rejection_reason s) (conditional_requirements s)
      (underwriting_recommendations s) (sanction_letter_url s)
      (sanction_letter_ref_no s) (application_status s) (session_id s)
      (total_interactions s) (last_error s)
  | K.kyc_dob => fun v s =>
      mkState (customer_id s) (customer_name s) (customer_phone s)
      (conversation_history s) (current_stage s) (active_agent s)
      (next_action s) (requested_amount s) (approved_amount s)
      (tenure_months s) (interest_rate s) (monthly_emi s) (customer_needs s)
      (recommended_offers s) (selected_offer s) (kyc_verified s) (kyc_pan s)
      (kyc_aadhaar_last4 s) v (kyc_email s) (alt_phone s) (phone_verified s)
      (address_verified s) (otp_sent s) (otp_attempts s) (otp_provider s)
      (otp_code s) (otp_phone s) (otp_resend_count s) (credit_score s)
      (salary_slip_uploaded s) (total_monthly_obligation s)
      (emi_to_income_ratio s) (risk_score s) (underwriting_decision s)
      (rejection_reason s) (conditional_requirements s)
      (underwriting_recommendations s) (sanction_letter_url s)
      (sanction_letter_ref_no s) (application_status s) (session_id s)
      (total_interactions s) (last_error s)
  | K.kyc_email => fun v s =>
      mkState (customer_id s) (customer_name s) (customer_phone s)
      (conversation_history s) (current_stage s) (active_agent s)
      (next_action s) (requested_amount s) (approved_amount s)
      (tenure_months s) (interest_rate s) (monthly_emi s) (customer_needs s)
      (recommended_offers s) (selected_offer s) (kyc_verified s) (kyc_pan s)
      (kyc_aadhaar_last4 s) (kyc_dob s) v (alt_phone s) (phone_verified s)
      (address_verified s) (otp_sent s) (otp_attempts s) (otp_provider s)
      (otp_code s) (otp_phone s) (otp_resend_count s) (credit_score s)
      (salary_slip_uploaded s) (total_monthly_obligation s)
      (emi_to_income_ratio s) (risk_score s) (underwriting_decision s)
      (rejection_reason s) (conditional_requirements s)
      (underwriting_recommendations s) (sanction_letter_url s)
      (sanction_letter_ref_no s) (application_status s) (session_id s)
      (total_interactions s) (last_error s)
  | K.alt_phone => fun v s =>
      mkState (customer_id s) (customer_name s) (customer_phone s)
      (conversation_history s) (current_stage s) (active_agent s)
      (next_action s) (requested_amount s) (approved_amount s)
      (tenure_months s) (interest_rate s) (monthly_emi s) (customer_needs s)
      (recommended_offers s) (selected_offer s) (kyc_verified s) (kyc_pan s)
      (kyc_aadhaar_last4 s) (kyc_dob s) (kyc_email s) v (phone_verified s)
      (address_verified s) (otp_sent s) (otp_attempts s) (otp_provider s)
      (otp_code s) (otp_phone s) (otp_resend_count s) (credit_score s)
      (salary_slip_uploaded s) (total_monthly_obligation s)
      (emi_to_income_ratio s) (risk_score s) (underwriting_decision s)
      (rejection_reason s) (conditional_requirements s)
      (underwriting_recommendations s) (sanction_letter_url s)
      (sanction_letter_ref_no s) (application_status s) (session_id s)
      (total_interactions s) (last_error s)
  | K.phone_verified => fun v s =>
      mkState (customer_id s) (customer_name s) (customer_phone s)
      (conversation_history s) (current_stage s) (active_agent s)
      (next_action s) (requested_amount s) (approved_amount s)
      (tenure_months s) (interest_rate s) (monthly_emi s) (customer_needs s)
      (recommended_offers s) (selected_offer s) (kyc_verified s) (kyc_pan s)
      (kyc_aadhaar_last4 s) (kyc_dob s) (kyc_email s) (alt_phone s) v
      (address_verified s) (otp_sent s) (otp_attempts s) (otp_provider s)
      (otp_code s) (otp_phone s) (otp_resend_count s) (credit_score s)
      (salary_slip_uploaded s) (total_monthly_obligation s)
      (emi_to_income_ratio s) (risk_score s) (underwriting_decision s)
      (rejection_reason s) (conditional_requirements s)
      (underwriting_recommendations s) (sanction_letter_url s)
      (sanction_letter_ref_no s) (application_status s) (session_id s)
      (total_interactions s) (last_error s)
  | K.address_verified => fun v s =>
      mkState (customer_id s) (customer_name s) (customer_phone s)
      (conversation_history s) (current_stage s) (active_agent s)
      (next_action s) (requested_amount s) (approved_amount s)
      (tenure_months s) (interest_rate s) (monthly_emi s) (customer_needs s)
      (recommended_offers s) (selected_offer s) (kyc_verified s) (kyc_pan s)
      (kyc_aadhaar_last4 s) (kyc_dob s) (kyc_email s) (alt_phone s)
      (phone_verified s) v (otp_sent s) (otp_attempts s) (otp_provider s)
      (otp_code s) (otp_phone s) (otp_resend_count s) (credit_score s)
      (salary_slip_uploaded s) (total_monthly_obligation s)
      (emi_to_income_ratio s) (risk_score s) (underwriting_decision s)
      (rejection_reason s) (conditional_requirements s)
      (underwriting_recommendations s) (sanction_letter_url s)
      (sanction_letter_ref_no s) (application_status s) (session_id s)
      (total_interactions s) (last_error s)
  | K.otp_sent => fun v s =>
      mkState (customer_id s) (customer_name s) (customer_phone s)
      (conversation_history s) (current_stage s) (active_agent s)
      (next_action s) (requested_amount s) (approved_amount s)
      (tenure_months s) (interest_rate s) (monthly_emi s) (customer_needs s)
      (recommended_offers s) (selected_offer s) (kyc_verified s) (kyc_pan s)
      (kyc_aadhaar_last4 s) (kyc_dob s) (kyc_email s) (alt_phone s)
      (phone_verified s) (address_verified s) v (otp_attempts s)
      (otp_provider s) (otp_code s) (otp_phone s) (otp_resend_count s)
      (credit_score s) (salary_slip_uploaded s) (total_monthly_obligation s)
      (emi_to_income_ratio s) (risk_score s) (underwriting_decision s)
      (rejection_reason s) (conditional_requirements s)
      (underwriting_recommendations s) (sanction_letter_url s)
      (sanction_letter_ref_no s) (application_status s) (session_id s)
      (total_interactions s) (last_error s)
  | K.otp_attempts => fun v s =>
      mkState (customer_id s) (customer_name s) (customer_phone s)
      (conversation_history s) (current_stage s) (active_agent s)
      (next_action s) (requested_amount s) (approved_amount s)
      (tenure_months s) (interest_rate s) (monthly_emi s) (customer_needs s)
      (recommended_offers s) (selected_offer s) (kyc_verified s) (kyc_pan s)
      (kyc_aadhaar_last4 s) (kyc_dob s) (kyc_email s) (alt_phone s)
      (phone_verified s) (address_verified s) (otp_sent s) v (otp_provider s)
      (otp_code s) (otp_phone s) (otp_resend_count s) (credit_score s)
      (salary_slip_uploaded s) (total_monthly_obligation s)
      (emi_to_income_ratio s) (risk_score s) (underwriting_decision s)
      (rejection_reason s) (conditional_requirements s)
      (underwriting_recommendations s) (sanction_letter_url s)
      (sanction_letter_ref_no s) (application_status s) (session_id s)
      (total_interactions s) (last_error s)
  | K.otp_provider => fun v s =>
      mkState (customer_id s) (customer_name s) (customer_phone s)
      (conversation_history s) (current_stage s) (active_agent s)
      (next_action s) (requested_amount s) (approved_amount s)
      (tenure_months s) (interest_rate s) (monthly_emi s) (customer_needs s)
      (recommended_offers s) (selected_offer s) (kyc_verified s) (kyc_pan s)
      (kyc_aadhaar_last4 s) (kyc_dob s) (kyc_email s) (alt_phone s)
      (phone_verified s) (address_verified s) (otp_sent s) (otp_attempts s) v
      (otp_code s) (otp_phone s) (otp_resend_count s) (credit_score s)
      (salary_slip_uploaded s) (total_monthly_obligation s)
      (emi_to_income_ratio s) (risk_score s) (underwriting_decision s)
      (rejection_reason s) (conditional_requirements s)
      (underwriting_recommendations s) (sanction_letter_url s)
      (sanction_letter_ref_no s) (application_status s) (session_id s)
      (total_interactions s) (last_error s)
  | K.otp_code => fun v s =>
      mkState (customer_id s) (customer_name s) (customer_phone s)
      (conversation_history s) (current_stage s) (active_agent s)
      (next_action s) (requested_amount s) (approved_amount s)
      (tenure_months s) (interest_rate s) (monthly_emi s) (customer_needs s)
      (recommended_offers s) (selected_offer s) (kyc_verified s) (kyc_pan s)
      (kyc_aadhaar_last4 s) (kyc_dob s) (kyc_email s) (alt_phone s)
      (phone_verified s) (address_verified s) (otp_sent s) (otp_attempts s)
      (otp_provider s) v (otp_phone s) (otp_resend_count s) (credit_score s)
      (salary_slip_uploaded s) (total_monthly_obligation s)
      (emi_to_income_ratio s) (risk_score s) (underwriting_decision s)
      (rejection_reason s) (conditional_requirements s)
      (underwriting_recommendations s) (sanction_letter_url s)
      (sanction_letter_ref_no s) (application_status s) (session_id s)
      (total_interactions s) (last_error s)
  | K.otp_phone => fun v s =>
      mkState (customer_id s) (customer_name s) (customer_phone s)
      (conversation_history s) (current_stage s) (active_agent s)
      (next_action s) (requested_amount s) (approved_amount s)
      (tenure_months s) (interest_rate s) (monthly_emi s) (customer_needs s)
      (recommended_offers s) (selected_offer s) (kyc_verified s) (kyc_pan s)
      (kyc_aadhaar_last4 s) (kyc_dob s) (kyc_email s) (alt_phone s)
      (phone_verified s) (address_verified s) (otp_sent s) (otp_attempts s)
      (otp_provider s) (otp_code s) v (otp_resend_count s) (credit_score s)
      (salary_slip_uploaded s) (total_monthly_obligation s)
      (emi_to_income_ratio s) (risk_score s) (underwriting_decision s)
      (rejection_reason s) (conditional_requirements s)
      (underwriting_recommendations s) (sanction_letter_url s)
      (sanction_letter_ref_no s) (application_status s) (session_id s)
      (total_interactions s) (last_error s)
  | K.otp_resend_count => fun v s =>
      mkState (customer_id s) (customer_name s) (customer_phone s)
      (conversation_history s) (current_stage s) (active_agent s)
      (next_action s) (requested_amount s) (approved_amount s)
      (tenure_months s) (interest_rate s) (monthly_emi s) (customer_needs s)
      (recommended_offers s) (selected_offer s) (kyc_verified s) (kyc_pan s)
      (kyc_aadhaar_last4 s) (kyc_dob s) (kyc_email s) (alt_phone s)
      (phone_verified s) (address_verified s) (otp_sent s) (otp_attempts s)
      (otp_provider s) (otp_code s) (otp_phone s) v (credit_score s)
      (salary_slip_uploaded s) (total_monthly_obligation s)
      (emi_to_income_ratio s) (risk_score s) (underwriting_decision s)
      (rejection_reason s) (conditional_requirements s)
      (underwriting_recommendations s) (sanction_letter_url s)
      (sanction_letter_ref_no s) (application_status s) (session_id s)
      (total_interactions s) (last_error s)
  | K.credit_score => fun v s =>
      mkState (customer_id s) (customer_name s) (customer_phone s)
      (conversation_history s) (current_stage s) (active_agent s)
      (next_action s) (requested_amount s) (approved_amount s)
      (tenure_months s) (interest_rate s) (monthly_emi s) (customer_needs s)
      (recommended_offers s) (selected_offer s) (kyc_verified s) (kyc_pan s)
      (kyc_aadhaar_last4 s) (kyc_dob s) (kyc_email s) (alt_phone s)
      (phone_verified s) (address_verified s) (otp_sent s) (otp_attempts s)
      (otp_provider s) (otp_code s) (otp_phone s) (otp_resend_count s) v
      (salary_slip_uploaded s) (total_monthly_obligation s)
      (emi_to_income_ratio s) (risk_score s) (underwriting_decision s)
      (rejection_reason s) (conditional_requirements s)
      (underwriting_recommendations s) (sanction_letter_url s)
      (sanction_letter_ref_no s) (application_status s) (session_id s)
      (total_interactions s) (last_error s)
  | K.salary_slip_uploaded => fun v s =>
      mkState (customer_id s) (customer_name s) (customer_phone s)
      (conversation_history s) (current_stage s) (active_agent s)
      (next_action s) (requested_amount s) (approved_amount s)
      (tenure_months s) (interest_rate s) (monthly_emi s) (customer_needs s)
      (recommended_offers s) (selected_offer s) (kyc_verified s) (kyc_pan s)
      (kyc_aadhaar_last4 s) (kyc_dob s) (kyc_email s) (alt_phone s)
      (phone_verified s) (address_verified s) (otp_sent s) (otp_attempts s)
      (otp_provider s) (otp_code s) (otp_phone s) (otp_resend_count s)
      (credit_score s) v (total_monthly_obligation s) (emi_to_income_ratio s)
      (risk_score s) (underwriting_decision s) (rejection_reason s)
      (conditional_requirements s) (underwriting_recommendations s)
      (sanction_letter_url s) (sanction_letter_ref_no s)
      (application_status s) (session_id s) (total_interactions s)
      (last_error s)
  | K.total_monthly_obligation => fun v s =>
      mkState (customer_id s) (customer_name s) (customer_phone s)
      (conversation_history s) (current_stage s) (active_agent s)
      (next_action s) (requested_amount s) (approved_amount s)
      (tenure_months s) (interest_rate s) (monthly_emi s) (customer_needs s)
      (recommended_offers s) (selected_offer s) (kyc_verified s) (kyc_pan s)
      (kyc_aadhaar_last4 s) (kyc_dob s) (kyc_email s) (alt_phone s)
      (phone_verified s) (address_verified s) (otp_sent s) (otp_attempts s)
      (otp_provider s) (otp_code s) (otp_phone s) (otp_resend_count s)
      (credit_score s) (salary_slip_uploaded s) v (emi_to_income_ratio s)
      (risk_score s) (underwriting_decision s) (rejection_reason s)
      (conditional_requirements s) (underwriting_recommendations s)
      (sanction_letter_url s) (sanction_letter_ref_no s)
      (application_status s) (session_id s) (total_interactions s)
      (last_error s)
  | K.emi_to_income_ratio => fun v s =>
      mkState (customer_id s) (customer_name s) (customer_phone s)
      (conversation_history s) (current_stage s) (active_agent s)
      (next_action s) (requested_amount s) (approved_amount s)
      (tenure_months s) (interest_rate s) (monthly_emi s) (customer_needs s)
      (recommended_offers s) (selected_offer s) (kyc_verified s) (kyc_pan s)
      (kyc_aadhaar_last4 s) (kyc_dob s) (kyc_email s) (alt_phone s)
      (phone_verified s) (address_verified s) (otp_sent s) (otp_attempts s)
      (otp_provider s) (otp_code s) (otp_phone s) (otp_resend_count s)
      (credit_score s) (salary_slip_uploaded s) (total_monthly_obligation s) v
      (risk_score s) (underwriting_decision s) (rejection_reason s)
      (conditional_requirements s) (underwriting_recommendations s)
      (sanction_letter_url s) (sanction_letter_ref_no s)
      (application_status s) (session_id s) (total_interactions s)
      (last_error s)
  | K.risk_score => fun v s =>
      mkState (customer_id s) (customer_name s) (customer_phone s)
      (conversation_history s) (current_stage s) (active_agent s)
      (next_action s) (requested_amount s) (approved_amount s)
      (tenure_months s) (interest_rate s) (monthly_emi s) (customer_needs s)
      (recommended_offers s) (selected_offer s) (kyc_verified s) (kyc_pan s)
      (kyc_aadhaar_last4 s) (kyc_dob s) (kyc_email s) (alt_phone s)
      (phone_verified s) (address_verified s) (otp_sent s) (otp_attempts s)
      (otp_provider s) (otp_code s) (otp_phone s) (otp_resend_count s)
      (credit_score s) (salary_slip_uploaded s) (total_monthly_obligation s)
      (emi_to_income_ratio s) v (underwriting_decision s) (rejection_reason s)
      (conditional_requirements s) (underwriting_recommendations s)
      (sanction_letter_url s) (sanction_letter_ref_no s)
      (application_status s) (session_id s) (total_interactions s)
      (last_error s)
  | K.underwriting_decision => fun v s =>
      mkState (customer_id s) (customer_name s) (customer_phone s)
      (conversation_history s) (current_stage s) (active_agent s)
      (next_action s) (requested_amount s) (approved_amount s)
      (tenure_months s) (interest_rate s) (monthly_emi s) (customer_needs s)
      (recommended_offers s) (selected_offer s) (kyc_verified s) (kyc_pan s)
      (kyc_aadhaar_last4 s) (kyc_dob s) (kyc_email s) (alt_phone s)
      (phone_verified s) (address_verified s) (otp_sent s) (otp_attempts s)
      (otp_provider s) (otp_code s) (otp_phone s) (otp_resend_count s)
      (credit_score s) (salary_slip_uploaded s) (total_monthly_obligation s)
      (emi_to_income_ratio s) (risk_score s) v (rejection_reason s)
      (conditional_requirements s) (underwriting_recommendations s)
      (sanction_letter_url s) (sanction_letter_ref_no s)
      (application_status s) (session_id s) (total_interactions s)
      (last_error s)
  | K.rejection_reason => fun v s =>
      mkState (customer_id s) (customer_name s) (customer_phone s)
      (conversation_history s) (current_stage s) (active_agent s)
      (next_action s) (requested_amount s) (approved_amount s)
      (tenure_months s) (interest_rate s) (monthly_emi s) (customer_needs s)
      (recommended_offers s) (selected_offer s) (kyc_verified s) (kyc_pan s)
      (kyc_aadhaar_last4 s) (kyc_dob s) (kyc_email s) (alt_phone s)
      (phone_verified s) (address_verified s) (otp_sent s) (otp_attempts s)
      (otp_provider s) (otp_code s) (otp_phone s) (otp_resend_count s)
      (credit_score s) (salary_slip_uploaded s) (total_monthly_obligation s)
      (emi_to_income_ratio s) (risk_score s) (underwriting_decision s) v
      (conditional_requirements s) (underwriting_recommendations s)
      (sanction_letter_url s) (sanction_letter_ref_no s)
      (application_status s) (session_id s) (total_interactions s)
      (last_error s)
  | K.conditional_requirements => fun v s =>
      mkState (customer_id s) (customer_name s) (customer_phone s)
      (conversation_history s) (current_stage s) (active_agent s)
      (next_action s) (requested_amount s) (approved_amount s)
      (tenure_months s) (interest_rate s) (monthly_emi s) (customer_needs s)
      (recommended_offers s) (selected_offer s) (kyc_verified s) (kyc_pan s)
      (kyc_aadhaar_last4 s) (kyc_dob s) (kyc_email s) (alt_phone s)
      (phone_verified s) (address_verified s) (otp_sent s) (otp_attempts s)
      (otp_provider s) (otp_code s) (otp_phone s) (otp_resend_count s)
      (credit_score s) (salary_slip_uploaded s) (total_monthly_obligation s)
      (emi_to_income_ratio s) (risk_score s) (underwriting_decision s)
      (rejection_reason s) v (underwriting_recommendations s)
      (sanction_letter_url s) (sanction_letter_ref_no s)
      (application_status s) (session_id s) (total_interactions s)
      (last_error s)
  | K.underwriting_recommendations => fun v s =>
      mkState (customer_id s) (customer_name s) (customer_phone s)
      (conversation_history s) (current_stage s) (active_agent s)
      (next_action s) (requested_amount s) (approved_amount s)
      (tenure_months s) (interest_rate s) (monthly_emi s) (customer_needs s)
      (recommended_offers s) (selected_offer s) (kyc_verified s) (kyc_pan s)
      (kyc_aadhaar_last4 s) (kyc_dob s) (kyc_email s) (alt_phone s)
      (phone_verified s) (address_verified s) (otp_sent s) (otp_attempts s)
      (otp_provider s) (otp_code s) (otp_phone s) (otp_resend_count s)
      (credit_score s) (salary_slip_uploaded s) (total_monthly_obligation s)
      (emi_to_income_ratio s) (risk_score s) (underwriting_decision s)
      (rejection_reason s) (conditional_requirements s) v
      (sanction_letter_url s) (sanction_letter_ref_no s)
      (application_status s) (session_id s) (total_interactions s)
      (last_error s)
  | K.sanction_letter_url => fun v s =>
      mkState (customer_id s) (customer_name s) (customer_phone s)
      (conversation_history s) (current_stage s) (active_agent s)
      (next_action s) (requested_amount s) (approved_amount s)
      (tenure_months s) (interest_rate s) (monthly_emi s) (customer_needs s)
      (recommended_offers s) (selected_offer s) (kyc_verified s) (kyc_pan s)
      (kyc_aadhaar_last4 s) (kyc_dob s) (kyc_email s) (alt_phone s)
      (phone_verified s) (address_verified s) (otp_sent s) (otp_attempts s)
      (otp_provider s) (otp_code s) (otp_phone s) (otp_resend_count s)
      (credit_score s) (salary_slip_uploaded s) (total_monthly_obligation s)
      (emi_to_income_ratio s) (risk_score s) (underwriting_decision s)
      (rejection_reason s) (conditional_requirements s)
      (underwriting_recommendations s) v (sanction_letter_ref_no s)
      (application_status s) (session_id s) (total_interactions s)
      (last_error s)
  | K.sanction_letter_ref_no => fun v s =>
      mkState (customer_id s) (customer_name s) (customer_phone s)
      (conversation_history s) (current_stage s) (active_agent s)
      (next_action s) (requested_amount s) (approved_amount s)
      (tenure_months s) (interest_rate s) (monthly_emi s) (customer_needs s)
      (recommended_offers s) (selected_offer s) (kyc_verified s) (kyc_pan s)
      (kyc_aadhaar_last4 s) (kyc_dob s) (kyc_email s) (alt_phone s)
      (phone_verified s) (address_verified s) (otp_sent s) (otp_attempts s)
      (otp_provider s) (otp_code s) (otp_phone s) (otp_resend_count s)
      (credit_score s) (salary_slip_uploaded s) (total_monthly_obligation s)
      (emi_to_income_ratio s) (risk_score s) (underwriting_decision s)
      (rejection_reason s) (conditional_requirements s)
      (underwriting_recommendations s) (sanction_letter_url s) v
      (application_status s) (session_id s) (total_interactions s)
      (last_error s)
  | K.application_status => fun v s =>
      mkState (customer_id s) (customer_name s) (customer_phone s)
      (conversation_history s) (current_stage s) (active_agent s)
      (next_action s) (requested_amount s) (approved_amount s)
      (tenure_months s) (interest_rate s) (monthly_emi s) (customer_needs s)
      (recommended_offers s) (selected_offer s) (kyc_verified s) (kyc_pan s)
      (kyc_aadhaar_last4 s) (kyc_dob s) (kyc_email s) (alt_phone s)
      (phone_verified s) (address_verified s) (otp_sent s) (otp_attempts s)
      (otp_provider s) (otp_code s) (otp_phone s) (otp_resend_count s)
      (credit_score s) (salary_slip_uploaded s) (total_monthly_obligation s)
      (emi_to_income_ratio s) (risk_score s) (underwriting_decision s)
      (rejection_reason s) (conditional_requirements s)
      (underwriting_recommendations s) (sanction_letter_url s)
      (sanction_letter_ref_no s) v (session_id s) (total_interactions s)
      (last_error s)
  | K.session_id => fun v s =>
      mkState (customer_id s) (customer_name s) (customer_phone s)
      (conversation_history s) (current_stage s) (active_agent s)
      (next_action s) (requested_amount s) (approved_amount s)
      (tenure_months s) (interest_rate s) (monthly_emi s) (customer_needs s)
      (recommended_offers s) (selected_offer s) (kyc_verified s) (kyc_pan s)
      (kyc_aadhaar_last4 s) (kyc_dob s) (kyc_email s) (alt_phone s)
      (phone_verified s) (address_verified s) (otp_sent s) (otp_attempts s)
      (otp_provider s) (otp_code s) (otp_phone s) (otp_resend_count s)
      (credit_score s) (salary_slip_uploaded s) (total_monthly_obligation s)
      (emi_to_income_ratio s) (risk_score s) (underwriting_decision s)
      (rejection_reason s) (conditional_requirements s)
      (underwriting_recommendations s) (sanction_letter_url s)
      (sanction_letter_ref_no s) (application_status s) v
      (total_interactions s) (last_error s)
  | K.total_interactions => fun v s =>
      mkState (customer_id s) (customer_name s) (customer_phone s)
      (conversation_history s) (current_stage s) (active_agent s)
      (next_action s) (requested_amount s) (approved_amount s)
      (tenure_months s) (interest_rate s) (monthly_emi s) (customer_needs s)
      (recommended_offers s) (selected_offer s) (kyc_verified s) (kyc_pan s)
      (kyc_aadhaar_last4 s) (kyc_dob s) (kyc_email s) (alt_phone s)
      (phone_verified s) (address_verified s) (otp_sent s) (otp_attempts s)
      (otp_provider s) (otp_code s) (otp_phone s) (otp_resend_count s)
      (credit_score s) (salary_slip_uploaded s) (total_monthly_obligation s)
      (emi_to_income_ratio s) (risk_score s) (underwriting_decision s)
      (rejection_reason s) (conditional_requirements s)
      (underwriting_recommendations s) (sanction_letter_url s)
      (sanction_letter_ref_no s) (application_status s) (session_id s) v
      (last_error s)
  | K.last_error => fun v s =>
      mkState (customer_id s) (customer_name s) (customer_phone s)
      (conversation_history s) (current_stage s) (active_agent s)
      (next_action s) (requested_amount s) (approved_amount s)
      (tenure_months s) (interest_rate s) (monthly_emi s) (customer_needs s)
      (recommended_offers s) (selected_offer s) (kyc_verified s) (kyc_pan s)
      (kyc_aadhaar_last4 s) (kyc_dob s) (kyc_email s) (alt_phone s)
      (phone_verified s) (address_verified s) (otp_sent s) (otp_attempts s)
      (otp_provider s) (otp_code s) (otp_phone s) (otp_resend_count s)
      (credit_score s) (salary_slip_uploaded s) (total_monthly_obligation s)
      (emi_to_income_ratio s) (risk_score s) (underwriting_decision s)
      (rejection_reason s) (conditional_requirements s)
      (underwriting_recommendations s) (sanction_letter_url s)
      (sanction_letter_ref_no s) (application_status s) (session_id s)
      (total_interactions s) v
  end.

Inductive assign : Type :=
| Assign {T : Type} (k : K.key T) (v : T).

Notation "k ::= v" := (Assign k v) (at level 70, no associativity).

Definition apply_assign (s : LoanApplicationState) (a : assign)
    : LoanApplicationState :=
  match a with Assign k v => set_key k v s end.

(** [update_state(state, updates)]: [{**state, **updates}]. *)
Definition update_state (state : LoanApplicationState) (updates : list assign)
    : LoanApplicationState :=
  fold_left apply_assign updates state.

(** [add_message(state, role, content, agent)]. *)
Definition add_message (state : LoanApplicationState) (r : Role)
    (c : string) (a : option string) : LoanApplicationState :=
  let message := mkMessage r c a in
  update_state state
    [ K.conversation_history ::= conversation_history state ++ [message];
      K.total_interactions ::= total_interactions state + 1 ].

(** [create_initial_state(customer_id)]; [sid] stands for the fresh
    [uuid.uuid4()]. *)
Definition create_initial_state (cid : option string) (sid : string)
    : LoanApplicationState :=
  {| customer_id := cid;
     customer_name := None;
     customer_phone := None;
     conversation_history := [];
     current_stage := "greeting";
     active_agent := "master";
     next_action := None;
     requested_amount := None;
     approved_amount := None;
     tenure_months := None;
     interest_rate := None;
     monthly_emi := None;
     customer_needs := None;
     recommended_offers := [];
     selected_offer := None;
     kyc_verified := false;
     kyc_pan := None;
     kyc_aadhaar_last4 := None;
     kyc_dob := None;
     kyc_email := None;
     alt_phone := None;
     phone_verified := false;
     address_verified := false;
     otp_sent := false;
     otp_attempts := 0;
     otp_provider := None;
     otp_code := None;
     otp_phone := None;
     otp_resend_count := 0;
     credit_score := None;
     salary_slip_uploaded := false;
     total_monthly_obligation := None;
     emi_to_income_ratio := None;
     risk_score := None;
     underwriting_decision := Some "pending";
     rejection_reason := None;
     conditional_requirements := [];
     underwriting_recommendations := [];
     sanction_letter_url := None;
     sanction_letter_ref_no := None;
     application_status := "in_progress";
     session_id := sid;
     total_interactions := 0;
     last_error := None |}.

(** *** Python truthiness of the values the code tests *)

Definition truthy_str (o : option string) : bool :=
  match o with Some s => PyStr.nonempty s | None => false end.
Definition truthy_num (o : option Q) : bool :=
  match o with Some q => negb (Qeq_bool q 0) | None => false end.
Definition truthy_int (o : option Z) : bool :=
  match o with Some z => negb (Z.eqb z 0) | None => false end.

(** [o == "text"] for an optional string. *)
Definition is_str (o : option string) (t : string) : bool :=
  match o with Some s => String.eqb s t | None => false end.

(** ** Results of the collaborators

    What the embedded code reads from the dictionaries its collaborators
    return.  A key that the code reads with [.get(key, default)] is an
    optional field. *)

(** A CRM customer ([get_customer_by_id]). *)
Record CrmCustomer : Type := mkCrm {
  crm_name : string;
  crm_phone : string;
  crm_city : string;
  crm_kyc_status : option string
}.

(** [verify_customer_details]: the verdict and the mismatches found. *)
Record Mismatch : Type := mkMismatch {
  provided_value : string;
  crm_value : string
}.
Record DetailsCheck : Type := mkDetails {
  details_verified : bool;
  details_mismatches : list Mismatch
}.

(** [SalesAgent.process_sales]. *)
Inductive SalesResult : Type :=
| SalesOk (offers : list LoanOffer) (recommended_offer : LoanOffer)
          (presentation : string)
| SalesFailed (error : option string).

(** [SalesAgent.handle_negotiation]. *)
Record NegotiationResult : Type := mkNegotiation {
  neg_response : option string;
  negotiation_approved : bool;
  neg_new_rate : option Q;
  neg_new_emi : option Q
}.

(** [UnderwritingAgent.process_underwriting]. *)
Record EligibilityDetails : Type := mkEligibility {
  el_reason : option string;
  el_monthly_emi : option Q;
  el_total_monthly_obligation : option Q;
  el_emi_to_income_ratio : option Q
}.
Inductive UnderwritingOutcome : Type :=
| UwOk (message : string) (score : option Z) (risk : option Q)
       (decision : string) (approved : option Q)
       (conditions : option (list string))
       (eligibility : option EligibilityDetails)
       (recommendations : option (list string))
| UwFailed (error : option string).

(** [SanctionAgent.generate_sanction]. *)
Inductive SanctionOutcome : Type :=
| SanctionOk (message : string) (url : string) (reference_number : string)
| SanctionFailed (error : option string).

(** What one call of the Twilio Verify client does: the import fails, the
    request raises, or the service answers with a status. *)
Inductive TwilioReply : Type :=
| NoClient (e : string)
| ApiError (e : string)
| ApiStatus (status : string).

(** ** Exceptions

    A stage either returns a record or raises; the compiled graph raises when
    it exceeds its recursion limit. *)

Inductive exn : Type := IndexError | GraphRecursionError.

Inductive outcome (A : Type) : Type :=
| Done (a : A)
| Raised (e : exn).
Arguments Done {A} a.
Arguments Raised {A} e.

#[export] Instance outcome_ret : MRet outcome := fun A a => Done a.
#[export] Instance outcome_bind : MBind outcome := fun A B f m =>
  match m with
  | Done a => f a
  | Raised e => Raised e
  end.

(** ** The orchestrator ([src/agents/master_agent.py]) *)

Module MasterAgent.
Import PyStr Re.
Local Open Scope re_scope.

(** The greeting for a customer whose name is not known. *)
Definition greeting_for_stranger : string :=
  "Hello! Welcome to FinTech NBFC! I'm your personal loan assistant. I'm here to help you get the funds you need with: Quick approval process, Competitive interest rates, Flexible repayment options, Minimal documentation. May I know your name to get started?".

(** [generate_greeting(customer_name)]. *)
Definition generate_greeting (customer_name : option string) : string :=
  match customer_name with
  | Some name =>
      if nonempty name
      then "Hello " +:+ name
           +:+ "! Welcome to FinTech NBFC - your trusted partner for personal loans. I'm here to help you with quick and easy loan approval. Whether you need funds for a wedding, education, medical emergency, or any personal need, I can assist you. How can I help you today?"
      else greeting_for_stranger
  | None => greeting_for_stranger
  end.

(** The numeric token of the amount patterns: digits, an optional point,
    digits; it is group 1. *)
Definition number : re :=
  Grp 1 (digits1 +++ Opt (lit ".") +++ star is_digit).

(** The [patterns] table of the [greeting] branch, in its order. *)
Definition patterns : list (re * Z) :=
  [ (number +++ spaces +++ alts [lit "lakh"; lit "lakhs"; lit "lac"; lit "lacs"],
     100000);
    (number +++ spaces +++ alts [lit "l"; lit "L"], 100000);
    (number +++ spaces +++ alts [lit "thousand"; lit "k"; lit "K"], 1000);
    (Grp 1 (times is_digit 4 None), 1) ].

(** The [for pattern, mult in patterns] loop: the first pattern of the
    table that matches decides, and the loop stops there. *)
Fixpoint first_amount (ps : list (re * Z)) (text : string) : option Q :=
  match ps with
  | [] => None
  | (pattern, mult) :: ps' =>
      match search pattern text with
      | Some m =>
          (fun g => Qred (float_of_token g * inject_Z mult)) <$> group 1 m
      | None => first_amount ps' text
      end
  end.

(** The pattern of the [needs_assessment] branch: digits, blanks, then one
    of lakh, lakhs, thousand, k, lac. *)
Definition amount_match : re :=
  Grp 1 digits1 +++ spaces
    +++ Grp 2 (alts [lit "lakh"; lit "lakhs"; lit "thousand"; lit "k"; lit "lac"]).

Definition accept_terms : list string :=
  [ "proceed"; "go ahead"; "accept"; "let's go"; "lets go";
    "confirm"; "finalize"; "book"; "i agree"; "looks good" ].

(** The word option, blanks, a digit from 1 to 9. *)
Definition option_pick : re :=
  lit "option" +++ spaces +++ Chr (one_of "123456789").

(** Between word boundaries: digits, blanks, one of year, years, yr, yrs,
    month, months. *)
Definition tenure_phrase : re :=
  WordB +++ Grp 1 digits1 +++ spaces
    +++ Grp 2 (alts [lit "year"; lit "years"; lit "yr"; lit "yrs";
                     lit "month"; lit "months"])
    +++ WordB.

Definition negotiation_cues : list string :=
  [ "rate"; "reduce"; "discount"; "lower"; "cheaper"; "negotiate";
    "negotiation"; "emi" ].

(** Digits, blanks, a percent sign. *)
Definition percent : re := digits1 +++ spaces +++ lit "%".

(** Four to six digits between word boundaries. *)
Definition code_token : re :=
  WordB +++ times is_digit 4 (Some 6%nat) +++ WordB.

(** [_determine_next_action(current_stage, user_message, response, state)].
    The function assigns [state["requested_amount"]] in place in one
    branch, so the record is returned with the pair. *)
Definition _determine_next_action (current_stage : string)
    (user_message : string) (state : LoanApplicationState)
    : (option string * string) * LoanApplicationState :=
  let user_message_lower := lower user_message in
  if String.eqb current_stage "greeting" then
    if truthy_num (requested_amount state)
    then ((Some "delegate_to_sales", "sales_negotiation"), state)
    else
      let amt := first_amount patterns user_message_lower in
      if truthy_num amt
      then ((Some "delegate_to_sales", "sales_negotiation"),
            set_key K.requested_amount amt state)
      else if contains_any user_message_lower
                ["loan"; "money"; "borrow"; "need"; "want"]
      then ((None, "needs_assessment"), state)
      else ((None, "greeting"), state)
  else if String.eqb current_stage "needs_assessment" then
    if truthy_num (requested_amount state)
    then ((Some "delegate_to_sales", "sales_negotiation"), state)
    else if matches amount_match user_message_lower
    then ((Some "delegate_to_sales", "sales_negotiation"), state)
    else ((None, "needs_assessment"), state)
  else if String.eqb current_stage "sales_negotiation" then
    if contains_any user_message_lower accept_terms
    then ((Some "delegate_to_verification", "verification"), state)
    else if matches option_pick user_message_lower
              || matches tenure_phrase user_message_lower
    then ((Some "delegate_to_sales", "sales_negotiation"), state)
    else if contains_any user_message_lower negotiation_cues
              || matches percent user_message_lower
    then ((Some "delegate_to_sales", "sales_negotiation"), state)
    else ((None, "sales_negotiation"), state)
  else if String.eqb current_stage "verification" then
    if contains_any user_message_lower
         ["send otp"; "otp"; "resend otp"; "send the otp"]
    then ((Some "delegate_to_verification", "verification"), state)
    else if otp_sent state && matches code_token user_message_lower
    then ((Some "delegate_to_verification", "verification"), state)
    else if kyc_verified state && phone_verified state
    then ((Some "delegate_to_underwriting", "underwriting"), state)
    else ((None, "verification"), state)
  else if String.eqb current_stage "underwriting" then
    let decision := underwriting_decision state in
    if is_str decision "needs_documents"
    then ((None, "document_upload"), state)
    else if is_str decision "approved"
    then ((Some "delegate_to_sanction", "sanction_generation"), state)
    else if is_str decision "rejected"
    then ((None, "closure"), state)
    else ((None, "underwriting"), state)
  else if String.eqb current_stage "document_upload" then
    if salary_slip_uploaded state
    then ((Some "delegate_to_underwriting", "underwriting"), state)
    else ((None, "document_upload"), state)
  else if String.eqb current_stage "sanction_generation" then
    if truthy_str (sanction_letter_url state)
    then ((None, "closure"), state)
    else ((None, "sanction_generation"), state)
  else if String.eqb current_stage "closure" then
    ((None, "closure"), state)
  else ((None, current_stage), state).

End MasterAgent.

(** ** Collaborators

    The capabilities the orchestration core calls and does not implement.
    Their code lives outside the embedded files; every statement below holds
    for all of them. *)

Class Collaborators : Type := {
  (** The text generator: [MasterAgent.process_message] builds a prompt from
      the record and the inbound text and returns the model's answer. *)
  llm_response : LoanApplicationState -> string -> string;
  (** [crm_tools]. *)
  get_customer_by_id : string -> option CrmCustomer;
  simulate_otp_generation : option string -> string;
  verify_customer_details : string -> string -> DetailsCheck;
  (** The sales, underwriting and sanction agents. *)
  process_sales : LoanApplicationState -> Q -> option string -> SalesResult;
  handle_negotiation :
    LoanApplicationState -> string -> LoanOffer -> NegotiationResult;
  process_underwriting : LoanApplicationState -> UnderwritingOutcome;
  generate_sanction : LoanApplicationState -> SanctionOutcome;
  (** The environment and the Twilio Verify client ([otp_tools]). *)
  is_twilio_configured : bool;
  twilio_verifications_create : option string -> TwilioReply;
  twilio_verification_checks_create : option string -> string -> TwilioReply;
  (** Texts that the code formats from numbers and records. *)
  selection_text : LoanOffer -> LoanApplicationState -> string;
  explainer_text : CrmCustomer -> string;
  otp_sent_text : option string -> string -> string;
  mismatch_text : Mismatch -> string
}.

(** ** The stage nodes, the router and the session manager
       ([src/workflow/graph.py]) *)

Section Workflow.
Import PyStr Re.
Local Open Scope re_scope.
Context {collab : Collaborators}.

(** *** The orchestrator node *)

(** [MasterAgent.process_message]: the answer of the text generator, then
    the decision; the record comes back with the amount hint, if any. *)
Definition master_process_message (state : LoanApplicationState)
    (user_message : string)
    : string * option string * string * LoanApplicationState :=
  let response_text := llm_response state user_message in
  let '((next_action, new_stage), state') :=
    MasterAgent._determine_next_action
      (current_stage state) user_message state in
  (response_text, next_action, new_stage, state').

(** [master_agent_node]. *)
Definition master_agent_node (state : LoanApplicationState)
    : LoanApplicationState :=
  match last (conversation_history state) with
  | Some last_message =>
      match role last_message with
      | user =>
          let user_message := content last_message in
          let '(response, next_action, new_stage, state) :=
            master_process_message state user_message in
          let new_state :=
            add_message state assistant response (Some "master") in
          update_state new_state
            [ K.current_stage ::= new_stage;
              K.next_action ::= next_action;
              K.active_agent ::= "master" ]
      | _ => state
      end
  | None =>
      let greeting := MasterAgent.generate_greeting (customer_name state) in
      add_message state assistant greeting (Some "master")
  end.

(** *** The sales node *)

(** The content of the most recent [user] entry ([for msg in reversed]). *)
Fixpoint last_user_content (h : list ConversationMessage) : option string :=
  match h with
  | [] => None
  | m :: h' =>
      match last_user_content h' with
      | Some c => Some c
      | None => match role m with user => Some (content m) | _ => None end
      end
  end.

(** The word option, blanks, digits (group 1). *)
Definition option_number : re := lit "option" +++ spaces +++ Grp 1 digits1.

(** [min(offers, key=...)]: the first offer whose tenure is closest. *)
Fixpoint closest_tenure (months : Z) (offers : list LoanOffer)
    : option LoanOffer :=
  match offers with
  | [] => None
  | o :: offers' =>
      match closest_tenure months offers' with
      | Some o' =>
          if Z.abs (offer_tenure_months o - months)
               <=? Z.abs (offer_tenure_months o' - months)
          then Some o else Some o'
      | None => Some o
      end
  end.

(** The offer picked by an option number or a tenure phrase, if any. *)
Definition selected_of (last_user_msg : string) (offers : list LoanOffer)
    : option LoanOffer :=
  match offers with
  | [] => None
  | _ :: _ =>
      match search option_number last_user_msg with
      | Some m =>
          let n := int_of_digits (chars (default EmptyString (group 1 m))) in
          let idx := Z.max 0 (Z.min (n - 1) (Z.of_nat (length offers) - 1)) in
          offers !! Z.to_nat idx
      | None =>
          match search MasterAgent.tenure_phrase last_user_msg with
          | Some m =>
              let n :=
                int_of_digits (chars (default EmptyString (group 1 m))) in
              let unit := default EmptyString (group 2 m) in
              let months :=
                if startswith unit "y" || startswith unit "yr"
                then n * 12 else n in
              closest_tenure months offers
          | None => None
          end
      end
  end.

Definition negotiation_cues : list string :=
  [ "rate"; "reduce"; "discount"; "lower"; "cheaper"; "negotiate";
    "negotiation"; "emi" ].

(** The offer a negotiation starts from: the one with the tenure on the
    record, else the second (or only) one. *)
Definition current_offer_of (state : LoanApplicationState)
    (offers : list LoanOffer) : option LoanOffer :=
  let by_tenure :=
    if truthy_int (tenure_months state)
    then List.find (fun o => bool_decide
                     (Some (offer_tenure_months o) = tenure_months state))
                   offers
    else None in
  match by_tenure with
  | Some o => Some o
  | None => offers !! Nat.min 1 (length offers - 1)
  end.

Definition sales_reply (state : LoanApplicationState) (text : string)
    (updates : list assign) : LoanApplicationState :=
  update_state (add_message state assistant text (Some "sales")) updates.

(** [sales_agent_node]. *)
Definition sales_agent_node (state : LoanApplicationState)
    : LoanApplicationState :=
  let last_user_msg :=
    default EmptyString (lower <$> last_user_content (conversation_history state)) in
  let offers := recommended_offers state in
  match (if nonempty last_user_msg
         then selected_of last_user_msg offers else None) with
  | Some selected =>
      sales_reply state (selection_text selected state)
        [ K.selected_offer ::= Some selected;
          K.tenure_months ::= Some (offer_tenure_months selected);
          K.interest_rate ::= Some (offer_interest_rate selected);
          K.monthly_emi ::= Some (offer_monthly_emi selected);
          K.active_agent ::= "master";
          K.next_action ::= None ]
  | None =>
  let present :=
    (* present the offers, first time or again *)
    match (if truthy_num (requested_amount state)
           then requested_amount state else None) with
    | None =>
        sales_reply state
          "Could you please confirm the loan amount you need (e.g., 3 lakh, 500000, 50k)?"
          [ K.active_agent ::= "master"; K.next_action ::= None ]
    | Some amount =>
        match process_sales state amount (customer_needs state) with
        | SalesOk result_offers recommended presentation =>
            sales_reply state presentation
              [ K.recommended_offers ::= result_offers;
                K.tenure_months ::= Some (offer_tenure_months recommended);
                K.interest_rate ::= Some (offer_interest_rate recommended);
                K.monthly_emi ::= Some (offer_monthly_emi recommended);
                K.active_agent ::= "master";
                K.next_action ::= None ]
        | SalesFailed error =>
            update_state state
              [ K.active_agent ::= "master"; K.next_action ::= None;
                K.last_error ::= error ]
        end
    end in
  if nonempty last_user_msg
     && match offers with [] => false | _ :: _ => true end
     && (contains_any last_user_msg negotiation_cues
         || matches MasterAgent.percent last_user_msg)
  then
    let current_offer :=
      match current_offer_of state offers with
      | Some o => Some o
      | None =>
          (* regenerate the offers when none is at hand *)
          match process_sales state
                  (if truthy_num (requested_amount state)
                   then default 0%Q (requested_amount state)
                   else 100000%Q)
                  (customer_needs state) with
          | SalesOk regenerated _ _ => head regenerated
          | SalesFailed _ => None
          end
      end in
    match current_offer with
    | Some current =>
        let nres := handle_negotiation state last_user_msg current in
        let reply := default EmptyString (neg_response nres) in
        sales_reply state reply
          ([ K.active_agent ::= "master"; K.next_action ::= None ]
           ++ (if negotiation_approved nres
               then [ K.interest_rate ::=
                        Some (default (offer_interest_rate current)
                                      (neg_new_rate nres));
                      K.monthly_emi ::=
                        Some (default (offer_monthly_emi current)
                                      (neg_new_emi nres)) ]
               else []))
    | None => present
    end
  else present
  end.

(** *** The underwriting and sanction nodes *)

(** [underwriting_agent_node]. *)
Definition underwriting_agent_node (state : LoanApplicationState)
    : LoanApplicationState :=
  match process_underwriting state with
  | UwOk message score risk decision approved conditions eligibility
         recommendations =>
      let new_state :=
        add_message state assistant message (Some "underwriting") in
      let detail {A} (f : EligibilityDetails -> option A) (dflt : option A) :=
        match eligibility ≫= f with Some x => Some x | None => dflt end in
      let new_state :=
        update_state new_state
          [ K.credit_score ::= score;
            K.risk_score ::= risk;
            K.underwriting_decision ::= Some decision;
            K.approved_amount ::= approved;
            K.conditional_requirements ::= default [] conditions;
            K.rejection_reason ::= eligibility ≫= el_reason;
            K.monthly_emi ::= detail el_monthly_emi (monthly_emi new_state);
            K.total_monthly_obligation ::=
              detail el_total_monthly_obligation
                     (total_monthly_obligation new_state);
            K.emi_to_income_ratio ::=
              detail el_emi_to_income_ratio (emi_to_income_ratio new_state);
            K.underwriting_recommendations ::= default [] recommendations;
            K.active_agent ::= "master";
            K.next_action ::= None ] in
      if String.eqb decision "approved"
      then update_state new_state [ K.application_status ::= "approved" ]
      else if String.eqb decision "rejected"
      then update_state new_state [ K.application_status ::= "rejected" ]
      else new_state
  | UwFailed error =>
      update_state state
        [ K.active_agent ::= "master"; K.last_error ::= error ]
  end.

(** [sanction_agent_node]. *)
Definition sanction_agent_node (state : LoanApplicationState)
    : LoanApplicationState :=
  match generate_sanction state with
  | SanctionOk message url reference_number =>
      let new_state :=
        add_message state assistant message (Some "sanction") in
      update_state new_state
        [ K.sanction_letter_url ::= Some url;
          K.sanction_letter_ref_no ::= Some reference_number;
          K.current_stage ::= "closure";
          K.active_agent ::= "master";
          K.next_action ::= None ]
  | SanctionFailed error =>
      update_state state
        [ K.active_agent ::= "master"; K.last_error ::= error ]
  end.

(** *** [otp_tools] *)

Record OtpResult : Type := mkOtpResult {
  otp_success : bool;
  otp_message : option string;
  otp_error : option string;
  otp_verified : bool
}.

Definition otp_failure (e : string) : OtpResult :=
  mkOtpResult false None (Some e) false.

(** How an f-string prints an optional text. *)
Definition show_opt (o : option string) : string := default "None" o.

Definition send_otp_via_twilio (phone : option string) : OtpResult :=
  match twilio_verifications_create phone with
  | NoClient e => otp_failure ("Twilio client not available: " +:+ e)
  | ApiError e => otp_failure ("Failed to send OTP via Twilio: " +:+ e)
  | ApiStatus _ =>
      mkOtpResult true
        (Some ("OTP sent to " +:+ show_opt phone
               +:+ ". Please enter the 6-digit code."))
        None false
  end.

Definition verify_otp_via_twilio (phone : option string) (code : string)
    : OtpResult :=
  match twilio_verification_checks_create phone code with
  | NoClient e => otp_failure ("Twilio client not available: " +:+ e)
  | ApiError e => otp_failure ("Failed to verify OTP via Twilio: " +:+ e)
  | ApiStatus status =>
      let approved := String.eqb status "approved" in
      mkOtpResult true
        (Some (if approved then "Phone Verification Successful!"
               else "Incorrect OTP. Please try again."))
        None approved
  end.

(** [send_otp(phone)]. *)
Definition otp_send_api (phone : option string) : OtpResult :=
  if is_twilio_configured then send_otp_via_twilio phone
  else otp_failure "Twilio not configured".

(** [verify_otp(phone, code)]. *)
Definition otp_verify_api (phone : option string) (code : string)
    : OtpResult :=
  if is_twilio_configured then verify_otp_via_twilio phone code
  else otp_failure "Twilio not configured".

(** *** [VerificationAgent] *)

Inductive StartResult : Type :=
| StartOk (message : string) (customer_data : CrmCustomer)
| StartFailed (error : string).

(** [start_verification(state)]. *)
Definition start_verification (state : LoanApplicationState) : StartResult :=
  if truthy_str (customer_id state)
  then match get_customer_by_id (show_opt (customer_id state)) with
       | Some customer => StartOk (explainer_text customer) customer
       | None => StartFailed "Customer not found"
       end
  else StartFailed "Customer ID not available".

(** [send_otp(customer_id, phone)] of the agent: the text and the code. *)
Definition agent_send_otp (customer_id : string) (phone : option string)
    : string * string :=
  let otp := simulate_otp_generation phone in
  (otp_sent_text phone otp, otp).

(** [verify_address(customer_id, provided_address)]: the text and the
    [address_verified] entry (absent on a mismatch). *)
Definition verify_address (customer_id provided_address : string)
    : string * bool :=
  let result := verify_customer_details customer_id provided_address in
  if details_verified result
  then ("Address Verified Successfully! Your address matches our records.",
        true)
  else match details_mismatches result with
       | mismatch :: _ => (mismatch_text mismatch, false)
       | [] => ("Address Verified! Thank you for confirming.", true)
       end.

(** *** The verification node *)

Definition otp_keywords : list string :=
  [ "send otp"; "resend otp"; "send the otp"; "otp please"; "otp" ].

Definition verification_reply (state : LoanApplicationState)
    (text : string) (updates : list assign) : LoanApplicationState :=
  update_state (add_message state assistant text (Some "verification"))
               updates.

(** No verification signal on the record yet. *)
Definition not_initialized (state : LoanApplicationState) : bool :=
  negb (truthy_str (kyc_pan state) || truthy_str (kyc_dob state)
        || truthy_str (kyc_email state) || phone_verified state
        || address_verified state)
  && negb (otp_sent state).

(** First block: explain the steps and stop. *)
Definition start_block (state : LoanApplicationState)
    : LoanApplicationState :=
  match start_verification state with
  | StartOk message _ =>
      verification_reply state message
        [ K.active_agent ::= "master"; K.next_action ::= None ]
  | StartFailed error =>
      update_state state
        [ K.active_agent ::= "master"; K.last_error ::= Some error ]
  end.

(** The phone a code is sent to, with a ten-digit number prefixed. *)
Definition otp_target (state : LoanApplicationState) : option string :=
  let customer_phone_on_file :=
    match start_verification state with
    | StartOk _ customer => Some (crm_phone customer)
    | StartFailed _ => customer_phone state
    end in
  let phone :=
    if truthy_str (otp_phone state) then otp_phone state
    else customer_phone_on_file in
  if truthy_str phone
  then let raw := remove_blanks (strip (show_opt phone)) in
       if isdigit raw && Nat.eqb (String.length raw) 10
       then Some ("+91" +:+ raw) else Some raw
  else phone.

Definition resend_count (state : LoanApplicationState) : Z :=
  if otp_sent state then otp_resend_count state + 1
  else otp_resend_count state.

(** Second block: send or resend a code.  [None] when the block does not
    apply and the node goes on. *)
Definition send_block (last_user_msg : string)
    (state : LoanApplicationState) : option LoanApplicationState :=
  if nonempty last_user_msg
     && contains_any (lower last_user_msg) otp_keywords
     && truthy_str (customer_id state)
  then
    let cust_id := show_opt (customer_id state) in
    let phone := otp_target state in
    if is_twilio_configured then
      let otp_res := otp_send_api phone in
      let msg :=
        if otp_success otp_res
        then default "OTP sent. Please enter the code." (otp_message otp_res)
        else "Failed to send OTP: "
             +:+ default "unknown error" (otp_error otp_res) in
      Some (verification_reply state msg
        [ K.otp_sent ::= otp_success otp_res;
          K.otp_provider ::=
            (if otp_success otp_res then Some "twilio" else None);
          K.otp_code ::= None;
          K.otp_phone ::= phone;
          K.otp_attempts ::= 0;
          K.otp_resend_count ::= resend_count state;
          K.active_agent ::= "master";
          K.next_action ::= None ])
    else
      let '(message, otp) := agent_send_otp cust_id phone in
      Some (verification_reply state message
        [ K.otp_sent ::= true;
          K.otp_provider ::= Some "demo";
          K.otp_code ::= Some otp;
          K.otp_phone ::= phone;
          K.otp_attempts ::= 0;
          K.otp_resend_count ::= resend_count state;
          K.active_agent ::= "master";
          K.next_action ::= None ])
  else None.

(** Four to six digits between word boundaries, as group 1. *)
Definition code_group : re :=
  WordB +++ Grp 1 (times is_digit 4 (Some 6%nat)) +++ WordB.

Definition dq : string := String (ascii_of_nat 34) EmptyString.

Definition max_attempts_twilio_msg : string :=
  "Maximum attempts exceeded. Type 'SEND OTP' to request a new code.".
Definition max_attempts_msg : string :=
  "Maximum Attempts Exceeded. You've entered incorrect OTP 3 times. For security reasons, please request a new OTP. Type "
    +:+ dq +:+ "SEND OTP" +:+ dq +:+ " to get a new code.".
Definition phone_verified_msg : string :=
  "Phone Verification Successful! Your mobile number has been verified successfully. Next, let me confirm your address details for our records.".
Definition incorrect_otp_msg (attempts : Z) : string :=
  "Incorrect OTP. The OTP you entered doesn't match. Please try again. Attempts remaining: "
    +:+ pretty (3 - attempts)
    +:+ " Make sure you're entering the latest OTP received.".
Definition no_otp_msg : string :=
  "No OTP found. Please type 'SEND OTP' to request a new code.".

(** Third block: check a code the user entered. *)
Definition code_block (last_user_msg : string)
    (state : LoanApplicationState) : LoanApplicationState :=
  if nonempty last_user_msg && matches MasterAgent.code_token last_user_msg
  then
    let entered_code :=
      search code_group last_user_msg ≫= group 1 in
    if otp_sent state && is_str (otp_provider state) "twilio"
       && truthy_str (otp_phone state) && truthy_str entered_code
    then
      let vres := otp_verify_api (otp_phone state) (show_opt entered_code) in
      if otp_success vres && otp_verified vres
      then
        verification_reply state "Phone Verification Successful!"
          [ K.phone_verified ::= true;
            K.otp_sent ::= false;
            K.otp_code ::= None;
            K.otp_attempts ::= 0;
            K.active_agent ::= "master";
            K.next_action ::= None ]
      else
        let attempts := otp_attempts state + 1 in
        let err_msg :=
          if truthy_str (otp_message vres) then show_opt (otp_message vres)
          else "Incorrect OTP. Attempts remaining: "
               +:+ pretty (Z.max 0 (3 - attempts)) in
        if 3 <=? attempts
        then
          verification_reply state max_attempts_twilio_msg
            [ K.otp_sent ::= false;
              K.otp_attempts ::= 0;
              K.active_agent ::= "master";
              K.next_action ::= None ]
        else
          verification_reply state err_msg
            [ K.otp_attempts ::= attempts;
              K.active_agent ::= "master";
              K.next_action ::= None ]
    else if otp_sent state && truthy_str (otp_code state)
    then
      if bool_decide (entered_code = otp_code state)
      then
        verification_reply state phone_verified_msg
          [ K.phone_verified ::= true;
            K.otp_sent ::= false;
            K.otp_code ::= None;
            K.otp_attempts ::= 0;
            K.active_agent ::= "master";
            K.next_action ::= None ]
      else
        let attempts := otp_attempts state + 1 in
        if 3 <=? attempts
        then
          verification_reply state max_attempts_msg
            [ K.otp_sent ::= false;
              K.otp_code ::= None;
              K.otp_attempts ::= 0;
              K.active_agent ::= "master";
              K.next_action ::= None ]
        else
          verification_reply state (incorrect_otp_msg attempts)
            [ K.otp_attempts ::= attempts;
              K.active_agent ::= "master";
              K.next_action ::= None ]
    else
      verification_reply state no_otp_msg
        [ K.active_agent ::= "master"; K.next_action ::= None ]
  else state.

(** Fourth block: an address in the text.  The branch for a text that
    starts with my address is splits the text as typed at the first
    lower-case is and raises [IndexError] when there is none. *)
Definition address_of (last_user_msg : string) : outcome (option string) :=
  let lower := lower last_user_msg in
  addr_text ←
    (if startswith lower "address:"
     then match after_first last_user_msg ":" with
          | Some t => Done (Some (strip t))
          | None => Raised IndexError
          end
     else if startswith lower "my address is"
     then match after_first last_user_msg "is" with
          | Some t => Done (Some (strip t))
          | None => Raised IndexError
          end
     else match find lower "address is" with
          | Some idx =>
              Done (Some (strip (from (idx + String.length "address is")
                                      last_user_msg)))
          | None => Done None
          end);
  if negb (truthy_str addr_text)
     && contains_any lower
          [ "street"; "road"; "lane"; "block"; "sector"; "city";
            "pincode"; "pin" ]
     && (10 <? String.length last_user_msg)%nat
  then Done (Some (strip last_user_msg))
  else Done addr_text.

Definition address_block (last_user_msg : string)
    (state : LoanApplicationState) : outcome LoanApplicationState :=
  if nonempty last_user_msg
  then
    addr_text ← address_of last_user_msg;
    if truthy_str addr_text && truthy_str (customer_id state)
    then
      let '(message, verified) :=
        verify_address (show_opt (customer_id state)) (show_opt addr_text) in
      Done (verification_reply state message
              ([ K.active_agent ::= "master"; K.next_action ::= None ]
               ++ (if verified then [ K.address_verified ::= true ]
                   else [])))
    else Done state
  else Done state.

(** The patterns of the fifth block, all under [re.IGNORECASE]. *)
Definition sep : re := spaces +++ Opt (Chr (one_of ":-")) +++ spaces.
Definition exactly (p : ascii -> bool) (n : nat) : re := times p n (Some n).

Definition pan_re : re :=
  WordB +++ lit_i "pan" +++ sep
    +++ Grp 1 (exactly is_alpha 5 +++ exactly is_digit 4 +++ Chr is_alpha)
    +++ WordB.
(** An alternation at the top level: the word aadhaar after a boundary, or
    aadhar, a boundary, any text (lazy) and four digits as group 1. *)
Definition aadhaar_re : re :=
  Alt (WordB +++ lit_i "aadhaar")
      (lit_i "aadhar" +++ WordB +++ Rep false any_char 0 None
         +++ Grp 1 (exactly is_digit 4)).
Definition dob_re : re :=
  WordB +++ lit_i "dob" +++ sep
    +++ Grp 1 (Alt (exactly is_digit 4 +++ lit "-" +++ exactly is_digit 2
                      +++ lit "-" +++ exactly is_digit 2)
                   (exactly is_digit 2 +++ lit "/" +++ exactly is_digit 2
                      +++ lit "/" +++ exactly is_digit 4))
    +++ WordB.
Definition email_re : re :=
  WordB +++ lit_i "email" +++ sep
    +++ Grp 1 (plus (fun c => is_alpha c || is_digit c || one_of "._%+-" c)
                 +++ lit "@"
                 +++ plus (fun c => is_alpha c || is_digit c || one_of ".-" c)
                 +++ lit "." +++ times is_alpha 2 None)
    +++ WordB.
Definition alt_phone_re : re :=
  WordB +++ Grp 1 (Alt (lit_i "alt") (lit_i "alternate")) +++ spaces
    +++ lit_i "phone" +++ sep
    +++ Grp 2 (Opt (lit "+") +++ times is_digit 10 (Some 13%nat))
    +++ WordB.

Definition newline : string := String (ascii_of_nat 10) EmptyString.

(** Fifth block: identity details in the text. *)
Definition kyc_block (last_user_msg : string)
    (state : LoanApplicationState) : LoanApplicationState :=
  if nonempty last_user_msg
  then
    let capture {T} (m : option caps) (k : K.key T) (v : caps -> T)
        (note : string) : list assign * list string :=
      match m with
      | Some cs => ([ k ::= v cs ], [ note ])
      | None => ([], [])
      end in
    let found :=
      [ capture (search pan_re last_user_msg) K.kyc_pan
          (fun cs => upper <$> group 1 cs) "PAN captured";
        capture (search aadhaar_re last_user_msg) K.kyc_aadhaar_last4
          (group 1) "Aadhaar last 4 captured";
        capture (search dob_re last_user_msg) K.kyc_dob
          (group 1) "DOB captured";
        capture (search email_re last_user_msg) K.kyc_email
          (group 1) "Email captured";
        capture (search alt_phone_re last_user_msg) K.alt_phone
          (group 2) "Alternate phone captured" ] in
    let updates := concat (fst <$> found) in
    let msgs := concat (snd <$> found) in
    match updates with
    | [] => state
    | _ :: _ =>
        let state := update_state state updates in
        match msgs with
        | [] => state
        | _ :: _ =>
            add_message state assistant (join newline msgs)
                        (Some "verification")
        end
    end
  else state.

(** Sixth block: the identity is verified once PAN, date of birth and
    email are on the record. *)
Definition identity_block (state : LoanApplicationState)
    : LoanApplicationState :=
  if negb (kyc_verified state)
     && (truthy_str (kyc_pan state) && truthy_str (kyc_dob state)
         && truthy_str (kyc_email state))
  then
    update_state
      (add_message state assistant
         "Identity details verified successfully." (Some "verification"))
      [ K.kyc_verified ::= true ]
  else state.

(** [verification_agent_node]. *)
Definition verification_agent_node (state : LoanApplicationState)
    : outcome LoanApplicationState :=
  let last_user_msg :=
    default EmptyString
      (strip <$> last_user_content (conversation_history state)) in
  if not_initialized state then Done (start_block state)
  else
    match send_block last_user_msg state with
    | Some new_state => Done new_state
    | None =>
        let state := code_block last_user_msg state in
        state ← address_block last_user_msg state;
        let state := kyc_block last_user_msg state in
        let state := identity_block state in
        Done (update_state state
                [ K.active_agent ::= "master"; K.next_action ::= None ])
    end.

(** *** The router *)

Inductive route : Type :=
| to_sales | to_verification | to_underwriting | to_sanction
| to_master | to_end.

(** [route_master_agent(state)]; the constructors stand for the strings
    sales, verification, underwriting, sanction, master and end. *)
Definition route_master_agent (state : LoanApplicationState) : route :=
  let next_action := next_action state in
  let current_stage := current_stage state in
  if is_str next_action "delegate_to_sales" then to_sales
  else if is_str next_action "delegate_to_verification" then to_verification
  else if is_str next_action "delegate_to_underwriting" then to_underwriting
  else if is_str next_action "delegate_to_sanction" then to_sanction
  else if String.eqb current_stage "verification"
          && match last (conversation_history state) with
             | Some m =>
                 Role_eqb (role m) user
                 && (let last_user_msg := lower (content m) in
                     contains_any last_user_msg otp_keywords
                     || (otp_sent state
                         && matches MasterAgent.code_token last_user_msg))
             | None => false
             end
  then to_verification
  else if String.eqb current_stage "closure"
          && existsb (String.eqb (application_status state))
               [ "approved"; "rejected"; "abandoned" ]
  then to_end
  else if match last (conversation_history state) with
          | Some last_message => Role_eqb (role last_message) assistant
          | None => false
          end
  then to_end
  else to_master.

(** *** The compiled graph *)

Inductive node : Type :=
| master_agent | sales_agent | verification_agent | underwriting_agent
| sanction_agent.

Definition run_node (n : node) (state : LoanApplicationState)
    : outcome LoanApplicationState :=
  match n with
  | master_agent => Done (master_agent_node state)
  | sales_agent => Done (sales_agent_node state)
  | verification_agent => verification_agent_node state
  | underwriting_agent => Done (underwriting_agent_node state)
  | sanction_agent => Done (sanction_agent_node state)
  end.

(** The conditional edges out of the orchestrator; [None] is [END]. *)
Definition conditional_edge (r : route) : option node :=
  match r with
  | to_sales => Some sales_agent
  | to_verification => Some verification_agent
  | to_underwriting => Some underwriting_agent
  | to_sanction => Some sanction_agent
  | to_master => Some master_agent
  | to_end => None
  end.

(** One run of the graph from node [n]: the nodes executed, in order, and
    the final record.  [fuel] bounds the number of node executions; when
    it runs out the graph raises [GraphRecursionError]. *)
Fixpoint run (fuel : nat) (n : node) (state : LoanApplicationState)
    : outcome (list node * LoanApplicationState) :=
  match fuel with
  | O => Raised GraphRecursionError
  | S fuel' =>
      state' ← run_node n state;
      match (match n with
             | master_agent => conditional_edge (route_master_agent state')
             | _ => Some master_agent
             end) with
      | None => Done ([n], state')
      | Some n' =>
          '(trace, final) ← run fuel' n' state';
          Done (n :: trace, final)
      end
  end.

(** The default recursion limit of the graph library. *)
Definition recursion_limit : nat := 25.

(** [workflow.invoke(state)], from the entry point. *)
Definition invoke (state : LoanApplicationState)
    : outcome (list node * LoanApplicationState) :=
  run recursion_limit master_agent state.

(** *** The session manager *)

(** What [process_message] returns: the rejection of an unknown session, or
    the response text with the resulting record. *)
Inductive reply : Type :=
| SessionNotFound
| Response (response : string) (state : LoanApplicationState).

(** [create_session(customer_id)]. *)
Definition create_session (sessions : gmap string LoanApplicationState)
    (cid : option string) (sid : string)
    : gmap string LoanApplicationState * string :=
  let state := create_initial_state cid sid in
  (<[session_id state := state]> sessions, session_id state).

(** The content of the last [assistant] entry, else the empty text. *)
Definition last_response (history : list ConversationMessage) : string :=
  let assistant_messages :=
    content <$> List.filter (fun msg => Role_eqb (role msg) assistant) history in
  default EmptyString (last assistant_messages).

(** [process_message(session_id, user_message)]: the session table after
    the call and the reply.  The table is written only when the graph
    returns. *)
Definition process_message (sessions : gmap string LoanApplicationState)
    (session_id : string) (user_message : string)
    : outcome (gmap string LoanApplicationState * reply) :=
  match sessions !! session_id with
  | None => Done (sessions, SessionNotFound)
  | Some state =>
      let state := add_message state user user_message None in
      '(_, result) ← invoke state;
      Done (<[session_id := result]> sessions,
            Response (last_response (conversation_history result)) result)
  end.

End Workflow.

(** * Vocabulary of the statements *)

(** ** The conversation log *)

(** The two entries that [add_message] writes. *)
Definition log_key {T : Type} (k : K.key T) : bool :=
  match k with
  | K.conversation_history | K.total_interactions => true
  | _ => false
  end.

Definition off_log (a : assign) : Prop :=
  match a with Assign k _ => log_key k = false end.

(** [s'] carries the log of [s] followed by at most [n] new entries, and its
    counter moved by the number of new entries. *)
Definition extends_by (n : nat) (s s' : LoanApplicationState) : Prop :=
  exists extra,
    conversation_history s' = conversation_history s ++ extra
    /\ (length extra <= n)%nat
    /\ total_interactions s' = total_interactions s + Z.of_nat (length extra).

(** A pending action that names a specialist. *)
Definition is_delegation (a : option string) : bool :=
  is_str a "delegate_to_sales" || is_str a "delegate_to_verification"
  || is_str a "delegate_to_underwriting" || is_str a "delegate_to_sanction".

Section Vocabulary.
Import PyStr Re.
Context {collab : Collaborators}.

(** The entries of the one-time-code flow. *)
Definition flow_view (s : LoanApplicationState)
    : string * bool * bool * Z * option string * option string :=
  (current_stage s, phone_verified s, otp_sent s, otp_attempts s,
   otp_provider s, otp_code s).

Definition code_view (s : LoanApplicationState)
    : option string * option string :=
  (otp_provider s, otp_code s).

(** An assignment that leaves a view of the record unchanged. *)
Definition keeps {V : Type} (view : LoanApplicationState -> V) (a : assign)
    : Prop :=
  forall s, view (apply_assign s a) = view s.

(** How an execution of the verification node that returns went: the
    explainer, a code request, or the four checks, after which the
    one-time-code entries are those the code check left. *)
Definition inbound_text (s : LoanApplicationState) : string :=
  default EmptyString (strip <$> last_user_content (conversation_history s)).

(** The most messages one execution of a node appends: the verification
    node runs four independent checks (code, address, identity details,
    identity verified), each of which may reply. *)
Definition reply_bound (n : node) : nat :=
  match n with
  | verification_agent => 4
  | _ => 1
  end.

(** The successor of a node: the router decides after the orchestrator,
    every specialist hands back to the orchestrator. *)
Definition successor (n : node) (state' : LoanApplicationState)
    : option node :=
  match n with
  | master_agent => conditional_edge (route_master_agent state')
  | _ => Some master_agent
  end.

(** [calls_completed sid sessions n]: the table [sessions] results from
    creating session [sid] and completing [n] calls of [process_message]
    on it, interleaved with completed calls on other sessions. *)
Inductive calls_completed (sid : string)
    : gmap string LoanApplicationState -> nat -> Prop :=
| session_created sessions cid :
    calls_completed sid (fst (create_session sessions cid sid)) 0
| call_completed sessions n text sessions' rep :
    calls_completed sid sessions n ->
    process_message sessions sid text = Done (sessions', rep) ->
    calls_completed sid sessions' (S n)
| call_elsewhere sessions n sid' text sessions' rep :
    sid' <> sid ->
    calls_completed sid sessions n ->
    process_message sessions sid' text = Done (sessions', rep) ->
    calls_completed sid sessions' n.




(** What one node execution does to the code on the record: it leaves the
    code and the provider as they were, or it leaves no code, or it is the
    fallback of the verification node storing the code it issued. *)
Definition code_transition (n : node) (s s' : LoanApplicationState) : Prop :=
  code_view s' = code_view s
  \/ otp_code s' = None
  \/ (n = verification_agent /\ is_twilio_configured = false
      /\ otp_provider s' = Some "demo").

(** The inbound text asks for a code and the customer is known: the
    condition under which the node sends or resends a code. *)
Definition code_request (text : string) (s : LoanApplicationState) : bool :=
  nonempty text && contains_any (lower text) otp_keywords
  && truthy_str (customer_id s).

(** The inbound text carries a token of four to six digits. *)
Definition carries_code (text : string) : bool :=
  nonempty text && matches MasterAgent.code_token text.

(** The code the user entered: the first such token. *)
Definition entered_code (text : string) : option string :=
  search code_group text ≫= group 1.

(** The verdict on the entered code of the channel that issued the code:
    the provider's check when the record names Twilio, the comparison
    with the stored code otherwise; no verdict when no code is out. *)
Definition code_verdict (s : LoanApplicationState) (text : string)
    : option bool :=
  if otp_sent s && is_str (otp_provider s) "twilio"
     && truthy_str (otp_phone s) && truthy_str (entered_code text)
  then
    let vres :=
      otp_verify_api (otp_phone s) (show_opt (entered_code text)) in
    Some (otp_success vres && otp_verified vres)
  else if otp_sent s && truthy_str (otp_code s)
  then Some (bool_decide (entered_code text = otp_code s))
  else None.


End Vocabulary.

(** One step of a session's record: an inbound text is appended, a node of
    the graph runs (with whatever collaborators and environment are in
    place at that moment), or a caller holding the record writes an entry
    other than the code and its provider, as the user interface does for
    the phone, the customer id and the requested amount. *)
Inductive step : LoanApplicationState -> LoanApplicationState -> Prop :=
| step_inbound s text : step s (add_message s user text None)
| step_node (collab : Collaborators) n s s' :
    run_node n s = Done s' -> step s s'
| step_external {T} (k : K.key T) (v : T) s :
    keeps code_view (k ::= v) -> step s (set_key k v s).

Definition reachable (s : LoanApplicationState) : Prop :=
  exists cid sid, rtc step (create_initial_state cid sid) s.

(** No code on the record unless the fallback issued it. *)
Definition code_only_from_fallback (s : LoanApplicationState) : Prop :=
  (otp_provider s = Some "twilio" -> otp_code s = None)
  /\ (otp_code s <> None -> otp_provider s = Some "demo").

(** ** A concrete set of collaborators and records

    Used to run the embedded code on explicit inputs: a text generator that
    always answers with the same line, a CRM with one customer, a code
    generator that always issues 123456, a sales agent with one offer, and a
    Twilio client whose requests fail. *)

Module Demo.

Definition offer : LoanOffer :=
  mkOffer 300000 12 (11 # 100) 26500 (Some "12 months").

Definition rajesh : CrmCustomer :=
  mkCrm "Rajesh Kumar" "9876543210" "Pune" (Some "verified").

Definition collaborators (twilio : bool) : Collaborators := {|
  llm_response := fun _ _ => "Sure, let me help you with that.";
  get_customer_by_id := fun cid =>
    if String.eqb cid "CUST001" then Some rajesh else None;
  simulate_otp_generation := fun _ => "123456";
  verify_customer_details := fun _ _ => mkDetails true [];
  process_sales := fun _ _ _ =>
    SalesOk [offer] offer "Here are your personalised offers.";
  handle_negotiation := fun _ _ _ =>
    mkNegotiation (Some "Let me check what I can do.") false None None;
  process_underwriting := fun _ => UwFailed (Some "assessment unavailable");
  generate_sanction := fun _ => SanctionFailed (Some "generator unavailable");
  is_twilio_configured := twilio;
  twilio_verifications_create := fun _ => ApiError "service unreachable";
  twilio_verification_checks_create := fun _ _ =>
    ApiError "service unreachable";
  selection_text := fun _ _ => "Great choice! I've noted your selection.";
  explainer_text := fun _ => "Let's quickly verify your details for security.";
  otp_sent_text := fun _ otp => "OTP Sent Successfully! For Demo: Your OTP is " +:+ otp;
  mismatch_text := fun _ => "Address Mismatch Detected."
|}.

(** The demo fallback for codes (Twilio not configured). *)
Definition fallback : Collaborators := collaborators false.

(** A fresh session of customer CUST001, and one without a customer. *)
Definition fresh : LoanApplicationState :=
  create_initial_state (Some "CUST001") "session-1".
Definition anonymous : LoanApplicationState :=
  create_initial_state None "session-2".

Definition sessions : gmap string LoanApplicationState :=
  {[ "session-1" := fresh ]}.

(** The record with an inbound text appended, as [process_message] hands
    it to the graph. *)
Definition hears (s : LoanApplicationState) (text : string)
    : LoanApplicationState :=
  add_message s user text None.

(** A record in the verification stage on which the fallback has issued
    the code 123456, after [attempts] wrong codes. *)
Definition code_issued (attempts : Z) : LoanApplicationState :=
  update_state fresh
    [ K.current_stage ::= "verification";
      K.otp_sent ::= true;
      K.otp_provider ::= Some "demo";
      K.otp_code ::= Some "123456";
      K.otp_phone ::= Some "+919876543210";
      K.otp_attempts ::= attempts ].

(** A record in the verification stage whose phone is verified. *)
Definition phone_done : LoanApplicationState :=
  update_state fresh
    [ K.current_stage ::= "verification"; K.phone_verified ::= true ].


(** A session without a customer, in the sales stage. *)
Definition anonymous_in_sales : LoanApplicationState :=
  update_state anonymous [ K.current_stage ::= "sales_negotiation" ].

(** A record in the given stage with the given underwriting decision. *)
Definition at_stage (stage : string) (decision : option string)
    (uploaded : bool) : LoanApplicationState :=
  update_state fresh
    [ K.current_stage ::= stage;
      K.underwriting_decision ::= decision;
      K.salary_slip_uploaded ::= uploaded ].

(** What a computation returned, if it did. *)
Definition returned {A : Type} (o : outcome A) : option A :=
  match o with
  | Done a => Some a
  | Raised _ => None
  end.

(** The record and the session table a call of [process_message] left. *)
Definition record_after
    (o : outcome (gmap string LoanApplicationState * reply))
    : option LoanApplicationState :=
  match o with
  | Done (_, Response _ st) => Some st
  | _ => None
  end.
Definition table_after
    (o : outcome (gmap string LoanApplicationState * reply))
    : gmap string LoanApplicationState :=
  match o with
  | Done (table, _) => table
  | Raised _ => ∅
  end.

(** The number of assistant entries of a log. *)
Definition replies (h : list ConversationMessage) : nat :=
  length (List.filter (fun m => Role_eqb (role m) assistant) h).

End Demo.

(** * Further code and vocabulary *)

(** ** Ownership of the entries *)

(** [state[k]]: the value of an entry. *)
Definition get_key {T : Type} (k : K.key T) : LoanApplicationState -> T :=
  match k in K.key T return LoanApplicationState -> T with
  | K.customer_id => customer_id
  | K.customer_name => customer_name
  | K.customer_phone => customer_phone
  | K.conversation_history => conversation_history
  | K.current_stage => current_stage
  | K.active_agent => active_agent
  | K.next_action => next_action
  | K.requested_amount => requested_amount
  | K.approved_amount => approved_amount
  | K.tenure_months => tenure_months
  | K.interest_rate => interest_rate
  | K.monthly_emi => monthly_emi
  | K.customer_needs => customer_needs
  | K.recommended_offers => recommended_offers
  | K.selected_offer => selected_offer
  | K.kyc_verified => kyc_verified
  | K.kyc_pan => kyc_pan
  | K.kyc_aadhaar_last4 => kyc_aadhaar_last4
  | K.kyc_dob => kyc_dob
  | K.kyc_email => kyc_email
  | K.alt_phone => alt_phone
  | K.phone_verified => phone_verified
  | K.address_verified => address_verified
  | K.otp_sent => otp_sent
  | K.otp_attempts => otp_attempts
  | K.otp_provider => otp_provider
  | K.otp_code => otp_code
  | K.otp_phone => otp_phone
  | K.otp_resend_count => otp_resend_count
  | K.credit_score => credit_score
  | K.salary_slip_uploaded => salary_slip_uploaded
  | K.total_monthly_obligation => total_monthly_obligation
  | K.emi_to_income_ratio => emi_to_income_ratio
  | K.risk_score => risk_score
  | K.underwriting_decision => underwriting_decision
  | K.rejection_reason => rejection_reason
  | K.conditional_requirements => conditional_requirements
  | K.underwriting_recommendations => underwriting_recommendations
  | K.sanction_letter_url => sanction_letter_url
  | K.sanction_letter_ref_no => sanction_letter_ref_no
  | K.application_status => application_status
  | K.session_id => session_id
  | K.total_interactions => total_interactions
  | K.last_error => last_error
  end.


Section Ownership.
Context {collab : Collaborators}.

(** The entries each node assigns, read off its [update_state] and
    [add_message] calls. *)
Definition writes (n : node) {T : Type} (k : K.key T) : bool :=
  match n with
  | master_agent =>
      match k with
      | K.conversation_history | K.total_interactions | K.current_stage
      | K.next_action | K.active_agent | K.requested_amount => true
      | _ => false
      end
  | sales_agent =>
      match k with
      | K.conversation_history | K.total_interactions | K.selected_offer
      | K.tenure_months | K.interest_rate | K.monthly_emi
      | K.recommended_offers | K.active_agent | K.next_action
      | K.last_error => true
      | _ => false
      end
  | verification_agent =>
      match k with
      | K.conversation_history | K.total_interactions | K.active_agent
      | K.next_action | K.last_error | K.otp_sent | K.otp_provider
      | K.otp_code | K.otp_phone | K.otp_attempts | K.otp_resend_count
      | K.phone_verified | K.address_verified | K.kyc_pan
      | K.kyc_aadhaar_last4 | K.kyc_dob | K.kyc_email | K.alt_phone
      | K.kyc_verified => true
      | _ => false
      end
  | underwriting_agent =>
      match k with
      | K.conversation_history | K.total_interactions | K.credit_score
      | K.risk_score | K.underwriting_decision | K.approved_amount
      | K.conditional_requirements | K.rejection_reason | K.monthly_emi
      | K.total_monthly_obligation | K.emi_to_income_ratio
      | K.underwriting_recommendations | K.active_agent | K.next_action
      | K.application_status | K.last_error => true
      | _ => false
      end
  | sanction_agent =>
      match k with
      | K.conversation_history | K.total_interactions
      | K.sanction_letter_url | K.sanction_letter_ref_no | K.current_stage
      | K.active_agent | K.next_action | K.last_error => true
      | _ => false
      end
  end.

(** A view of the record that no write of node [n] can change. *)
Definition blind_to (n : node) {V : Type}
    (view : LoanApplicationState -> V) : Prop :=
  forall T (k : K.key T) (v : T), writes n k = true -> keeps view (k ::= v).

(** The entries that identify the session and its customer. *)
Definition identity_view (s : LoanApplicationState)
    : string * option string * option string * option string :=
  (session_id s, customer_id s, customer_name s, customer_phone s).

End Ownership.

(** ** The shape of a cycle *)

(** The specialist a pending action names. *)
Definition delegate_of (a : option string) : option node :=
  if is_str a "delegate_to_sales" then Some sales_agent
  else if is_str a "delegate_to_verification" then Some verification_agent
  else if is_str a "delegate_to_underwriting" then Some underwriting_agent
  else if is_str a "delegate_to_sanction" then Some sanction_agent
  else None.

(** The most recent log entry is a reply. *)
Definition last_is_assistant (s : LoanApplicationState) : Prop :=
  exists m, last (conversation_history s) = Some m /\ role m = assistant.

(** [s'] carries the log of [s] followed by replies only. *)
Definition answers (s s' : LoanApplicationState) : Prop :=
  exists extra,
    conversation_history s' = conversation_history s ++ extra
    /\ Forall (fun m => role m = assistant) extra.

(** The orchestrator, then [k] round trips to the specialist [x], each
    closed by the orchestrator. *)
Definition round_trips (k : nat) (x : node) : list node :=
  master_agent :: concat (replicate k [x; master_agent]).

(** Every record of the table is stored under its own session id. *)
Definition well_keyed (sessions : gmap string LoanApplicationState) : Prop :=
  forall sid s, sessions !! sid = Some s -> session_id s = sid.

(** ** The stage cursor *)

(** The values [current_stage] is declared to take, in the order of the
    loan journey. *)
Definition known_stages : list string :=
  [ "greeting"; "needs_assessment"; "sales_negotiation"; "verification";
    "underwriting"; "document_upload"; "sanction_generation"; "closure" ].

(** The position of a stage in the journey; 0 for any other text. *)
Definition stage_rank (stage : string) : nat :=
  if String.eqb stage "greeting" then 1
  else if String.eqb stage "needs_assessment" then 2
  else if String.eqb stage "sales_negotiation" then 3
  else if String.eqb stage "verification" then 4
  else if String.eqb stage "underwriting" then 5
  else if String.eqb stage "document_upload" then 6
  else if String.eqb stage "sanction_generation" then 7
  else if String.eqb stage "closure" then 8
  else 0.

(** The cursor stayed, moved forward, or came back from the document
    upload to underwriting. *)
Definition stage_advances (a b : string) : Prop :=
  b = a \/ (stage_rank a < stage_rank b)%nat
  \/ (a = "document_upload" /\ b = "underwriting").

(** The stage a delegation belongs to. *)
Definition stage_of_action (a : option string) : option string :=
  if is_str a "delegate_to_sales" then Some "sales_negotiation"
  else if is_str a "delegate_to_verification" then Some "verification"
  else if is_str a "delegate_to_underwriting" then Some "underwriting"
  else if is_str a "delegate_to_sanction" then Some "sanction_generation"
  else None.

(** The entries the orchestrator assigns on a closed session. *)
Definition bookkeeping {T : Type} (k : K.key T) : bool :=
  match k with
  | K.conversation_history | K.total_interactions | K.active_agent
  | K.next_action => true
  | _ => false
  end.

(** ** The verification entries *)

(** The three verification flags. *)
Definition flags_view (s : LoanApplicationState) : bool * bool * bool :=
  (kyc_verified s, phone_verified s, address_verified s).

(** No verification flag that was set in [s] is cleared in [s']. *)
Definition flags_kept (s s' : LoanApplicationState) : Prop :=
  (kyc_verified s = true -> kyc_verified s' = true)
  /\ (phone_verified s = true -> phone_verified s' = true)
  /\ (address_verified s = true -> address_verified s' = true).

Definition attempts_in_range (s : LoanApplicationState) : Prop :=
  0 <= otp_attempts s < 3.

(** The entries the code, address and detail checks of the verification
    node assign. *)
Definition checks_write {T : Type} (k : K.key T) : bool :=
  match k with
  | K.conversation_history | K.total_interactions | K.active_agent
  | K.next_action | K.phone_verified | K.otp_sent | K.otp_code
  | K.otp_attempts | K.address_verified | K.kyc_pan | K.kyc_aadhaar_last4
  | K.kyc_dob | K.kyc_email | K.alt_phone => true
  | _ => false
  end.

(** * Further code *)

(** ** [get_conversation_context] ([src/workflow/state.py]) *)

(** [l[start:]] on a Python list: a negative start counts from the end,
    and a start outside the list is clipped. *)
Definition slice_from {A : Type} (start : Z) (l : list A) : list A :=
  if start <? 0
  then drop (Z.to_nat (Z.max 0 (Z.of_nat (length l) + start))) l
  else drop (Z.to_nat start) l.

Definition role_label (r : Role) : string :=
  match r with
  | user => "Customer"
  | _ => "Assistant"
  end.

Definition context_line (msg : ConversationMessage) : string :=
  role_label (role msg) +:+ ": " +:+ content msg.

(** [get_conversation_context(state, last_n)]. *)
Definition get_conversation_context (state : LoanApplicationState)
    (last_n : Z) : string :=
  let history :=
    if negb (last_n =? 0)
    then slice_from (- last_n) (conversation_history state)
    else conversation_history state in
  let formatted := context_line <$> history in
  match formatted with
  | [] => "No previous conversation"
  | _ :: _ => PyStr.join newline formatted
  end.

(** The text for a window of the log, and the size of the window that a
    value of [last_n] selects from a log of [len] entries. *)
Definition render (shown : list ConversationMessage) : string :=
  match shown with
  | [] => "No previous conversation"
  | _ :: _ => PyStr.join newline (context_line <$> shown)
  end.

Definition window_length (last_n : Z) (len : nat) : nat :=
  if 0 <? last_n then Nat.min (Z.to_nat last_n) len
  else if last_n =? 0 then len
  else (len - Z.to_nat (- last_n))%nat.

(** ** The code store of the verification agent
       ([src/agents/verification_agent.py]) *)

Record OtpEntry : Type := mkOtpEntry {
  entry_otp : string;
  entry_phone : option string;
  entry_attempts : Z
}.

(** What [verify_otp_input] returns, by its message. *)
Inductive OtpVerdict : Type :=
| NoOtpFound
| OtpVerified
| MaxAttemptsReached
| IncorrectOtp (attempts_remaining : Z).

(** The [success] and [verified] entries of the result. *)
Definition verdict_success (v : OtpVerdict) : bool :=
  match v with
  | OtpVerified | IncorrectOtp _ => true
  | NoOtpFound | MaxAttemptsReached => false
  end.

Definition verdict_verified (v : OtpVerdict) : bool :=
  match v with
  | OtpVerified => true
  | _ => false
  end.

Module VerificationAgent.
Section Agent.
Context {collab : Collaborators}.

(** [send_otp(customer_id, phone)] with the instance's [otp_store]: the
    store after the call, the text and the code. *)
Definition send_otp (otp_store : gmap string OtpEntry)
    (customer_id : string) (phone : option string)
    : gmap string OtpEntry * (string * string) :=
  let otp := simulate_otp_generation phone in
  (<[customer_id := mkOtpEntry otp phone 0]> otp_store,
   (otp_sent_text phone otp, otp)).

(** [verify_otp_input(customer_id, provided_otp)]: the attempt is counted
    on the stored entry before the comparison. *)
Definition verify_otp_input (otp_store : gmap string OtpEntry)
    (customer_id provided_otp : string)
    : gmap string OtpEntry * OtpVerdict :=
  match otp_store !! customer_id with
  | None => (otp_store, NoOtpFound)
  | Some otp_data =>
      let otp_data :=
        mkOtpEntry (entry_otp otp_data) (entry_phone otp_data)
                   (entry_attempts otp_data + 1) in
      let otp_store := <[customer_id := otp_data]> otp_store in
      if String.eqb provided_otp (entry_otp otp_data)
      then (delete customer_id otp_store, OtpVerified)
      else if 3 <=? entry_attempts otp_data
      then (delete customer_id otp_store, MaxAttemptsReached)
      else (otp_store, IncorrectOtp (3 - entry_attempts otp_data))
  end.

End Agent.
End VerificationAgent.

(** The record and the agent's store describe the same outstanding code
    of a customer. *)
Definition mirrors (otp_store : gmap string OtpEntry) (cid : string)
    (s : LoanApplicationState) : Prop :=
  match otp_store !! cid with
  | Some e =>
      otp_sent s = true
      /\ otp_code s = Some (entry_otp e)
      /\ truthy_str (otp_code s) = true
      /\ otp_attempts s = entry_attempts e
  | None => otp_sent s = false /\ otp_code s = None
  end.

(** ** The provider selection ([src/utils/llm_config.py]) *)

Module LlmConfig.

Inductive provider : Type := GoogleGemini | OpenAI | Anthropic | Mock.

(** The three environment variables the module reads. *)
Record Env : Type := mkEnv {
  GOOGLE_API_KEY : option string;
  OPENAI_API_KEY : option string;
  ANTHROPIC_API_KEY : option string
}.

(** A key that is set and is not the placeholder of the template. *)
Definition usable (key : option string) (placeholder : string) : bool :=
  truthy_str key && negb (is_str key placeholder).

Definition google_usable (env : Env) : bool :=
  usable (GOOGLE_API_KEY env) "your_google_api_key_here".
Definition openai_usable (env : Env) : bool :=
  usable (OPENAI_API_KEY env) "your_openai_api_key_here".
Definition anthropic_usable (env : Env) : bool :=
  usable (ANTHROPIC_API_KEY env) "your_anthropic_api_key_here".

(** [get_llm]: the provider whose client is returned.  [initialises]
    tells whether importing a provider's package and building its client
    succeeds; a failure is caught and the next provider is tried. *)
Definition get_llm (env : Env) (initialises : provider -> bool) : provider :=
  if google_usable env && initialises GoogleGemini then GoogleGemini
  else if openai_usable env && initialises OpenAI then OpenAI
  else if anthropic_usable env && initialises Anthropic then Anthropic
  else Mock.

(** [get_available_providers()]. *)
Definition get_available_providers (env : Env) : list string :=
  (if google_usable env then [ "Google Gemini" ] else [])
  ++ (if openai_usable env then [ "OpenAI GPT-4" ] else [])
  ++ (if anthropic_usable env then [ "Anthropic Claude" ] else []).

(** The banner of the chat page: the first available provider. *)
Definition banner (env : Env) : string :=
  default "Mock (no API key)" (head (get_available_providers env)).

(** The name under which a provider is listed. *)
Definition provider_name (p : provider) : string :=
  match p with
  | GoogleGemini => "Google Gemini"
  | OpenAI => "OpenAI GPT-4"
  | Anthropic => "Anthropic Claude"
  | Mock => "Mock (no API key)"
  end.

End LlmConfig.

(** ** The chat page ([src/ui/chatbot_app.py]) *)

Module Ui.
Import PyStr Re.
Local Open Scope re_scope.

(** The letters CUST followed by digits; group 0 is the whole match. *)
Definition customer_id_token : re := Grp 0 (lit "CUST" +++ digits1).

(** [extract_customer_id(message)]. *)
Definition extract_customer_id (message : string) : option string :=
  search customer_id_token (upper message) ≫= group 0.

(** The [patterns] table of [extract_amount], in its order. *)
Definition patterns : list (re * Z) :=
  [ (MasterAgent.number +++ spaces
       +++ alts [lit "lakh"; lit "lakhs"; lit "lac"; lit "lacs"], 100000);
    (MasterAgent.number +++ spaces +++ alts [lit "l"; lit "L"], 100000);
    (MasterAgent.number +++ spaces
       +++ alts [lit "thousand"; lit "k"; lit "K"], 1000);
    (Grp 1 (times is_digit 4 None), 1) ].

(** [extract_amount(message)]. *)
Definition extract_amount (message : string) : option Q :=
  MasterAgent.first_amount patterns (lower message).

(** The part of [st.session_state] that a chat turn reads and writes. *)
Record Page : Type := mkPage {
  page_messages : list ConversationMessage;
  page_stage : string;
  page_customer_id : option string;
  page_status : string
}.

Inductive page_exn : Type :=
| TypeError
| AttributeError
| WorkflowError (e : exn).

Inductive page_outcome (A : Type) : Type :=
| Shown (a : A)
| Crashed (e : page_exn).
Arguments Shown {A} a.
Arguments Crashed {A} e.

Section ChatPage.
Context {collab : Collaborators}.

(** The greeting the page shows for a new session: the first log entry,
    if there is one. *)
Definition initial_messages (sessions : gmap string LoanApplicationState)
    (session_id : string) : list ConversationMessage :=
  match sessions !! session_id with
  | Some state =>
      match conversation_history state with
      | greeting_msg :: _ =>
          [ mkMessage assistant (content greeting_msg) (agent greeting_msg) ]
      | [] => []
      end
  | None => []
  end.

(** [state[k] = v] on the record [get_session_state] returned.  The
    record is the one the table holds, so the table changes; [None] stands
    for the [TypeError] of assigning into [None]. *)
Definition assign_in_session {T : Type} (k : K.key T) (v : T)
    (sessions : gmap string LoanApplicationState) (session_id : string)
    : option (gmap string LoanApplicationState) :=
  (fun state => <[session_id := set_key k v state]> sessions)
    <$> sessions !! session_id.

(** The customer id typed in the chat, kept while the page has none. *)
Definition store_customer_id (page : Page)
    (sessions : gmap string LoanApplicationState)
    (session_id user_input : string)
    : option (Page * gmap string LoanApplicationState) :=
  if negb (truthy_str (page_customer_id page))
  then
    let customer_id := extract_customer_id user_input in
    if truthy_str customer_id
    then
      let page :=
        mkPage (page_messages page) (page_stage page) customer_id
               (page_status page) in
      (fun sessions => (page, sessions))
        <$> assign_in_session K.customer_id customer_id sessions session_id
    else Some (page, sessions)
  else Some (page, sessions).

(** The amount typed in the chat, written to the record before the
    workflow sees the text. *)
Definition store_amount (sessions : gmap string LoanApplicationState)
    (session_id user_input : string)
    : option (gmap string LoanApplicationState) :=
  let amount := extract_amount user_input in
  if truthy_num amount
  then
    sessions ← assign_in_session K.requested_amount amount
                 sessions session_id;
    state ← sessions !! session_id;
    if negb (truthy_str (customer_needs state))
    then assign_in_session K.customer_needs (Some user_input)
           sessions session_id
    else Some sessions
  else Some sessions.

(** One chat turn: the body of [if user_input:] in [main]. *)
Definition chat_turn (page : Page)
    (sessions : gmap string LoanApplicationState)
    (session_id user_input : string)
    : page_outcome (Page * gmap string LoanApplicationState) :=
  let page :=
    mkPage (page_messages page ++ [ mkMessage user user_input None ])
           (page_stage page) (page_customer_id page) (page_status page) in
  match store_customer_id page sessions session_id user_input with
  | None => Crashed TypeError
  | Some (page, sessions) =>
      match store_amount sessions session_id user_input with
      | None => Crashed TypeError
      | Some sessions =>
          match process_message sessions session_id user_input with
          | Raised e => Crashed (WorkflowError e)
          | Done (sessions, SessionNotFound) => Shown (page, sessions)
          | Done (sessions, Response response result) =>
              match sessions !! session_id with
              | None => Crashed AttributeError
              | Some state_after =>
                  let last_assistant :=
                    last (List.filter
                            (fun m => Role_eqb (role m) assistant)
                            (conversation_history state_after)) in
                  let shown_agent :=
                    match last_assistant with
                    | Some m => agent m
                    | None => Some "master"
                    end in
                  Shown
                    (mkPage
                       (page_messages page
                        ++ [ mkMessage assistant response shown_agent ])
                       (current_stage result) (page_customer_id page)
                       (application_status result),
                     sessions)
              end
          end
      end
  end.

End ChatPage.
End Ui.

(** ** Further concrete records

    Inputs on which the further properties are run: collaborators whose
    underwriting approves, and records and pages at several points of the
    journey. *)

Module Cases.

Definition approving : Collaborators := {|
  llm_response := fun _ _ => "Sure, let me help you with that.";
  get_customer_by_id := fun cid =>
    if String.eqb cid "CUST001" then Some Demo.rajesh else None;
  simulate_otp_generation := fun _ => "123456";
  verify_customer_details := fun _ _ => mkDetails true [];
  process_sales := fun _ _ _ =>
    SalesOk [Demo.offer] Demo.offer "Here are your personalised offers.";
  handle_negotiation := fun _ _ _ =>
    mkNegotiation (Some "Let me check what I can do.") false None None;
  process_underwriting := fun _ =>
    UwOk "Congratulations, your loan is approved." (Some 780)
         (Some (15 # 1)) "approved" (Some (300000 # 1)) None None None;
  generate_sanction := fun _ =>
    SanctionOk "Your sanction letter is ready." "/sanction/SL-1.pdf" "SL-1";
  is_twilio_configured := false;
  twilio_verifications_create := fun _ => ApiError "service unreachable";
  twilio_verification_checks_create := fun _ _ =>
    ApiError "service unreachable";
  selection_text := fun _ _ => "Great choice! I've noted your selection.";
  explainer_text := fun _ => "Let's quickly verify your details for security.";
  otp_sent_text := fun _ otp =>
    "OTP Sent Successfully! For Demo: Your OTP is " +:+ otp;
  mismatch_text := fun _ => "Address Mismatch Detected."
|}.

(** What a call handed back, and the record it stored. *)
Definition reply_of
    (o : outcome (gmap string LoanApplicationState * reply)) : reply :=
  default SessionNotFound (snd <$> Demo.returned o).
Definition stored
    (o : outcome (gmap string LoanApplicationState * reply))
    : LoanApplicationState :=
  default Demo.fresh (Demo.record_after o).

(** The record a node returned. *)
Definition after (s : LoanApplicationState)
    (o : outcome LoanApplicationState) : LoanApplicationState :=
  default s (Demo.returned o).

(** A first call, and a call that asks for an amount. *)
Definition first_call
    : outcome (gmap string LoanApplicationState * reply) :=
  process_message (collab := Demo.fallback) Demo.sessions "session-1" "hello".
Definition request : LoanApplicationState :=
  Demo.hears Demo.fresh "I need 3 lakh rupees".
Definition request_call
    : outcome (gmap string LoanApplicationState * reply) :=
  process_message (collab := Demo.fallback) Demo.sessions "session-1"
                  "I need 3 lakh rupees".

(** A closed session with a stale pending action, and a further text. *)
Definition closed : LoanApplicationState :=
  Demo.hears
    (update_state Demo.fresh
       [ K.current_stage ::= "closure";
         K.next_action ::= Some "delegate_to_sales" ])
    "one more loan please".

(** A session in verification whose phone is verified. *)
Definition verifying : gmap string LoanApplicationState :=
  {[ "session-1" := Demo.phone_done ]}.
Definition verifying_call
    : outcome (gmap string LoanApplicationState * reply) :=
  process_message (collab := Demo.fallback) verifying "session-1" "hello".

(** The issued code typed back, and the identity details typed. *)
Definition code_entered : LoanApplicationState :=
  Demo.hears (Demo.code_issued 0) "123456".
Definition details_entered : LoanApplicationState :=
  Demo.hears Demo.phone_done
    "PAN: ABCDE1234F | DOB: 1990-05-10 | Email: name@example.com".

(** An amount typed during the needs assessment. *)
Definition assessing : LoanApplicationState :=
  Demo.hears
    (update_state Demo.fresh [ K.current_stage ::= "needs_assessment" ])
    "5 lakh".

(** The agent's store holding the code of [Demo.code_issued 0]. *)
Definition store : gmap string OtpEntry :=
  {[ "CUST001" := mkOtpEntry "123456" (Some "+919876543210") 0 ]}.

(** An approved application on which the customer follows up, and an
    application waiting for its salary slip, now uploaded. *)
Definition approved : LoanApplicationState :=
  Demo.hears (Demo.at_stage "underwriting" (Some "approved") false)
             "what happens next?".
Definition slip_uploaded : LoanApplicationState :=
  Demo.hears (Demo.at_stage "document_upload" (Some "needs_documents") true)
             "Uploaded salary slip successfully".

(** A code was issued and the customer asks for another one. *)
Definition resend : LoanApplicationState :=
  Demo.hears (Demo.code_issued 1) "resend otp".

(** An address typed in capitals during verification. *)
Definition capitals : LoanApplicationState :=
  Demo.hears Demo.phone_done "MY ADDRESS IS 12 MG ROAD PUNE".

(** What a chat turn showed. *)
Definition shown {A : Type} (o : Ui.page_outcome A) : option A :=
  match o with
  | Ui.Shown a => Some a
  | Ui.Crashed _ => None
  end.
Definition page_after
    (o : Ui.page_outcome (Ui.Page * gmap string LoanApplicationState))
    : Ui.Page :=
  default (Ui.mkPage [] EmptyString None EmptyString) (fst <$> shown o).
Definition table_after_turn
    (o : Ui.page_outcome (Ui.Page * gmap string LoanApplicationState))
    : gmap string LoanApplicationState :=
  default ∅ (snd <$> shown o).


(** A page without a customer; the customer types an id. *)
Definition blank_page : Ui.Page :=
  Ui.mkPage [] "greeting" None "in_progress".
Definition blank_table : gmap string LoanApplicationState :=
  {[ "session-2" := Demo.anonymous ]}.
Definition id_turn
    : Ui.page_outcome (Ui.Page * gmap string LoanApplicationState) :=
  Ui.chat_turn (collab := Demo.fallback) blank_page blank_table
               "session-2" "my id is cust001 and I need a loan".

(** A page of customer CUST001; the customer asks for an amount. *)
Definition known_page : Ui.Page :=
  Ui.mkPage [] "greeting" (Some "CUST001") "in_progress".
Definition request_turn
    : Ui.page_outcome (Ui.Page * gmap string LoanApplicationState) :=
  Ui.chat_turn (collab := Demo.fallback) known_page Demo.sessions
               "session-1" "I need 3 lakh rupees".

End Cases.

(** * Properties *)

(** ** The conversation log under [update_state] and [add_message] *)

Lemma set_key_off_log {T} (k : K.key T) (v : T) s :
  log_key k = false ->
  conversation_history (set_key k v s) = conversation_history s
  /\ total_interactions (set_key k v s) = total_interactions s.
Proof. destruct k; simpl; intros Hk; try discriminate Hk; split; reflexivity. Qed.

Lemma update_state_off_log us : forall s,
  Forall off_log us ->
  conversation_history (update_state s us) = conversation_history s
  /\ total_interactions (update_state s us) = total_interactions s.
Proof.
  induction us as [|[T k v] us IH]; intros s Hus; [split; reflexivity|].
  inversion Hus as [|? ? Hk Hrest]; subst.
  destruct (IH (set_key k v s) Hrest) as [Hh Ht].
  destruct (set_key_off_log k v s Hk) as [Hh' Ht'].
  unfold update_state in *; simpl. rewrite Hh, Ht. auto.
Qed.

Ltac solve_off_log :=
  solve [ repeat first
    [ apply List.Forall_nil
    | apply List.Forall_cons; [reflexivity|]
    | apply Forall_app; split
    | match goal with |- context [if ?b then _ else _] => destruct b end ] ].

Lemma extends_refl n s : extends_by n s s.
Proof.
  exists []. rewrite app_nil_r. simpl. repeat split; lia.
Qed.

Lemma extends_trans n m s1 s2 s3 :
  extends_by n s1 s2 -> extends_by m s2 s3 -> extends_by (n + m) s1 s3.
Proof.
  intros (e1 & H1 & L1 & T1) (e2 & H2 & L2 & T2).
  exists (e1 ++ e2). rewrite H2, H1, T2, T1, <- app_assoc, length_app.
  repeat split; lia.
Qed.

Lemma extends_weaken n m s s' :
  (n <= m)%nat -> extends_by n s s' -> extends_by m s s'.
Proof. intros Hnm (e & ? & ? & ?). exists e. repeat split; auto; lia. Qed.

Lemma extends_update n s s' us :
  Forall off_log us -> extends_by n s s' -> extends_by n s (update_state s' us).
Proof.
  intros Hus (e & He & Hl & Ht).
  destruct (update_state_off_log us s' Hus) as [Hh Hc].
  exists e. rewrite Hh, Hc. auto.
Qed.

Lemma extends_add_message s r c a : extends_by 1 s (add_message s r c a).
Proof.
  exists [mkMessage r c a]. simpl. repeat split; lia.
Qed.

Lemma extends_reply s r c a us :
  Forall off_log us ->
  extends_by 1 s (update_state (add_message s r c a) us).
Proof. intros Hus. apply extends_update; [assumption|apply extends_add_message]. Qed.


#[local] Arguments update_state : simpl never.
#[local] Arguments add_message : simpl never.

Section Facts.
Import PyStr Re.
Context {collab : Collaborators}.

(** ** Every node extends the log *)

Ltac extends_leaf :=
  first
    [ apply extends_refl
    | apply extends_reply; solve_off_log
    | apply extends_add_message
    | apply (extends_weaken 0);
      [lia | apply extends_update; [solve_off_log | apply extends_refl]] ].

(** The decision of the orchestrator returns the record it was given, or
    that record with the amount hint. *)
Lemma decision_record stage msg s :
  snd (MasterAgent._determine_next_action stage msg s) = s
  \/ exists a, truthy_num a = true
       /\ snd (MasterAgent._determine_next_action stage msg s)
          = set_key K.requested_amount a s.
Proof.
  unfold MasterAgent._determine_next_action.
  destruct (String.eqb stage "greeting").
  - destruct (truthy_num (requested_amount s)); [left; reflexivity|].
    destruct (truthy_num (MasterAgent.first_amount _ _)) eqn:Ha.
    + right. eexists. split; [exact Ha|reflexivity].
    + left. destruct (contains_any _ _); reflexivity.
  - left. repeat case_match; reflexivity.
Qed.

Lemma master_extends s : extends_by 1 s (master_agent_node s).
Proof.
  unfold master_agent_node.
  destruct (last (conversation_history s)) as [m|]; [|extends_leaf].
  destruct (role m); try extends_leaf.
  unfold master_process_message.
  pose proof (decision_record (current_stage s) (content m) s) as Hrec.
  destruct (MasterAgent._determine_next_action _ _ _) as [[na st] s'].
  simpl in Hrec. cbv beta iota zeta.
  apply extends_update; [solve_off_log|].
  destruct Hrec as [->|(a & _ & ->)].
  - apply extends_add_message.
  - exists [mkMessage assistant (llm_response s (content m)) (Some "master")].
    unfold add_message, update_state. simpl. repeat split; lia.
Qed.

Lemma sales_extends s : extends_by 1 s (sales_agent_node s).
Proof.
  unfold sales_agent_node, sales_reply.
  repeat case_match; extends_leaf.
Qed.

Lemma underwriting_extends s : extends_by 1 s (underwriting_agent_node s).
Proof.
  unfold underwriting_agent_node.
  destruct (process_underwriting s); [|extends_leaf].
  repeat case_match; repeat (apply extends_update; [solve_off_log|]);
    apply extends_add_message.
Qed.

Lemma sanction_extends s : extends_by 1 s (sanction_agent_node s).
Proof.
  unfold sanction_agent_node. case_match; extends_leaf.
Qed.

Lemma start_block_extends s : extends_by 1 s (start_block s).
Proof. unfold start_block, verification_reply. case_match; extends_leaf. Qed.

Lemma send_block_extends msg s s' :
  send_block msg s = Some s' -> extends_by 1 s s'.
Proof.
  unfold send_block, verification_reply, agent_send_otp.
  repeat case_match; intros [= <-]; extends_leaf.
Qed.

Lemma code_block_extends msg s : extends_by 1 s (code_block msg s).
Proof.
  unfold code_block, verification_reply. repeat case_match; extends_leaf.
Qed.

Lemma address_block_extends msg s s' :
  address_block msg s = Done s' -> extends_by 1 s s'.
Proof.
  unfold address_block, verification_reply.
  destruct (nonempty msg); [|intros [= <-]; extends_leaf].
  destruct (address_of msg) as [addr|e]; simpl; [|discriminate].
  repeat case_match; intros [= <-]; extends_leaf.
Qed.

Lemma kyc_block_extends msg s : extends_by 1 s (kyc_block msg s).
Proof.
  unfold kyc_block.
  destruct (nonempty msg); [|extends_leaf].
  set (us := concat _). set (ms := concat _).
  assert (Hus : Forall off_log us).
  { subst us. simpl. repeat case_match; solve_off_log. }
  clearbody us ms.
  destruct us as [|u us]; [extends_leaf|].
  destruct ms as [|m ms].
  - apply (extends_weaken 0); [lia|].
    apply extends_update; [assumption|apply extends_refl].
  - apply (extends_trans 0 1 s (update_state s (u :: us))).
    + apply extends_update; [assumption|apply extends_refl].
    + apply extends_add_message.
Qed.

Lemma identity_block_extends s : extends_by 1 s (identity_block s).
Proof. unfold identity_block. case_match; extends_leaf. Qed.

Lemma verification_extends s s' :
  verification_agent_node s = Done s' -> extends_by 4 s s'.
Proof.
  unfold verification_agent_node.
  set (msg := default EmptyString _). clearbody msg.
  destruct (not_initialized s).
  { intros [= <-]. apply (extends_weaken 1); [lia|apply start_block_extends]. }
  destruct (send_block msg s) as [sent|] eqn:Hsend.
  { intros [= <-]. apply (extends_weaken 1); [lia|].
    eapply send_block_extends; eassumption. }
  destruct (address_block msg (code_block msg s)) as [s2|e] eqn:Haddr;
    simpl; [|discriminate].
  intros [= <-].
  apply extends_update; [solve_off_log|].
  apply (extends_trans 3 1 s (kyc_block msg s2));
    [|apply identity_block_extends].
  apply (extends_trans 2 1 s s2); [|apply kyc_block_extends].
  apply (extends_trans 1 1 s (code_block msg s));
    [apply code_block_extends|].
  eapply address_block_extends; eassumption.
Qed.

(** ** The log along a cycle *)

Lemma run_node_extends n s s' :
  run_node n s = Done s' -> extends_by (reply_bound n) s s'.
Proof.
  destruct n; simpl; try (intros [= <-]).
  - apply master_extends.
  - apply sales_extends.
  - apply verification_extends.
  - apply underwriting_extends.
  - apply sanction_extends.
Qed.

Lemma run_S fuel n s :
  run (S fuel) n s
  = match run_node n s with
    | Done s1 =>
        match successor n s1 with
        | None => Done ([n], s1)
        | Some n' =>
            match run fuel n' s1 with
            | Done (trace, final) => Done (n :: trace, final)
            | Raised e => Raised e
            end
        end
    | Raised e => Raised e
    end.
Proof.
  simpl. destruct (run_node n s) as [s1|e]; simpl; [|reflexivity].
  unfold successor. destruct n; simpl;
    repeat case_match; simplify_eq; reflexivity.
Qed.

Lemma run_extends fuel : forall n s trace s',
  run fuel n s = Done (trace, s') ->
  extends_by (sum_list (reply_bound <$> trace)) s s'.
Proof.
  induction fuel as [|fuel IH]; intros n s trace s'; simpl; [discriminate|].
  destruct (run_node n s) as [s1|e] eqn:Hnode; simpl; [|discriminate].
  apply run_node_extends in Hnode.
  set (next := match n with
               | master_agent => conditional_edge (route_master_agent s1)
               | _ => Some master_agent
               end).
  destruct next as [n'|].
  - destruct (run fuel n' s1) as [[tr fin]|e] eqn:Hrun; simpl; [|discriminate].
    intros [= <- <-]. apply IH in Hrun.
    simpl. eapply extends_trans; eassumption.
  - intros [= <- <-]. simpl. rewrite Nat.add_0_r. assumption.
Qed.

(** A run executes at least one node. *)
Lemma run_trace_nonempty fuel n s trace s' :
  run fuel n s = Done (trace, s') -> exists rest, trace = n :: rest.
Proof.
  destruct fuel as [|fuel]; simpl; [discriminate|].
  destruct (run_node n s) as [s1|e]; simpl; [|discriminate].
  destruct (match n with
            | master_agent => conditional_edge (route_master_agent s1)
            | _ => Some master_agent
            end) as [n'|].
  - destruct (run fuel n' s1) as [[tr fin]|e]; simpl; [|discriminate].
    intros [= <- <-]. eauto.
  - intros [= <- <-]. eauto.
Qed.

(** The orchestrator answers an inbound text with exactly one entry. *)
Lemma master_answers s m :
  last (conversation_history s) = Some m -> role m = user ->
  exists r,
    conversation_history (master_agent_node s)
      = conversation_history s ++ [r]
    /\ role r = assistant
    /\ total_interactions (master_agent_node s) = total_interactions s + 1.
Proof.
  intros Hlast Hrole. unfold master_agent_node. rewrite Hlast, Hrole.
  unfold master_process_message.
  pose proof (decision_record (current_stage s) (content m) s) as Hrec.
  destruct (MasterAgent._determine_next_action _ _ _) as [[na st] s1].
  simpl in Hrec. cbv beta iota zeta.
  exists (mkMessage assistant (llm_response s (content m)) (Some "master")).
  destruct Hrec as [->|(a & _ & ->)];
    unfold add_message, update_state; simpl; auto.
Qed.

(** One completed call of [process_message] on a known session: the new
    record is stored, it carries the old log, the inbound text, the
    orchestrator's answer and whatever followed, and its counter moved by
    the number of new entries. *)
Lemma process_message_effect sessions sid text sessions' rep st :
  sessions !! sid = Some st ->
  process_message sessions sid text = Done (sessions', rep) ->
  exists result r extra,
    sessions' = <[sid := result]> sessions
    /\ rep = Response (last_response (conversation_history result)) result
    /\ conversation_history result
       = conversation_history st ++ mkMessage user text None :: r :: extra
    /\ role r = assistant
    /\ total_interactions result
       = total_interactions st + 2 + Z.of_nat (length extra).
Proof.
  intros Hs. unfold process_message, invoke. rewrite Hs.
  set (s0 := add_message st user text None).
  destruct (run recursion_limit master_agent s0) as [[tr result]|e] eqn:Hrun;
    simpl; [|discriminate].
  intros [= <- <-]. exists result.
  assert (Hlast : last (conversation_history s0) = Some (mkMessage user text None)).
  { unfold s0, add_message, update_state. simpl. apply last_snoc. }
  destruct (master_answers s0 _ Hlast eq_refl) as (r & Hh & Hr & Ht).
  unfold recursion_limit in Hrun. rewrite run_S in Hrun.
  change (run_node master_agent s0) with (Done (master_agent_node s0)) in Hrun.
  revert Hh Ht Hrun. generalize (master_agent_node s0). intros s1 Hh Ht Hrun.
  assert (Hext : extends_by (sum_list (reply_bound <$> tr) - 1) s1 result
                 \/ result = s1).
  { revert Hrun. destruct (successor master_agent s1) as [n'|].
    - destruct (run 24 n' s1) as [[tr' fin]|e] eqn:Hrest;
        cbv beta iota; [|discriminate].
      intros [= <- <-]. left. apply run_extends in Hrest.
      simpl. rewrite Nat.sub_0_r. assumption.
    - intros [= <- <-]. right. reflexivity. }
  assert (Hlog : exists extra,
             conversation_history result = conversation_history s1 ++ extra
             /\ total_interactions result
                = total_interactions s1 + Z.of_nat (length extra)).
  { destruct Hext as [(e & He & _ & Hc)| ->].
    - exists e. auto.
    - exists []. rewrite app_nil_r. simpl. split; [reflexivity|lia]. }
  destruct Hlog as (extra & He & Hc).
  exists r, extra. repeat split; auto.
  - rewrite He, Hh. unfold s0, add_message, update_state. simpl.
    rewrite <- !app_assoc. reflexivity.
  - rewrite Hc, Ht. unfold s0, add_message, update_state. simpl. lia.
Qed.

(** ** Sessions *)

Lemma process_message_elsewhere sessions sid sid' text sessions' rep :
  sid' <> sid ->
  process_message sessions sid' text = Done (sessions', rep) ->
  sessions' !! sid = sessions !! sid.
Proof.
  intros Hne. unfold process_message.
  destruct (sessions !! sid') as [st|]; [|intros [= <- <-]; reflexivity].
  destruct (invoke _) as [[tr result]|e]; simpl; [|discriminate].
  intros [= <- <-]. apply lookup_insert_ne. assumption.
Qed.

(** ** The response text *)





(** ** The router after a reply *)

Lemma route_after_assistant s m :
  last (conversation_history s) = Some m -> role m = assistant ->
  is_delegation (next_action s) = false ->
  route_master_agent s = to_end.
Proof.
  intros Hlast Hrole Hna. unfold route_master_agent.
  unfold is_delegation in Hna.
  repeat (apply orb_false_elim in Hna; destruct Hna as [Hna ?]).
  rewrite Hlast, Hrole.
  repeat match goal with H : is_str _ _ = false |- _ => rewrite H; clear H end.
  simpl. rewrite andb_false_r. simpl.
  destruct (_ && _); reflexivity.
Qed.

(** The orchestrator leaves a record whose last entry is a reply as it
    is. *)
Lemma master_idle s m :
  last (conversation_history s) = Some m -> role m <> user ->
  master_agent_node s = s.
Proof.
  intros Hlast Hrole. unfold master_agent_node. rewrite Hlast.
  destruct (role m); congruence.
Qed.

(** ** Claims on the cycle, the log and the response *)

(** C1 (as amended).  Once the most recent log entry is an assistant
    message and no delegation is pending, the router ends the cycle: the
    route is the end of the graph, and a run that starts there executes
    the orchestrator once, changes nothing and stops.  (A call of
    [process_message] can still leave two assistant replies for one inbound
    text: the orchestrator replies before it delegates, and the specialist
    replies again.) *)
Theorem router_ends_cycle_after_reply s m :
  last (conversation_history s) = Some m ->
  role m = assistant ->
  is_delegation (next_action s) = false ->
  route_master_agent s = to_end
  /\ forall fuel, run (S fuel) master_agent s = Done ([master_agent], s).
Proof.
  intros Hlast Hrole Hna. split.
  - eapply route_after_assistant; eassumption.
  - intros fuel. rewrite run_S. simpl.
    rewrite (master_idle s m Hlast) by congruence.
    rewrite (route_after_assistant s m Hlast Hrole Hna). reflexivity.
Qed.

(** C2 (as amended).  For every session, after any sequence of completed
    [process_message] calls, [total_interactions] equals the number of
    entries of the conversation log (every appended message, from the user
    or from a stage, counts one), and is therefore at least twice the
    number of completed calls. *)
Theorem interactions_count_log_entries sid sessions n :
  calls_completed sid sessions n ->
  exists s,
    sessions !! sid = Some s
    /\ total_interactions s = Z.of_nat (length (conversation_history s))
    /\ 2 * Z.of_nat n <= total_interactions s.
Proof.
  induction 1 as [sessions cid
                 | sessions n text sessions' rep _ IH Hcall
                 | sessions n sid' text sessions' rep Hne _ IH Hcall].
  - exists (create_initial_state cid sid). simpl.
    rewrite lookup_insert_eq. repeat split; reflexivity || (simpl; lia).
  - destruct IH as (s & Hs & Hcount & Hn).
    destruct (process_message_effect _ _ _ _ _ _ Hs Hcall)
      as (result & r & extra & -> & _ & Hlog & _ & Htotal).
    exists result. rewrite lookup_insert_eq. split; [reflexivity|].
    rewrite Htotal, Hlog, length_app. simpl. lia.
  - destruct IH as (s & Hs & Hcount & Hn). exists s.
    rewrite (process_message_elsewhere _ _ _ _ _ _ Hne Hcall). auto.
Qed.




(** ** The orchestrator's decision, seen on the record it returns *)

Lemma master_decides s m :
  last (conversation_history s) = Some m -> role m = user ->
  let d := MasterAgent._determine_next_action
             (current_stage s) (content m) s in
  next_action (master_agent_node s) = fst (fst d)
  /\ current_stage (master_agent_node s) = snd (fst d)
  /\ requested_amount (master_agent_node s) = requested_amount (snd d)
  /\ (exists r, last (conversation_history (master_agent_node s)) = Some r
                /\ role r = assistant).
Proof.
  intros Hlast Hrole d.
  destruct (master_answers s m Hlast Hrole) as (r & Hh & Hr & _).
  assert (Hr' : exists r, last (conversation_history (master_agent_node s))
                          = Some r /\ role r = assistant).
  { exists r. rewrite Hh, last_snoc. auto. }
  unfold master_agent_node in *. rewrite Hlast, Hrole in *.
  unfold master_process_message in *. subst d.
  destruct (MasterAgent._determine_next_action _ _ _) as [[na st] s1].
  cbv beta iota zeta in *.
  unfold add_message, update_state. simpl. auto.
Qed.

Lemma decision_underwriting msg s :
  MasterAgent._determine_next_action "underwriting" msg s
  = if is_str (underwriting_decision s) "needs_documents"
    then ((None, "document_upload"), s)
    else if is_str (underwriting_decision s) "approved"
    then ((Some "delegate_to_sanction", "sanction_generation"), s)
    else if is_str (underwriting_decision s) "rejected"
    then ((None, "closure"), s)
    else ((None, "underwriting"), s).
Proof. reflexivity. Qed.

Lemma decision_document_upload msg s :
  MasterAgent._determine_next_action "document_upload" msg s
  = if salary_slip_uploaded s
    then ((Some "delegate_to_underwriting", "underwriting"), s)
    else ((None, "document_upload"), s).
Proof. reflexivity. Qed.

Lemma route_delegation s :
  (next_action s = Some "delegate_to_sales" -> route_master_agent s = to_sales)
  /\ (next_action s = Some "delegate_to_verification" ->
      route_master_agent s = to_verification)
  /\ (next_action s = Some "delegate_to_underwriting" ->
      route_master_agent s = to_underwriting)
  /\ (next_action s = Some "delegate_to_sanction" ->
      route_master_agent s = to_sanction).
Proof.
  unfold route_master_agent.
  repeat split; intros ->; reflexivity.
Qed.

(** After the orchestrator answered without delegating, the cycle ends. *)
Lemma route_after_master s m :
  last (conversation_history s) = Some m -> role m = user ->
  is_delegation (next_action (master_agent_node s)) = false ->
  route_master_agent (master_agent_node s) = to_end.
Proof.
  intros Hlast Hrole Hna.
  destruct (master_decides s m Hlast Hrole) as (_ & _ & _ & r & Hr & Hrole').
  eapply route_after_assistant; eassumption.
Qed.

(** C7.  With the stage cursor on underwriting the orchestrator branches
    on the underwriting decision: needs_documents moves the cursor to
    document_upload, approved delegates to sanction, rejected moves the
    cursor to closure, any other value leaves the cursor where it is; and
    with the cursor on document_upload, once the document-upload flag is
    set, it delegates back to underwriting (the router hands over to the
    underwriting node, not to sanction). *)
Theorem underwriting_branches s m :
  last (conversation_history s) = Some m ->
  role m = user ->
  let s' := master_agent_node s in
  (current_stage s = "underwriting" ->
     (underwriting_decision s = Some "needs_documents" ->
        current_stage s' = "document_upload" /\ next_action s' = None
        /\ route_master_agent s' = to_end)
     /\ (underwriting_decision s = Some "approved" ->
           next_action s' = Some "delegate_to_sanction"
           /\ current_stage s' = "sanction_generation"
           /\ route_master_agent s' = to_sanction)
     /\ (underwriting_decision s = Some "rejected" ->
           current_stage s' = "closure" /\ next_action s' = None
           /\ route_master_agent s' = to_end)
     /\ (underwriting_decision s <> Some "needs_documents" ->
         underwriting_decision s <> Some "approved" ->
         underwriting_decision s <> Some "rejected" ->
           current_stage s' = "underwriting" /\ next_action s' = None
           /\ route_master_agent s' = to_end))
  /\ (current_stage s = "document_upload" ->
      salary_slip_uploaded s = true ->
        next_action s' = Some "delegate_to_underwriting"
        /\ current_stage s' = "underwriting"
        /\ route_master_agent s' = to_underwriting).
Proof.
  intros Hlast Hrole s'.
  destruct (master_decides s m Hlast Hrole) as (Hna & Hst & _ & _).
  pose proof (route_after_master s m Hlast Hrole) as Hend.
  pose proof (route_delegation s') as (_ & _ & Huw & Hsan).
  fold s' in Hna, Hst, Hend. clearbody s'.
  split.
  - intros Hstage. rewrite Hstage, decision_underwriting in Hna, Hst.
    assert (Hother : underwriting_decision s <> Some "needs_documents" ->
                     underwriting_decision s <> Some "approved" ->
                     underwriting_decision s <> Some "rejected" ->
                     is_str (underwriting_decision s) "needs_documents" = false
                     /\ is_str (underwriting_decision s) "approved" = false
                     /\ is_str (underwriting_decision s) "rejected" = false).
    { destruct (underwriting_decision s) as [d|]; simpl; [|auto].
      intros N1 N2 N3.
      repeat split; apply String.eqb_neq; congruence. }
    split; [|split; [|split]].
    + intros Hd. rewrite Hd in Hna, Hst. simpl in Hna, Hst.
      repeat split; auto. apply Hend. rewrite Hna. reflexivity.
    + intros Hd. rewrite Hd in Hna, Hst. simpl in Hna, Hst.
      repeat split; auto.
    + intros Hd. rewrite Hd in Hna, Hst. simpl in Hna, Hst.
      repeat split; auto. apply Hend. rewrite Hna. reflexivity.
    + intros N1 N2 N3. destruct (Hother N1 N2 N3) as (E1 & E2 & E3).
      rewrite E1, E2, E3 in Hna, Hst. simpl in Hna, Hst.
      repeat split; auto. apply Hend. rewrite Hna. reflexivity.
  - intros Hstage Hup. rewrite Hstage, decision_document_upload, Hup in Hna, Hst.
    repeat split; auto.
Qed.

(** ** The verification shortcut of the router *)



(** ** Amount extraction *)








(** ** What the blocks of the verification node leave alone *)

Lemma update_state_keeps {V} (view : LoanApplicationState -> V) us :
  Forall (keeps view) us -> forall s, view (update_state s us) = view s.
Proof.
  unfold update_state.
  induction 1 as [|a us Ha _ IH]; intros s; simpl; [reflexivity|].
  rewrite IH. apply Ha.
Qed.

Ltac solve_keeps :=
  solve [ repeat first
    [ apply List.Forall_nil
    | apply List.Forall_cons; [intros ?; reflexivity|]
    | apply Forall_app; split
    | match goal with |- context [if ?b then _ else _] => destruct b end ] ].

Lemma add_message_keeps {V} (view : LoanApplicationState -> V) s r c a :
  Forall (keeps view)
    [ K.conversation_history ::= conversation_history s ++ [mkMessage r c a];
      K.total_interactions ::= total_interactions s + 1 ] ->
  view (add_message s r c a) = view s.
Proof. intros Hk. apply update_state_keeps. assumption. Qed.

Ltac keep_view :=
  repeat first
    [ reflexivity
    | rewrite update_state_keeps by solve_keeps
    | rewrite add_message_keeps by solve_keeps ].

Lemma start_block_flow s : flow_view (start_block s) = flow_view s.
Proof. unfold start_block, verification_reply. case_match; keep_view. Qed.

Lemma address_block_flow msg s s' :
  address_block msg s = Done s' -> flow_view s' = flow_view s.
Proof.
  unfold address_block, verification_reply.
  destruct (nonempty msg); [|intros [= <-]; reflexivity].
  destruct (address_of msg) as [addr|e]; simpl; [|discriminate].
  repeat case_match; intros [= <-]; keep_view.
Qed.

Lemma kyc_block_flow msg s : flow_view (kyc_block msg s) = flow_view s.
Proof.
  unfold kyc_block.
  destruct (nonempty msg); [|reflexivity].
  set (us := concat _). set (ms := concat _).
  assert (Hus : Forall (keeps flow_view) us).
  { subst us. simpl. repeat case_match; solve_keeps. }
  clearbody us ms.
  destruct us as [|u us]; [reflexivity|].
  destruct ms as [|m ms].
  - apply update_state_keeps. assumption.
  - rewrite add_message_keeps by solve_keeps.
    apply update_state_keeps. assumption.
Qed.

Lemma identity_block_flow s : flow_view (identity_block s) = flow_view s.
Proof. unfold identity_block. case_match; keep_view. Qed.

Lemma verification_cases s s' :
  verification_agent_node s = Done s' ->
  (not_initialized s = true /\ s' = start_block s)
  \/ (not_initialized s = false /\ send_block (inbound_text s) s = Some s')
  \/ (not_initialized s = false /\ send_block (inbound_text s) s = None
      /\ flow_view s' = flow_view (code_block (inbound_text s) s)
      /\ exists rest,
           conversation_history s'
           = conversation_history (code_block (inbound_text s) s) ++ rest).
Proof.
  unfold verification_agent_node. fold (inbound_text s).
  generalize (inbound_text s). intros msg.
  destruct (not_initialized s); [intros [= <-]; auto|].
  destruct (send_block msg s) as [sent|]; [intros [= <-]; auto|].
  destruct (address_block msg (code_block msg s)) as [s2|e] eqn:Haddr;
    simpl; [|discriminate].
  intros [= <-]. right. right. repeat split.
  - rewrite update_state_keeps by solve_keeps.
    rewrite identity_block_flow, kyc_block_flow.
    eapply address_block_flow; eassumption.
  - pose proof (address_block_extends _ _ _ Haddr) as (e1 & H1 & _).
    pose proof (kyc_block_extends msg s2) as (e2 & H2 & _).
    pose proof (identity_block_extends (kyc_block msg s2)) as (e3 & H3 & _).
    exists (e1 ++ e2 ++ e3).
    destruct (update_state_off_log
                [K.active_agent ::= "master"; K.next_action ::= None]
                (identity_block (kyc_block msg s2))) as [-> _];
      [solve_off_log|].
    rewrite H3, H2, H1, <- !app_assoc. reflexivity.
Qed.

(** ** The code and its provider *)

Lemma master_code s : code_view (master_agent_node s) = code_view s.
Proof.
  unfold master_agent_node.
  destruct (last (conversation_history s)) as [m|]; [|keep_view].
  destruct (role m); try reflexivity.
  unfold master_process_message.
  pose proof (decision_record (current_stage s) (content m) s) as Hrec.
  destruct (MasterAgent._determine_next_action _ _ _) as [[na st] s1].
  simpl in Hrec. cbv beta iota zeta.
  destruct Hrec as [->|(a & _ & ->)]; keep_view.
Qed.

Lemma sales_code s : code_view (sales_agent_node s) = code_view s.
Proof.
  unfold sales_agent_node, sales_reply. repeat case_match; keep_view.
Qed.

Lemma underwriting_code s : code_view (underwriting_agent_node s) = code_view s.
Proof.
  unfold underwriting_agent_node. repeat case_match; keep_view.
Qed.

Lemma sanction_code s : code_view (sanction_agent_node s) = code_view s.
Proof. unfold sanction_agent_node. case_match; keep_view. Qed.

Lemma send_block_code msg s s' :
  send_block msg s = Some s' ->
  otp_code s' = None
  \/ (is_twilio_configured = false /\ otp_provider s' = Some "demo").
Proof.
  unfold send_block, verification_reply, agent_send_otp.
  destruct (_ && _); [|discriminate].
  destruct is_twilio_configured; intros [= <-]; [left|right]; auto.
Qed.

Lemma code_block_code msg s :
  code_view (code_block msg s) = code_view s
  \/ otp_code (code_block msg s) = None.
Proof.
  unfold code_block, verification_reply.
  repeat case_match;
    first [ left; solve [keep_view] | right; reflexivity ].
Qed.

Lemma flow_code s s' : flow_view s' = flow_view s -> code_view s' = code_view s.
Proof. unfold flow_view, code_view. intros [= _ _ _ _ -> ->]. reflexivity. Qed.

Lemma node_code_transition n s s' :
  run_node n s = Done s' -> code_transition n s s'.
Proof.
  unfold code_transition.
  destruct n; simpl; try (intros [= <-]; left).
  - apply master_code.
  - apply sales_code.
  - intros Hnode.
    destruct (verification_cases s s' Hnode)
      as [[_ ->]|[[_ Hsend]|(_ & _ & Hflow & _)]].
    + left. apply flow_code, start_block_flow.
    + destruct (send_block_code _ _ _ Hsend) as [Hc|[Htw Hp]]; auto.
    + apply flow_code in Hflow.
      destruct (code_block_code (inbound_text s) s) as [Hc|Hc].
      * left. congruence.
      * right. left. unfold code_view in Hflow. congruence.
  - apply underwriting_code.
  - apply sanction_code.
Qed.

(** ** The one-time-code flow *)

Lemma send_block_skips text s :
  code_request text s = false -> send_block text s = None.
Proof. unfold send_block, code_request. intros ->. reflexivity. Qed.




End Facts.

(** ** Reachable records *)

Lemma step_code_only_from_fallback s s' :
  step s s' -> code_only_from_fallback s -> code_only_from_fallback s'.
Proof.
  unfold code_only_from_fallback.
  intros Hstep [Htw Hdemo].
  assert (Hcases : code_view s' = code_view s \/ otp_code s' = None
                   \/ otp_provider s' = Some "demo").
  { destruct Hstep as [s text|collab n s s' Hnode|T k v s Hk].
    - left. apply (update_state_keeps code_view). repeat constructor.
    - destruct (node_code_transition n s s' Hnode) as [H|[H|(_ & _ & H)]]; auto.
    - left. apply Hk. }
  unfold code_view in Hcases.
  destruct Hcases as [[= -> ->]|[->| ->]]; split; auto;
    solve [congruence | discriminate].
Qed.

(** C6.  In every reachable record, when the external provider (Twilio)
    issued the one-time code the record holds no code, and a record that
    holds a code names the fallback as its provider; moreover a node
    execution that puts a code on the record is the verification node on
    its fallback path, with Twilio not configured. *)
Theorem provider_code_never_on_record :
  (forall s, reachable s -> code_only_from_fallback s)
  /\ (forall (collab : Collaborators) n s s',
        run_node n s = Done s' ->
        otp_code s' <> None -> otp_code s' <> otp_code s ->
        n = verification_agent /\ is_twilio_configured = false
        /\ otp_provider s' = Some "demo").
Proof.
  split.
  - intros s (cid & sid & Hreach). revert s Hreach.
    apply (rtc_ind_r code_only_from_fallback).
    + split; [reflexivity|]. intros Hc. exfalso. apply Hc. reflexivity.
    + intros s2 s3 _ Hstep IH.
      eapply step_code_only_from_fallback; eassumption.
  - intros collab n s s' Hnode Hsome Hnew.
    destruct (node_code_transition n s s' Hnode) as [H|[H|H]].
    + unfold code_view in H. congruence.
    + congruence.
    + exact H.
Qed.

(** * The statements on explicit inputs *)

(** ** Runs of the theorems *)

(** C1 on the record left by a first exchange: the orchestrator has
    answered, nothing is delegated, the router ends the cycle. *)
Lemma router_ends_cycle_after_reply_witness :
  let s := master_agent_node (collab := Demo.fallback)
             (Demo.hears Demo.fresh "hello") in
  route_master_agent s = to_end
  /\ forall fuel,
       run (collab := Demo.fallback) (S fuel) master_agent s
       = Done ([master_agent], s).
Proof.
  intros s.
  eapply (router_ends_cycle_after_reply (collab := Demo.fallback) s);
    reflexivity.
Defined.

(** C2 on a session after one completed call. *)
Lemma interactions_count_log_entries_witness :
  let table :=
    Demo.table_after
      (process_message (collab := Demo.fallback) Demo.sessions
                       "session-1" "hello") in
  exists s,
    table !! "session-1" = Some s
    /\ total_interactions s = Z.of_nat (length (conversation_history s))
    /\ 2 * Z.of_nat 1 <= total_interactions s.
Proof.
  intros table.
  apply (interactions_count_log_entries (collab := Demo.fallback)
           "session-1" table 1).
  eapply (call_completed (collab := Demo.fallback) "session-1"
            (fst (create_session ∅ (Some "CUST001") "session-1")) 0 "hello").
  - apply session_created.
  - vm_compute. reflexivity.
Defined.




(** C6 on a record that holds a code: the phone of the customer was marked
    verified from outside, the customer asked for a code and the fallback
    issued it. *)
Lemma provider_code_never_on_record_witness :
  exists s,
    Demo.returned
      (verification_agent_node (collab := Demo.fallback)
         (Demo.hears Demo.phone_done "SEND OTP")) = Some s
    /\ otp_code s = Some "123456"
    /\ code_only_from_fallback s.
Proof.
  eexists. split; [vm_compute; reflexivity|]. split; [reflexivity|].
  apply (proj1 provider_code_never_on_record).
  exists (Some "CUST001"), "session-1".
  eapply rtc_l;
    [apply (step_external K.current_stage "verification");
     intros ?; reflexivity|].
  eapply rtc_l;
    [apply (step_external K.phone_verified true); intros ?; reflexivity|].
  eapply rtc_l; [apply (step_inbound _ "SEND OTP")|].
  eapply rtc_l;
    [apply (step_node Demo.fallback verification_agent);
     vm_compute; reflexivity|].
  apply rtc_refl.
Defined.

(** C7 on a record whose underwriting decision asks for documents. *)
Lemma underwriting_branches_witness :
  let s := Demo.hears
             (Demo.at_stage "underwriting" (Some "needs_documents") false)
             "Any news on my application?" in
  let s' := master_agent_node (collab := Demo.fallback) s in
  current_stage s' = "document_upload" /\ next_action s' = None
  /\ route_master_agent s' = to_end.
Proof.
  intros s s'.
  destruct (underwriting_branches (collab := Demo.fallback) s
              (mkMessage user "Any news on my application?" None)
              eq_refl eq_refl) as [Hunderwriting _].
  destruct (Hunderwriting eq_refl) as [Hdocuments _].
  apply Hdocuments. reflexivity.
Defined.




(** ** Inputs on which the claims, as first stated, fail *)

(** C1 as stated fails: one call of [process_message] on a fresh session
    with the text I need 3 lakh rupees leaves two assistant replies for that
    one inbound text, the orchestrator's and the sales stage's. *)
Lemma two_replies_for_one_inbound_text :
  conversation_history
    <$> Demo.record_after
          (process_message (collab := Demo.fallback) Demo.sessions
                           "session-1" "I need 3 lakh rupees")
  = Some [ mkMessage user "I need 3 lakh rupees" None;
           mkMessage assistant "Sure, let me help you with that."
                     (Some "master");
           mkMessage assistant "Here are your personalised offers."
                     (Some "sales") ]
  /\ (fun s => Demo.replies (conversation_history s))
       <$> Demo.record_after
             (process_message (collab := Demo.fallback) Demo.sessions
                              "session-1" "I need 3 lakh rupees")
     = Some 2%nat.
Proof. split; vm_compute; reflexivity. Qed.

(** C2 as stated fails: after one completed call the counter is 2. *)
Lemma one_call_counts_two :
  let table :=
    Demo.table_after
      (process_message (collab := Demo.fallback) Demo.sessions
                       "session-1" "hello") in
  calls_completed (collab := Demo.fallback) "session-1" table 1
  /\ total_interactions <$> (table !! "session-1") = Some 2.
Proof.
  intros table. split.
  - eapply (call_completed (collab := Demo.fallback) "session-1"
              (fst (create_session ∅ (Some "CUST001") "session-1")) 0 "hello").
    + apply session_created.
    + vm_compute. reflexivity.
  - vm_compute. reflexivity.
Qed.




(** ** Further runs *)

(** The bound of four for the verification node is reached: a text with an
    address, a PAN, a date of birth and an email draws a reply from each of
    the four checks (the digits of the address are taken for a code). *)
Lemma verification_can_append_four :
  let s := Demo.hears Demo.phone_done
             "address: 12 MG Road 560001 pan: abcde1234f dob: 10/05/1990 email: a.b@c-d.co.in" in
  (fun s' => (length (conversation_history s')
              - length (conversation_history s))%nat)
    <$> Demo.returned (verification_agent_node (collab := Demo.fallback) s)
  = Some 4%nat.
Proof. vm_compute. reflexivity. Qed.

(** On a record with no verification signal a code request draws the
    explainer only: the first block of the verification node returns on both
    of its branches, and no code is sent. *)
Lemma code_request_before_any_signal :
  let s := Demo.hears
             (update_state Demo.fresh [ K.current_stage ::= "verification" ])
             "SEND OTP" in
  (fun s' => (otp_sent s', content <$> last (conversation_history s')))
    <$> Demo.returned (verification_agent_node (collab := Demo.fallback) s)
  = Some (false, Some "Let's quickly verify your details for security.").
Proof. vm_compute. reflexivity. Qed.

(** Not every call returns: the failure branch of a specialist does not
    clear the pending action, so the router sends the record to the same
    specialist until the graph gives up.  Here a session without a customer
    accepts an offer and the verification node cannot start. *)
Lemma pending_delegation_exhausts_the_graph :
  invoke (collab := Demo.fallback)
    (Demo.hears Demo.anonymous_in_sales "proceed")
  = Raised GraphRecursionError.
Proof. vm_compute. reflexivity. Qed.

(** * Further properties *)

Section MoreFacts.
Import PyStr Re.
Context {collab : Collaborators}.

Ltac owned H :=
  solve [ repeat first
    [ apply List.Forall_nil
    | apply List.Forall_cons; [apply H; reflexivity|]
    | apply Forall_app; split
    | match goal with |- context [if ?b then _ else _] => destruct b end ] ].

Ltac keep_owned H :=
  repeat first
    [ reflexivity
    | rewrite update_state_keeps by owned H
    | rewrite add_message_keeps by owned H ].

Lemma master_blind {V} (view : LoanApplicationState -> V) s :
  blind_to master_agent view -> view (master_agent_node s) = view s.
Proof.
  intros H. unfold master_agent_node.
  destruct (last (conversation_history s)) as [m|]; [|keep_owned H].
  destruct (role m); try reflexivity.
  unfold master_process_message.
  pose proof (decision_record (current_stage s) (content m) s) as Hrec.
  destruct (MasterAgent._determine_next_action _ _ _) as [[na st] s1].
  simpl in Hrec. cbv beta iota zeta.
  destruct Hrec as [->|(a & _ & ->)]; keep_owned H.
  apply (H _ K.requested_amount a). reflexivity.
Qed.

Lemma sales_blind {V} (view : LoanApplicationState -> V) s :
  blind_to sales_agent view -> view (sales_agent_node s) = view s.
Proof.
  intros H. unfold sales_agent_node, sales_reply.
  repeat case_match; keep_owned H.
Qed.

Lemma underwriting_blind {V} (view : LoanApplicationState -> V) s :
  blind_to underwriting_agent view -> view (underwriting_agent_node s) = view s.
Proof.
  intros H. unfold underwriting_agent_node. repeat case_match; keep_owned H.
Qed.

Lemma sanction_blind {V} (view : LoanApplicationState -> V) s :
  blind_to sanction_agent view -> view (sanction_agent_node s) = view s.
Proof.
  intros H. unfold sanction_agent_node. case_match; keep_owned H.
Qed.

Lemma verification_blind {V} (view : LoanApplicationState -> V) s s' :
  blind_to verification_agent view ->
  verification_agent_node s = Done s' -> view s' = view s.
Proof.
  intros H. unfold verification_agent_node.
  generalize (default EmptyString
                (strip <$> last_user_content (conversation_history s))).
  intros msg.
  destruct (not_initialized s).
  { intros [= <-]. unfold start_block, verification_reply.
    case_match; keep_owned H. }
  destruct (send_block msg s) as [sent|] eqn:Hsend.
  { intros [= <-]. revert Hsend.
    unfold send_block, verification_reply, agent_send_otp.
    repeat case_match; intros [= <-]; keep_owned H. }
  assert (Hcode : view (code_block msg s) = view s).
  { unfold code_block, verification_reply. repeat case_match; keep_owned H. }
  revert Hcode. generalize (code_block msg s). intros s1 Hcode.
  destruct (address_block msg s1) as [s2|e] eqn:Haddr; simpl; [|discriminate].
  assert (Haddr' : view s2 = view s1).
  { revert Haddr. unfold address_block, verification_reply.
    destruct (nonempty msg); [|intros [= <-]; reflexivity].
    destruct (address_of msg) as [addr|e]; simpl; [|discriminate].
    repeat case_match; intros [= <-]; keep_owned H. }
  assert (Hkyc : view (kyc_block msg s2) = view s2).
  { unfold kyc_block.
    destruct (nonempty msg); [|reflexivity].
    set (us := concat _). set (ms := concat _).
    assert (Hus : Forall (keeps view) us).
    { subst us. simpl. repeat case_match; owned H. }
    clearbody us ms.
    destruct us as [|u us]; [reflexivity|].
    destruct ms as [|m ms].
    - apply update_state_keeps. assumption.
    - rewrite add_message_keeps by owned H.
      apply update_state_keeps. assumption. }
  assert (Hid : view (identity_block (kyc_block msg s2))
                = view (kyc_block msg s2)).
  { unfold identity_block. case_match; keep_owned H. }
  intros [= <-]. rewrite update_state_keeps by owned H. congruence.
Qed.

Lemma run_node_blind {V} (view : LoanApplicationState -> V) n s s' :
  run_node n s = Done s' -> blind_to n view -> view s' = view s.
Proof.
  destruct n; simpl; try (intros [= <-]); intros H.
  - apply master_blind; assumption.
  - apply sales_blind; assumption.
  - intros Hb. eapply verification_blind; eassumption.
  - apply underwriting_blind; assumption.
  - apply sanction_blind; assumption.
Qed.

(** X1.  Every node writes only the entries it owns: whatever view of the
    record is insensitive to assignments of the entries listed for a node
    is left unchanged by an execution of that node; in particular every
    entry outside the list keeps its value. *)
Theorem stages_write_only_their_entries n s s' :
  run_node n s = Done s' ->
  (forall V (view : LoanApplicationState -> V),
     blind_to n view -> view s' = view s)
  /\ (forall T (k : K.key T), writes n k = false -> get_key k s' = get_key k s).
Proof.
  intros Hrun. split.
  - intros V view. apply run_node_blind. assumption.
  - intros T k Hk. apply (run_node_blind (get_key k) n s s' Hrun).
    intros T' k' v Hk' r.
    destruct n, k; try discriminate Hk; destruct k'; try discriminate Hk';
      reflexivity.
Qed.

(** ** Identity of the session *)

Lemma identity_blind n : blind_to n identity_view.
Proof.
  intros T k v Hk s. destruct n, k; try discriminate Hk; reflexivity.
Qed.

Lemma run_keeps_identity fuel : forall n s trace s',
  run fuel n s = Done (trace, s') -> identity_view s' = identity_view s.
Proof.
  induction fuel as [|fuel IH]; intros n s trace s'; [discriminate|].
  rewrite run_S.
  destruct (run_node n s) as [s1|e] eqn:Hnode; [|discriminate].
  pose proof (run_node_blind identity_view n s s1 Hnode
                (identity_blind n)) as H1.
  destruct (successor n s1) as [n'|].
  - destruct (run fuel n' s1) as [[tr fin]|e] eqn:Hrun; [|discriminate].
    intros [= <- <-]. rewrite (IH _ _ _ _ Hrun). assumption.
  - intros [= <- <-]. assumption.
Qed.

(** X2.  The session table stays keyed by session id: creating a session
    and completing a call of [process_message] both leave every record
    stored under its own [session_id]; the call also leaves the customer
    id, name and phone of the record it processed as they were. *)
Theorem sessions_stay_keyed sessions :
  well_keyed sessions ->
  (forall cid sid, well_keyed (fst (create_session sessions cid sid)))
  /\ (forall sid text sessions' rep,
        process_message sessions sid text = Done (sessions', rep) ->
        well_keyed sessions'
        /\ forall st result,
             sessions !! sid = Some st -> sessions' !! sid = Some result ->
             identity_view result = identity_view st).
Proof.
  intros Hkeyed. split.
  - intros cid sid sid' s. unfold create_session. simpl.
    destruct (decide (sid = sid')) as [->|Hne].
    + rewrite lookup_insert_eq. intros [= <-]. reflexivity.
    + rewrite lookup_insert_ne by assumption. apply Hkeyed.
  - intros sid text sessions' rep. unfold process_message, invoke.
    destruct (sessions !! sid) as [st|] eqn:Hst.
    + destruct (run _ _ _) as [[tr result]|e] eqn:Hrun; simpl; [|discriminate].
      intros [= <- <-].
      apply run_keeps_identity in Hrun.
      assert (Hid : identity_view result = identity_view st).
      { rewrite Hrun. unfold add_message.
        apply update_state_keeps. repeat constructor. }
      split.
      * intros sid' s. destruct (decide (sid = sid')) as [->|Hne].
        -- rewrite lookup_insert_eq. intros [= <-].
           injection Hid as -> _ _ _. apply Hkeyed. assumption.
        -- rewrite lookup_insert_ne by assumption. apply Hkeyed.
      * intros st' result'. rewrite lookup_insert_eq.
        intros [= <-] [= <-]. assumption.
    + intros [= <- <-]. split; [assumption|]. intros; discriminate.
Qed.

(** X3.  A call of [process_message] touches the entry of its own session
    only: an unknown session id is rejected with the table unchanged, and
    a call that returns leaves every other session's record, and the set
    of session ids, as they were. *)
Theorem process_message_is_local sessions sid text :
  (sessions !! sid = None ->
   process_message sessions sid text = Done (sessions, SessionNotFound))
  /\ (forall sessions' rep,
        process_message sessions sid text = Done (sessions', rep) ->
        (forall other, other <> sid -> sessions' !! other = sessions !! other)
        /\ dom sessions' = dom sessions
        /\ (rep = SessionNotFound <-> sessions !! sid = None)).
Proof.
  split.
  - intros Hnone. unfold process_message. rewrite Hnone. reflexivity.
  - intros sessions' rep. unfold process_message.
    destruct (sessions !! sid) as [st|] eqn:Hst.
    + destruct (invoke _) as [[tr result]|e]; simpl; [|discriminate].
      intros [= <- <-]. split; [|split].
      * intros other Hne. apply lookup_insert_ne. congruence.
      * rewrite dom_insert_L. apply subseteq_union_1_L.
        apply singleton_subseteq_l, elem_of_dom. eauto.
      * split; discriminate.
    + intros [= <- <-]. split; [|split]; auto. split; auto.
Qed.

(** ** Replies *)

Lemma answers_refl s : answers s s.
Proof. exists []. rewrite app_nil_r. auto. Qed.

Lemma answers_trans s1 s2 s3 : answers s1 s2 -> answers s2 s3 -> answers s1 s3.
Proof.
  intros (e1 & H1 & A1) (e2 & H2 & A2). exists (e1 ++ e2).
  rewrite H2, H1, <- app_assoc. split; [reflexivity|].
  apply Forall_app; auto.
Qed.

Lemma answers_update s s' us :
  Forall off_log us -> answers s s' -> answers s (update_state s' us).
Proof.
  intros Hus (e & He & Ha).
  destruct (update_state_off_log us s' Hus) as [Hh _].
  exists e. rewrite Hh. auto.
Qed.

Lemma answers_add s c a : answers s (add_message s assistant c a).
Proof. exists [mkMessage assistant c a]. split; [reflexivity|]. repeat constructor. Qed.

Lemma answers_reply s c a us :
  Forall off_log us -> answers s (update_state (add_message s assistant c a) us).
Proof. intros Hus. apply answers_update; [assumption|apply answers_add]. Qed.

Ltac answers_leaf :=
  first
    [ apply answers_refl
    | apply answers_reply; solve_off_log
    | apply answers_add
    | apply answers_update; [solve_off_log | apply answers_refl] ].

Lemma master_replies s : answers s (master_agent_node s).
Proof.
  unfold master_agent_node.
  destruct (last (conversation_history s)) as [m|]; [|answers_leaf].
  destruct (role m); try answers_leaf.
  unfold master_process_message.
  pose proof (decision_record (current_stage s) (content m) s) as Hrec.
  destruct (MasterAgent._determine_next_action _ _ _) as [[na st] s'].
  simpl in Hrec. cbv beta iota zeta.
  apply answers_update; [solve_off_log|].
  destruct Hrec as [->|(a & _ & ->)].
  - apply answers_add.
  - exists [mkMessage assistant (llm_response s (content m)) (Some "master")].
    split; [reflexivity|]. repeat constructor.
Qed.

Lemma sales_replies s : answers s (sales_agent_node s).
Proof. unfold sales_agent_node, sales_reply. repeat case_match; answers_leaf. Qed.

Lemma underwriting_replies s : answers s (underwriting_agent_node s).
Proof.
  unfold underwriting_agent_node.
  destruct (process_underwriting s); [|answers_leaf].
  repeat case_match; repeat (apply answers_update; [solve_off_log|]);
    apply answers_add.
Qed.

Lemma sanction_replies s : answers s (sanction_agent_node s).
Proof. unfold sanction_agent_node. case_match; answers_leaf. Qed.

Lemma verification_replies s s' :
  verification_agent_node s = Done s' -> answers s s'.
Proof.
  unfold verification_agent_node.
  set (msg := default EmptyString _). clearbody msg.
  destruct (not_initialized s).
  { intros [= <-]. unfold start_block, verification_reply.
    case_match; answers_leaf. }
  destruct (send_block msg s) as [sent|] eqn:Hsend.
  { intros [= <-]. revert Hsend.
    unfold send_block, verification_reply, agent_send_otp.
    repeat case_match; intros [= <-]; answers_leaf. }
  destruct (address_block msg (code_block msg s)) as [s2|e] eqn:Haddr;
    simpl; [|discriminate].
  intros [= <-].
  apply answers_update; [solve_off_log|].
  assert (H1 : answers s (code_block msg s)).
  { unfold code_block, verification_reply. repeat case_match; answers_leaf. }
  assert (H2 : answers (code_block msg s) s2).
  { revert Haddr. generalize (code_block msg s). intros c.
    unfold address_block, verification_reply.
    destruct (nonempty msg); [|intros [= <-]; answers_leaf].
    destruct (address_of msg) as [addr|e]; simpl; [|discriminate].
    repeat case_match; intros [= <-]; answers_leaf. }
  assert (H3 : answers s2 (kyc_block msg s2)).
  { unfold kyc_block.
    destruct (nonempty msg); [|answers_leaf].
    set (us := concat _). set (ms := concat _).
    assert (Hus : Forall off_log us).
    { subst us. simpl. repeat case_match; solve_off_log. }
    clearbody us ms.
    destruct us as [|u us]; [answers_leaf|].
    destruct ms as [|m ms].
    - apply answers_update; [assumption|apply answers_refl].
    - eapply answers_trans; [|apply answers_add].
      apply answers_update; [assumption|apply answers_refl]. }
  assert (H4 : answers (kyc_block msg s2) (identity_block (kyc_block msg s2))).
  { unfold identity_block. case_match; answers_leaf. }
  eauto using answers_trans.
Qed.

Lemma run_node_replies n s s' : run_node n s = Done s' -> answers s s'.
Proof.
  destruct n; simpl; try (intros [= <-]).
  - apply master_replies.
  - apply sales_replies.
  - apply verification_replies.
  - apply underwriting_replies.
  - apply sanction_replies.
Qed.

Lemma run_replies fuel : forall n s trace s',
  run fuel n s = Done (trace, s') -> answers s s'.
Proof.
  induction fuel as [|fuel IH]; intros n s trace s'; [discriminate|].
  rewrite run_S.
  destruct (run_node n s) as [s1|e] eqn:Hnode; [|discriminate].
  apply run_node_replies in Hnode.
  destruct (successor n s1) as [n'|].
  - destruct (run fuel n' s1) as [[tr fin]|e] eqn:Hrun; [|discriminate].
    intros [= <- <-]. eauto using answers_trans.
  - intros [= <- <-]. assumption.
Qed.

Lemma answers_last s s' :
  answers s s' -> last_is_assistant s -> last_is_assistant s'.
Proof.
  intros (e & He & Ha) (m & Hm & Hr). unfold last_is_assistant. rewrite He.
  destruct e as [|x e _] using rev_ind.
  - rewrite app_nil_r. eauto.
  - rewrite app_assoc, last_snoc. exists x. split; [reflexivity|].
    apply Forall_app in Ha as [_ Ha]. inversion Ha; assumption.
Qed.

Lemma last_response_found_all before new final :
  Forall (fun m => role m = assistant) new -> last new = Some final ->
  last_response (before ++ new) = content final.
Proof.
  intros Hall Hlast. unfold last_response.
  rewrite List.filter_app.
  assert (Hf : List.filter (fun msg => Role_eqb (role msg) assistant) new = new).
  { clear Hlast. induction Hall as [|x l Hx _ IH]; [reflexivity|].
    simpl. rewrite Hx. simpl. rewrite IH. reflexivity. }
  rewrite Hf, fmap_app.
  destruct new as [|x new _] using rev_ind; [discriminate|].
  rewrite last_snoc in Hlast. injection Hlast as ->.
  rewrite fmap_app. simpl. rewrite app_assoc, last_snoc. reflexivity.
Qed.

Lemma master_first_reply s m :
  last (conversation_history s) = Some m -> role m = user ->
  conversation_history (master_agent_node s)
  = conversation_history s
    ++ [mkMessage assistant (llm_response s (content m)) (Some "master")].
Proof.
  intros Hlast Hrole. unfold master_agent_node. rewrite Hlast, Hrole.
  unfold master_process_message.
  pose proof (decision_record (current_stage s) (content m) s) as Hrec.
  destruct (MasterAgent._determine_next_action _ _ _) as [[na st] s1].
  simpl in Hrec. cbv beta iota zeta.
  destruct Hrec as [->|(a & _ & ->)]; reflexivity.
Qed.

(** What a call that returns stores and hands back. *)
Lemma call_shape sessions sid text st sessions' rep :
  sessions !! sid = Some st ->
  process_message sessions sid text = Done (sessions', rep) ->
  let first :=
    mkMessage assistant
      (llm_response (add_message st user text None) text) (Some "master") in
  exists result rest final,
    sessions' = <[sid := result]> sessions
    /\ conversation_history result
       = conversation_history st ++ mkMessage user text None :: first :: rest
    /\ Forall (fun m => role m = assistant) rest
    /\ last (first :: rest) = Some final
    /\ rep = Response (content final) result.
Proof.
  intros Hst. unfold process_message, invoke. rewrite Hst.
  set (s0 := add_message st user text None).
  assert (Hs0 : conversation_history s0
                = conversation_history st ++ [mkMessage user text None])
    by reflexivity.
  destruct (run _ _ _) as [[tr result]|e] eqn:Hrun; simpl; [|discriminate].
  intros [= <- <-].
  assert (Hlast : last (conversation_history s0) = Some (mkMessage user text None))
    by (rewrite Hs0; apply last_snoc).
  destruct recursion_limit as [|fuel]; [discriminate|].
  rewrite run_S in Hrun. simpl run_node in Hrun. cbv beta iota in Hrun.
  pose proof (master_first_reply s0 _ Hlast eq_refl) as Hr.
  cbn [content] in Hr.
  set (r := mkMessage assistant (llm_response s0 text) (Some "master")) in *.
  assert (Hshape : exists e,
             conversation_history result
             = (conversation_history st ++ [mkMessage user text None]) ++ r :: e
             /\ Forall (fun m => role m = assistant) e).
  { revert Hrun. generalize (master_agent_node s0) Hr. intros s1 Hr1.
    destruct (successor master_agent s1) as [n'|].
    - destruct (run fuel n' s1) as [[tr' fin]|e] eqn:Hrest; [|discriminate].
      intros [= <- <-].
      apply run_replies in Hrest. destruct Hrest as (e & He & Ha).
      exists e. rewrite He, Hr1, Hs0, <- !app_assoc. split; [reflexivity|].
      assumption.
    - intros [= <- <-]. exists [].
      rewrite Hr1, Hs0. split; [reflexivity|]. constructor. }
  destruct Hshape as (e & Hh & Hall).
  assert (Hne : exists final, last (r :: e) = Some final).
  { destruct e as [|x e _] using rev_ind; [eexists; reflexivity|].
    exists x. rewrite app_comm_cons. apply last_snoc. }
  destruct Hne as [final Hfinal].
  exists result, e, final.
  split; [reflexivity|]. split; [rewrite Hh, <- app_assoc; reflexivity|].
  split; [assumption|]. split; [assumption|].
  f_equal. rewrite Hh. apply last_response_found_all; [|assumption].
  constructor; [reflexivity|assumption].
Qed.

(** X4.  A call of [process_message] that returns stores the old log, then
    the inbound text as a user entry, then at least one reply, and replies
    only; no earlier entry is dropped or changed, and the response handed
    back is the content of the very last entry of the stored log. *)
Theorem call_appends_text_then_replies sessions sid text st sessions' rep :
  sessions !! sid = Some st ->
  process_message sessions sid text = Done (sessions', rep) ->
  exists result replies final,
    sessions' !! sid = Some result
    /\ conversation_history result
       = conversation_history st ++ mkMessage user text None :: replies
    /\ Forall (fun m => role m = assistant) replies
    /\ last replies = Some final
    /\ last (conversation_history result) = Some final
    /\ rep = Response (content final) result.
Proof.
  intros Hst Hcall.
  destruct (call_shape _ _ _ _ _ _ Hst Hcall)
    as (result & rest & final & -> & Hh & Hall & Hfinal & ->).
  eexists result, _, final. rewrite lookup_insert_eq.
  split; [reflexivity|]. split; [exact Hh|].
  split; [constructor; [reflexivity|assumption]|].
  split; [exact Hfinal|]. split; [|reflexivity].
  rewrite Hh.
  change (conversation_history st ++ mkMessage user text None :: ?l)
    with (conversation_history st ++ [mkMessage user text None] ++ l).
  rewrite app_assoc, last_app, Hfinal. reflexivity.
Qed.

(** ** The shape of a cycle *)

Lemma delegate_of_delegation a :
  is_delegation a = match delegate_of a with Some _ => true | None => false end.
Proof.
  unfold is_delegation, delegate_of.
  repeat (destruct (is_str a _); [reflexivity|]). reflexivity.
Qed.

Lemma delegate_of_specialist a x : delegate_of a = Some x -> x <> master_agent.
Proof. unfold delegate_of. repeat case_match; intros [= <-]; discriminate. Qed.

Lemma delegate_of_successor s x :
  delegate_of (next_action s) = Some x -> successor master_agent s = Some x.
Proof.
  unfold delegate_of, successor, route_master_agent.
  repeat (destruct (is_str (next_action s) _); [intros [= <-]; reflexivity|]).
  discriminate.
Qed.

(** A specialist clears the pending action or leaves it as it was. *)
Lemma specialist_action n s s' :
  n <> master_agent -> run_node n s = Done s' ->
  next_action s' = None \/ next_action s' = next_action s.
Proof.
  destruct n; simpl; intros Hn; try congruence; try (intros [= <-]).
  - unfold sales_agent_node, sales_reply.
    repeat case_match; left; reflexivity.
  - unfold verification_agent_node.
    set (msg := default EmptyString _). clearbody msg.
    destruct (not_initialized s).
    { intros [= <-]. unfold start_block, verification_reply.
      case_match; [left|right]; reflexivity. }
    destruct (send_block msg s) as [sent|] eqn:Hsend.
    { intros [= <-]. revert Hsend.
      unfold send_block, verification_reply, agent_send_otp.
      repeat case_match; intros [= <-]; left; reflexivity. }
    destruct (address_block msg (code_block msg s)) as [s2|e];
      simpl; [|discriminate].
    intros [= <-]. left; reflexivity.
  - unfold underwriting_agent_node.
    repeat case_match; first [left; reflexivity | right; reflexivity].
  - unfold sanction_agent_node.
    case_match; [left|right]; reflexivity.
Qed.

Lemma run_trace_bound fuel : forall n s trace s',
  run fuel n s = Done (trace, s') -> (length trace <= fuel)%nat.
Proof.
  induction fuel as [|fuel IH]; intros n s trace s'; [discriminate|].
  rewrite run_S.
  destruct (run_node n s) as [s1|e]; [|discriminate].
  destruct (successor n s1) as [n'|].
  - destruct (run fuel n' s1) as [[tr fin]|e] eqn:Hrun; [|discriminate].
    intros [= <- <-]. apply IH in Hrun. simpl. lia.
  - intros [= <- <-]. simpl. lia.
Qed.

Lemma round_trips_length k x : length (round_trips k x) = (2 * k + 1)%nat.
Proof.
  unfold round_trips. induction k as [|k IH]; [reflexivity|].
  simpl in *. lia.
Qed.

(** From a record whose last entry is a reply the graph makes round trips
    to the specialist of the pending action until that action is
    cleared. *)
Lemma idle_loop fuel : forall t x trace s',
  last_is_assistant t ->
  (forall y, delegate_of (next_action t) = Some y -> y = x) ->
  run fuel master_agent t = Done (trace, s') ->
  exists k,
    trace = round_trips k x
    /\ (k = 0%nat \/ delegate_of (next_action t) = Some x)
    /\ is_delegation (next_action s') = false
    /\ last_is_assistant s'.
Proof.
  induction fuel as [fuel IH] using lt_wf_ind.
  intros t x trace s' Hlast Hx.
  destruct fuel as [|fuel]; [discriminate|].
  rewrite run_S. simpl run_node. cbv beta iota.
  destruct Hlast as (m & Hm & Hrole).
  rewrite (master_idle t m Hm) by (rewrite Hrole; discriminate).
  destruct (delegate_of (next_action t)) as [y|] eqn:Hdel.
  - rewrite (Hx y eq_refl) in Hdel.
    rewrite (delegate_of_successor t x Hdel).
    destruct fuel as [|fuel]; [discriminate|].
    rewrite run_S.
    destruct (run_node x t) as [t2|e] eqn:Hnode; [|discriminate].
    pose proof (delegate_of_specialist _ _ Hdel) as Hspec.
    assert (Hsucc : successor x t2 = Some master_agent)
      by (destruct x; try reflexivity; congruence).
    rewrite Hsucc.
    destruct (run fuel master_agent t2) as [[tr fin]|e] eqn:Hrun;
      [|discriminate].
    intros [= <- <-].
    destruct (IH fuel ltac:(lia) t2 x tr fin) as (k & -> & _ & Hend & Hfin).
    + eapply answers_last; [eapply run_node_replies; eassumption|].
      exists m; auto.
    + intros y'. destruct (specialist_action x t t2 Hspec Hnode) as [->| ->].
      * discriminate.
      * rewrite Hdel. congruence.
    + assumption.
    + exists (S k). split; [reflexivity|].
      split; [right; f_equal; apply Hx; reflexivity|]. split; assumption.
  - pose proof (delegate_of_delegation (next_action t)) as Hna.
    rewrite Hdel in Hna.
    unfold successor. rewrite (route_after_assistant t m Hm Hrole Hna). simpl.
    intros [= <- <-]. exists 0%nat. repeat split; eauto.
    exists m; auto.
Qed.

Lemma run_after_master fuel s m :
  last (conversation_history s) = Some m -> role m = user ->
  run fuel master_agent s = run fuel master_agent (master_agent_node s).
Proof.
  intros Hlast Hrole. destruct fuel as [|fuel]; [reflexivity|].
  rewrite !run_S. simpl run_node. cbv beta iota.
  destruct (master_decides s m Hlast Hrole) as (_ & _ & _ & r & Hr & Hrr).
  rewrite (master_idle (master_agent_node s) r Hr) by (rewrite Hrr; discriminate).
  reflexivity.
Qed.

(** X5.  The shape of every cycle that returns: the orchestrator answers,
    then the graph makes [k] round trips to one and the same specialist,
    the one the orchestrator's pending action names, each closed by the
    orchestrator, which adds nothing; the cycle ends with no delegation
    pending and a reply as the last log entry, and within the node
    budget. *)
Theorem cycle_is_round_trips_to_one_specialist fuel s m trace s' :
  last (conversation_history s) = Some m -> role m = user ->
  run fuel master_agent s = Done (trace, s') ->
  exists k x,
    trace = round_trips k x
    /\ x <> master_agent
    /\ (k = 0%nat
        \/ delegate_of (next_action (master_agent_node s)) = Some x)
    /\ (2 * k + 1 <= fuel)%nat
    /\ is_delegation (next_action s') = false
    /\ last_is_assistant s'.
Proof.
  intros Hlast Hrole Hrun.
  pose proof (run_trace_bound _ _ _ _ _ Hrun) as Hlen.
  rewrite (run_after_master fuel s m Hlast Hrole) in Hrun.
  destruct (master_decides s m Hlast Hrole) as (_ & _ & _ & r & Hr & Hrr).
  set (s1 := master_agent_node s) in *.
  set (x := default sales_agent (delegate_of (next_action s1))).
  destruct (idle_loop fuel s1 x trace s') as (k & -> & Hk & Hend & Hfin).
  - exists r; auto.
  - intros y Hy. subst x. rewrite Hy. reflexivity.
  - assumption.
  - exists k, x. repeat split; try assumption.
    + subst x. destruct (delegate_of (next_action s1)) as [y|] eqn:Hy;
        [|discriminate]. apply (delegate_of_specialist _ _ Hy).
    + rewrite round_trips_length in Hlen. lia.
Qed.

Lemma cleared_delegation_run fuel s m x s2 :
  last (conversation_history s) = Some m -> role m = user ->
  delegate_of (next_action (master_agent_node s)) = Some x ->
  run_node x (master_agent_node s) = Done s2 ->
  next_action s2 = None ->
  run (3 + fuel) master_agent s
  = Done ([master_agent; x; master_agent], s2).
Proof.
  intros Hlast Hrole Hdel Hnode Hnone.
  destruct (master_decides s m Hlast Hrole) as (_ & _ & _ & r & Hr & Hrr).
  change (3 + fuel)%nat with (S (S (S fuel))).
  rewrite run_S. simpl run_node. cbv beta iota.
  rewrite (delegate_of_successor _ x Hdel).
  rewrite run_S, Hnode.
  pose proof (delegate_of_specialist _ _ Hdel) as Hspec.
  assert (Hsucc : successor x s2 = Some master_agent)
    by (destruct x; try reflexivity; congruence).
  rewrite Hsucc, run_S. simpl run_node. cbv beta iota.
  assert (Hfin : last_is_assistant s2).
  { eapply answers_last; [eapply run_node_replies; eassumption|].
    exists r; auto. }
  destruct Hfin as (f & Hf & Hfr).
  rewrite (master_idle s2 f Hf) by (rewrite Hfr; discriminate).
  unfold successor at 1.
  rewrite (route_after_assistant s2 f Hf Hfr)
    by (rewrite Hnone; reflexivity).
  reflexivity.
Qed.

(** X6.  A delegation whose specialist clears the pending action costs
    three node executions: orchestrator, specialist, orchestrator, and the
    record the specialist left is the result.  The sales node always
    clears the action, so a delegation to sales always ends this way. *)
Theorem cleared_delegation_takes_three_nodes fuel s m :
  last (conversation_history s) = Some m -> role m = user ->
  (forall x s2,
     delegate_of (next_action (master_agent_node s)) = Some x ->
     run_node x (master_agent_node s) = Done s2 ->
     next_action s2 = None ->
     run (3 + fuel) master_agent s
     = Done ([master_agent; x; master_agent], s2))
  /\ (delegate_of (next_action (master_agent_node s)) = Some sales_agent ->
      run (3 + fuel) master_agent s
      = Done ([master_agent; sales_agent; master_agent],
              sales_agent_node (master_agent_node s))).
Proof.
  intros Hlast Hrole. split.
  - intros x s2. apply (cleared_delegation_run fuel s m); assumption.
  - intros Hdel.
    apply (cleared_delegation_run fuel s m sales_agent); auto.
    unfold sales_agent_node, sales_reply. repeat case_match; reflexivity.
Qed.

(** X7.  A delegation to verification on a record with no verification
    signal and no known customer never returns: the verification node
    records an error without clearing the pending action, the router sends
    the record back to it, and the run ends in [GraphRecursionError]
    whatever the node budget. *)
Theorem failed_verification_start_never_returns fuel s m error :
  last (conversation_history s) = Some m -> role m = user ->
  next_action (master_agent_node s) = Some "delegate_to_verification" ->
  not_initialized s = true ->
  start_verification s = StartFailed error ->
  run fuel master_agent s = Raised GraphRecursionError.
Proof.
  intros Hlast Hrole Hna Hinit Hstart0.
  assert (Hfail : forall message customer,
             start_verification s <> StartOk message customer)
    by (intros; rewrite Hstart0; discriminate).
  clear Hstart0.
  rewrite (run_after_master fuel s m Hlast Hrole).
  destruct (master_decides s m Hlast Hrole) as (_ & _ & _ & r & Hr & Hrr).
  assert (Hinit1 : not_initialized (master_agent_node s) = true).
  { rewrite <- Hinit.
    apply (run_node_blind not_initialized master_agent s); [reflexivity|].
    intros T k v Hk t. destruct k; try discriminate Hk; reflexivity. }
  assert (Hfail1 : forall message customer,
             start_verification (master_agent_node s) <> StartOk message customer).
  { assert (Hsame : start_verification (master_agent_node s)
                    = start_verification s).
    { apply (run_node_blind start_verification master_agent s); [reflexivity|].
      intros T k v Hk t. destruct k; try discriminate Hk; reflexivity. }
    rewrite Hsame. assumption. }
  assert (Hloop : forall fuel t,
             last_is_assistant t ->
             next_action t = Some "delegate_to_verification" ->
             not_initialized t = true ->
             (forall message customer,
                start_verification t <> StartOk message customer) ->
             run fuel master_agent t = Raised GraphRecursionError).
  { clear. intros fuel. induction fuel as [fuel IH] using lt_wf_ind.
    intros t (f & Hf & Hfr) Hna Hinit Hfail.
    destruct fuel as [|fuel]; [reflexivity|].
    rewrite run_S. simpl run_node. cbv beta iota.
    rewrite (master_idle t f Hf) by (rewrite Hfr; discriminate).
    rewrite (delegate_of_successor t verification_agent)
      by (rewrite Hna; reflexivity).
    destruct fuel as [|fuel]; [reflexivity|].
    rewrite run_S. simpl run_node.
    unfold verification_agent_node. rewrite Hinit. unfold start_block.
    destruct (start_verification t) as [msg c|err] eqn:Hstart;
      [destruct (Hfail msg c eq_refl)|].
    simpl successor. cbv beta iota.
    rewrite IH; [reflexivity|lia| | | |].
    - exists f. auto.
    - exact Hna.
    - exact Hinit.
    - intros msg c. unfold start_verification in *. simpl.
      rewrite Hstart. discriminate. }
  apply Hloop; try assumption. exists r; auto.
Qed.

(** ** Invariants of a run and of a call *)

Lemma run_invariant (P : LoanApplicationState -> Prop) :
  (forall n t t', run_node n t = Done t' -> P t -> P t') ->
  forall fuel n s trace s',
    run fuel n s = Done (trace, s') -> P s -> P s'.
Proof.
  intros Hstep. induction fuel as [|fuel IH]; intros n s trace s';
    [discriminate|].
  rewrite run_S.
  destruct (run_node n s) as [s1|e] eqn:Hnode; [|discriminate].
  destruct (successor n s1) as [n'|].
  - destruct (run fuel n' s1) as [[tr fin]|e] eqn:Hrun; [|discriminate].
    intros [= <- <-] HP. eapply IH; eauto.
  - intros [= <- <-] HP. eauto.
Qed.

Lemma process_message_run sessions sid text st sessions' rep :
  sessions !! sid = Some st ->
  process_message sessions sid text = Done (sessions', rep) ->
  exists trace result,
    run recursion_limit master_agent (add_message st user text None)
    = Done (trace, result)
    /\ sessions' = <[sid := result]> sessions
    /\ rep = Response (last_response (conversation_history result)) result.
Proof.
  intros Hst. unfold process_message, invoke. rewrite Hst.
  destruct (run _ _ _) as [[tr result]|e]; simpl; [|discriminate].
  intros [= <- <-]. eauto.
Qed.

(** An invariant of every node that the inbound text does not break holds
    of the record a call stores. *)
Lemma call_invariant (P : LoanApplicationState -> Prop) :
  (forall n t t', run_node n t = Done t' -> P t -> P t') ->
  (forall t text, P t -> P (add_message t user text None)) ->
  forall sessions sid text st sessions' rep result,
    sessions !! sid = Some st ->
    process_message sessions sid text = Done (sessions', rep) ->
    sessions' !! sid = Some result ->
    P st -> P result.
Proof.
  intros Hstep Hin sessions sid text st sessions' rep result Hst Hcall Hres HP.
  destruct (process_message_run _ _ _ _ _ _ Hst Hcall)
    as (trace & result' & Hrun & -> & _).
  rewrite lookup_insert_eq in Hres. injection Hres as <-.
  eapply (run_invariant P Hstep); eauto.
Qed.

Ltac kept :=
  solve [ repeat first
    [ apply List.Forall_nil
    | apply List.Forall_cons; [intros ?; reflexivity|]
    | apply Forall_app; split
    | match goal with |- context [if ?b then _ else _] => destruct b end ] ].

Ltac keep :=
  repeat first
    [ reflexivity
    | rewrite update_state_keeps by kept
    | rewrite add_message_keeps by kept ].

(** ** The decision of the orchestrator *)

Lemma is_str_eq a t : is_str a t = true <-> a = Some t.
Proof.
  unfold is_str. destruct a as [x|]; [|split; discriminate].
  destruct (String.eqb_spec x t); split; congruence.
Qed.

(** X8.  Whatever the stage and the text, the orchestrator's decision
    either delegates to nobody or names one of the four specialists
    together with the stage of that specialist; from a declared stage it
    moves the cursor to a declared stage, and on any other stage text it
    delegates to nobody and leaves the cursor where it is. *)
Theorem decision_pairs_action_with_stage stage msg s :
  let d := MasterAgent._determine_next_action stage msg s in
  let action := fst (fst d) in
  let stage' := snd (fst d) in
  (action = None \/ stage_of_action action = Some stage')
  /\ (stage ∈ known_stages -> stage' ∈ known_stages)
  /\ (stage ∉ known_stages -> action = None /\ stage' = stage).
Proof.
  unfold MasterAgent._determine_next_action, known_stages. cbv zeta.
  repeat match goal with
         | |- context [String.eqb stage ?t] =>
             destruct (String.eqb_spec stage t) as [->|?]
         end;
    repeat case_match; cbn [fst snd];
    (split; [first [left; reflexivity | right; reflexivity]|]);
    (split; [intros Hk; first [exact Hk | rewrite !elem_of_cons; auto 10]
            | intros Hn; first [ split; reflexivity
                               | exfalso; apply Hn;
                                 rewrite !elem_of_cons; auto 10 ]]).
Qed.

(** X9.  What a delegation presupposes: sanction is delegated exactly
    when the cursor is on underwriting and the underwriting decision is
    approved; underwriting only from verification with identity and phone
    verified, or from the document upload with the salary slip uploaded;
    verification only from the sales or the verification stage.  The
    address flag plays no part in any decision. *)
Theorem delegation_preconditions stage msg s :
  let action st := fst (fst (MasterAgent._determine_next_action stage msg st)) in
  (action s = Some "delegate_to_sanction"
   <-> stage = "underwriting" /\ underwriting_decision s = Some "approved")
  /\ (action s = Some "delegate_to_underwriting" ->
      (stage = "verification"
       /\ kyc_verified s = true /\ phone_verified s = true)
      \/ (stage = "document_upload" /\ salary_slip_uploaded s = true))
  /\ (action s = Some "delegate_to_verification" ->
      stage = "sales_negotiation" \/ stage = "verification")
  /\ (forall b,
        fst (MasterAgent._determine_next_action stage msg
               (set_key K.address_verified b s))
        = fst (MasterAgent._determine_next_action stage msg s)).
Proof.
  cbv zeta. split; [|split; [|split]].
  - split.
    + unfold MasterAgent._determine_next_action. cbv zeta.
      repeat match goal with
             | |- context [String.eqb stage ?t] =>
                 destruct (String.eqb_spec stage t) as [->|?]
             end;
        repeat case_match; cbn [fst snd]; try discriminate.
      intros _. split; [reflexivity|]. apply is_str_eq. assumption.
    + intros [-> Hd]. rewrite decision_underwriting, Hd. reflexivity.
  - unfold MasterAgent._determine_next_action. cbv zeta.
    repeat match goal with
           | |- context [String.eqb stage ?t] =>
               destruct (String.eqb_spec stage t) as [->|?]
           end;
      repeat case_match; cbn [fst snd]; try discriminate; intros _.
    + left. split; [reflexivity|].
      match goal with H : _ && _ = true |- _ =>
        apply andb_true_iff in H; exact H end.
    + right. auto.
  - unfold MasterAgent._determine_next_action. cbv zeta.
    repeat match goal with
           | |- context [String.eqb stage ?t] =>
               destruct (String.eqb_spec stage t) as [->|?]
           end;
      repeat case_match; cbn [fst snd]; try discriminate; auto.
  - intros b. unfold MasterAgent._determine_next_action. cbv zeta.
    cbn [set_key requested_amount otp_sent kyc_verified phone_verified
         underwriting_decision salary_slip_uploaded sanction_letter_url].
    repeat case_match; reflexivity.
Qed.

(** ** The stage cursor along a call *)

Lemma stage_rank_known a :
  (stage_rank a = 0%nat /\ a ∉ known_stages)
  \/ (a ∈ known_stages
      /\ nth_error known_stages (stage_rank a - 1) = Some a
      /\ (1 <= stage_rank a <= 8)%nat).
Proof.
  unfold stage_rank, known_stages.
  repeat match goal with
         | |- context [String.eqb a ?t] =>
             destruct (String.eqb_spec a t) as [->|?]
         end;
    try (right; split; [rewrite !elem_of_cons; auto 10
                       |split; [reflexivity|cbv; lia]]).
  left. split; [reflexivity|].
  intros Hin. rewrite !elem_of_cons, elem_of_nil in Hin. intuition.
Qed.

Lemma stage_rank_inj a b :
  stage_rank a = stage_rank b -> (0 < stage_rank a)%nat -> a = b.
Proof.
  intros Heq Hpos.
  destruct (stage_rank_known a) as [[Ha _]|(_ & Ha & _)]; [lia|].
  destruct (stage_rank_known b) as [[Hb _]|(_ & Hb & _)]; [lia|].
  rewrite Heq in Ha. congruence.
Qed.

Lemma stage_advances_trans a b c :
  stage_advances a b -> stage_advances b c -> stage_advances a c.
Proof.
  unfold stage_advances.
  intros [Hab|[Hab|[Ha Hb]]] [Hbc|[Hbc|[Hb' Hc]]]; subst; auto.
  - right; left; lia.
  - change (stage_rank "document_upload") with 6%nat in Hab.
    destruct (Nat.eq_dec (stage_rank a) 5%nat) as [H5|H5].
    + left. symmetry. apply stage_rank_inj; [exact H5|lia].
    + right; left. change (stage_rank "underwriting") with 5%nat. lia.
  - change (stage_rank "underwriting") with 5%nat in Hbc.
    destruct (Nat.eq_dec (stage_rank c) 6%nat) as [H6|H6].
    + left. apply stage_rank_inj; [exact H6|lia].
    + right; left. change (stage_rank "document_upload") with 6%nat. lia.
Qed.

Lemma stage_advances_closure a : stage_advances a "closure".
Proof.
  unfold stage_advances.
  destruct (stage_rank_known a) as [[Ha _]|(_ & _ & Ha)].
  - right; left. rewrite Ha. change (stage_rank "closure") with 8%nat. lia.
  - destruct (Nat.eq_dec (stage_rank a) 8%nat) as [H8|H8].
    + left. apply stage_rank_inj; [rewrite H8; reflexivity|cbv; lia].
    + right; left. change (stage_rank "closure") with 8%nat. lia.
Qed.

Lemma decision_advances stage msg s :
  stage_advances stage
    (snd (fst (MasterAgent._determine_next_action stage msg s))).
Proof.
  unfold MasterAgent._determine_next_action, stage_advances. cbv zeta.
  repeat match goal with
         | |- context [String.eqb stage ?t] =>
             destruct (String.eqb_spec stage t) as [->|?]
         end;
    repeat case_match; cbn [fst snd];
    first [ left; reflexivity
          | right; left; vm_compute; lia
          | right; right; split; reflexivity ].
Qed.

Lemma node_advances n t t' :
  run_node n t = Done t' ->
  stage_advances (current_stage t) (current_stage t').
Proof.
  destruct n; simpl; try (intros [= <-]).
  - unfold master_agent_node.
    destruct (last (conversation_history t)) as [m|];
      [|left; reflexivity].
    destruct (role m); try (left; reflexivity).
    unfold master_process_message.
    pose proof (decision_advances (current_stage t) (content m) t) as Hadv.
    destruct (MasterAgent._determine_next_action _ _ _) as [[na st] s1].
    exact Hadv.
  - left. apply (run_node_blind current_stage sales_agent t); [reflexivity|].
    intros T k v Hk r. destruct k; try discriminate Hk; reflexivity.
  - intros Hrun. left.
    apply (run_node_blind current_stage verification_agent t); [assumption|].
    intros T k v Hk r. destruct k; try discriminate Hk; reflexivity.
  - left.
    apply (run_node_blind current_stage underwriting_agent t); [reflexivity|].
    intros T k v Hk r. destruct k; try discriminate Hk; reflexivity.
  - unfold sanction_agent_node. case_match.
    + apply stage_advances_closure.
    + left. reflexivity.
Qed.

(** X10.  The stage cursor never goes back: over any call of
    [process_message] that returns, the cursor of the stored record is
    where it was, or further along the journey, or has come back from the
    document upload to underwriting, the one backward edge there is. *)
Theorem stage_cursor_never_goes_back sessions sid text st sessions' rep result :
  sessions !! sid = Some st ->
  process_message sessions sid text = Done (sessions', rep) ->
  sessions' !! sid = Some result ->
  stage_advances (current_stage st) (current_stage result).
Proof.
  intros Hst Hcall Hres.
  apply (call_invariant
           (fun t => stage_advances (current_stage st) (current_stage t)))
    with (2 := fun t text H => H) (3 := Hst) (4 := Hcall) (5 := Hres).
  - intros n t t' Hnode Ht.
    eapply stage_advances_trans; [exact Ht|].
    eapply node_advances; eassumption.
  - left. reflexivity.
Qed.

Lemma decision_closure msg s :
  MasterAgent._determine_next_action "closure" msg s = ((None, "closure"), s).
Proof. reflexivity. Qed.

(** X11.  A closed session stays closed: with the cursor on closure the
    cycle is the orchestrator alone, whatever the text and whatever action
    was pending; no specialist runs, the cursor stays on closure and the
    pending action is cleared, and apart from the log, its counter and the
    active agent no entry of the record changes. *)
Theorem closed_session_stays_closed fuel s m :
  last (conversation_history s) = Some m -> role m = user ->
  current_stage s = "closure" ->
  run (S fuel) master_agent s = Done ([master_agent], master_agent_node s)
  /\ current_stage (master_agent_node s) = "closure"
  /\ next_action (master_agent_node s) = None
  /\ forall T (k : K.key T),
       bookkeeping k = false ->
       get_key k (master_agent_node s) = get_key k s.
Proof.
  intros Hlast Hrole Hstage.
  destruct (master_decides s m Hlast Hrole) as (Hna & Hst & _ & r & Hr & Hrr).
  rewrite Hstage, decision_closure in Hna, Hst. cbn [fst snd] in Hna, Hst.
  split; [|split; [assumption|split; [assumption|]]].
  - rewrite run_S. simpl run_node. cbv beta iota. unfold successor.
    rewrite (route_after_assistant _ r Hr Hrr) by (rewrite Hna; reflexivity).
    reflexivity.
  - intros T k Hk. unfold master_agent_node. rewrite Hlast, Hrole.
    unfold master_process_message. rewrite Hstage, decision_closure.
    destruct k; try discriminate Hk;
      first [reflexivity | symmetry; exact Hstage].
Qed.

(** ** The verification entries *)

Lemma flags_kept_refl s : flags_kept s s.
Proof. unfold flags_kept. auto. Qed.

Lemma flags_kept_trans s1 s2 s3 :
  flags_kept s1 s2 -> flags_kept s2 s3 -> flags_kept s1 s3.
Proof. unfold flags_kept. intuition. Qed.

Lemma flags_kept_view s s' : flags_view s' = flags_view s -> flags_kept s s'.
Proof. unfold flags_kept, flags_view. intros [= -> -> ->]. auto. Qed.

Ltac flags_leaf :=
  first
    [ solve [apply flags_kept_view; keep]
    | solve [unfold flags_kept, update_state, add_message; simpl; auto] ].

Lemma node_keeps_flags n t t' : run_node n t = Done t' -> flags_kept t t'.
Proof.
  intros Hrun.
  assert (Hother : n <> verification_agent -> flags_kept t t').
  { intros Hn. apply flags_kept_view.
    apply (run_node_blind flags_view n t t' Hrun).
    intros T k v Hk r.
    destruct n; try congruence; destruct k; try discriminate Hk; reflexivity. }
  destruct n; try (apply Hother; discriminate).
  clear Hother. simpl in Hrun. revert Hrun.
  unfold verification_agent_node.
  generalize (default EmptyString
                (strip <$> last_user_content (conversation_history t))).
  intros msg.
  destruct (not_initialized t).
  { intros [= <-]. unfold start_block, verification_reply.
    case_match; flags_leaf. }
  destruct (send_block msg t) as [sent|] eqn:Hsend.
  { intros [= <-]. revert Hsend.
    unfold send_block, verification_reply, agent_send_otp.
    repeat case_match; intros [= <-]; flags_leaf. }
  assert (H1 : flags_kept t (code_block msg t)).
  { unfold code_block, verification_reply. repeat case_match; flags_leaf. }
  revert H1. generalize (code_block msg t). intros s1 H1.
  destruct (address_block msg s1) as [s2|e] eqn:Haddr; simpl; [|discriminate].
  assert (H2 : flags_kept s1 s2).
  { revert Haddr. unfold address_block, verification_reply.
    destruct (nonempty msg); [|intros [= <-]; apply flags_kept_refl].
    destruct (address_of msg) as [addr|e]; simpl; [|discriminate].
    repeat case_match; intros [= <-]; flags_leaf. }
  assert (H3 : flags_kept s2 (kyc_block msg s2)).
  { apply flags_kept_view. unfold kyc_block.
    destruct (nonempty msg); [|reflexivity].
    set (us := concat _). set (ms := concat _).
    assert (Hus : Forall (keeps flags_view) us).
    { subst us. simpl. repeat case_match; kept. }
    clearbody us ms.
    destruct us as [|u us]; [reflexivity|].
    destruct ms as [|m ms].
    - apply update_state_keeps. assumption.
    - rewrite add_message_keeps by kept.
      apply update_state_keeps. assumption. }
  assert (H4 : flags_kept (kyc_block msg s2)
                 (identity_block (kyc_block msg s2))).
  { unfold identity_block. case_match; flags_leaf. }
  intros [= <-].
  eapply flags_kept_trans; [|apply flags_kept_view; keep].
  eauto using flags_kept_trans.
Qed.

(** X12.  No verification flag is ever cleared: over any call of
    [process_message] that returns, an identity, phone or address flag
    that was set on the stored record is still set. *)
Theorem verification_flags_are_never_cleared
    sessions sid text st sessions' rep result :
  sessions !! sid = Some st ->
  process_message sessions sid text = Done (sessions', rep) ->
  sessions' !! sid = Some result ->
  flags_kept st result.
Proof.
  intros Hst Hcall Hres.
  apply (call_invariant (flags_kept st))
    with (3 := Hst) (4 := Hcall) (5 := Hres).
  - intros n t t' Hnode Ht.
    eapply flags_kept_trans; [exact Ht|].
    eapply node_keeps_flags; eassumption.
  - intros t txt Ht. eapply flags_kept_trans; [exact Ht|].
    apply flags_kept_view. unfold add_message. keep.
  - apply flags_kept_refl.
Qed.

Lemma code_block_sets_phone text s :
  phone_verified s = false -> phone_verified (code_block text s) = true ->
  carries_code text = true /\ code_verdict s text = Some true.
Proof.
  unfold carries_code, code_block, code_verdict, verification_reply.
  intros Hp.
  destruct (nonempty text && matches MasterAgent.code_token text);
    [|congruence].
  fold (entered_code text). cbv zeta.
  destruct (otp_sent s && is_str (otp_provider s) "twilio"
            && truthy_str (otp_phone s) && truthy_str (entered_code text)).
  - destruct (otp_success _ && otp_verified _); [auto|].
    destruct (3 <=? otp_attempts s + 1);
      rewrite update_state_keeps by kept;
      rewrite add_message_keeps by kept; congruence.
  - destruct (otp_sent s && truthy_str (otp_code s)).
    + destruct (bool_decide _); [auto|].
      destruct (3 <=? otp_attempts s + 1);
        rewrite update_state_keeps by kept;
        rewrite add_message_keeps by kept; congruence.
    + rewrite update_state_keeps by kept.
      rewrite add_message_keeps by kept. congruence.
Qed.

(** X13.  The phone flag is set by an accepted code and by nothing else:
    whenever an execution of any node turns [phone_verified] from false to
    true, the node is the verification node, the inbound text carries a
    code token, and the channel that issued the code (the provider's check
    for Twilio, the comparison with the stored code otherwise) accepted
    the entered code. *)
Theorem phone_verified_only_by_accepted_code n s s' :
  run_node n s = Done s' ->
  phone_verified s = false -> phone_verified s' = true ->
  n = verification_agent
  /\ carries_code (inbound_text s) = true
  /\ code_verdict s (inbound_text s) = Some true.
Proof.
  intros Hrun Hoff Hon.
  assert (Hother : n <> verification_agent -> phone_verified s' = phone_verified s).
  { intros Hn. apply (run_node_blind phone_verified n s s' Hrun).
    intros T k v Hk r.
    destruct n; try congruence; destruct k; try discriminate Hk; reflexivity. }
  destruct n; try (rewrite Hother in Hon by discriminate; congruence).
  clear Hother. split; [reflexivity|]. simpl in Hrun.
  destruct (verification_cases s s' Hrun)
    as [[_ ->]|[[_ Hsend]|(_ & _ & Hflow & _)]].
  - pose proof (start_block_flow s) as Hf. unfold flow_view in Hf.
    injection Hf as _ Hp _ _ _ _. congruence.
  - exfalso. revert Hsend.
    unfold send_block, verification_reply, agent_send_otp.
    repeat case_match; intros [= <-];
      rewrite update_state_keeps in Hon by kept;
      rewrite add_message_keeps in Hon by kept; congruence.
  - unfold flow_view in Hflow. injection Hflow as _ Hp _ _ _ _.
    apply code_block_sets_phone; congruence.
Qed.

(** The three checks that precede the identity check write their own
    entries only. *)
Lemma checks_blind {V} (view : LoanApplicationState -> V) msg s s2 :
  (forall T (k : K.key T) (v : T),
     checks_write k = true -> keeps view (k ::= v)) ->
  address_block msg (code_block msg s) = Done s2 ->
  view (kyc_block msg s2) = view s.
Proof.
  intros H.
  assert (Hcode : view (code_block msg s) = view s).
  { unfold code_block, verification_reply.
    repeat case_match;
      repeat first
        [ reflexivity
        | rewrite update_state_keeps
            by (repeat first [ apply List.Forall_nil
                             | apply List.Forall_cons;
                               [apply H; reflexivity|] ])
        | rewrite add_message_keeps
            by (repeat first [ apply List.Forall_nil
                             | apply List.Forall_cons;
                               [apply H; reflexivity|] ]) ]. }
  revert Hcode. generalize (code_block msg s). intros s1 Hcode Haddr.
  assert (Haddr' : view s2 = view s1).
  { revert Haddr. unfold address_block, verification_reply.
    destruct (nonempty msg); [|intros [= <-]; reflexivity].
    destruct (address_of msg) as [addr|e]; simpl; [|discriminate].
    repeat case_match; intros [= <-];
      repeat first
        [ reflexivity
        | rewrite update_state_keeps
            by (repeat first [ apply List.Forall_nil
                             | apply List.Forall_cons;
                               [apply H; reflexivity|] ])
        | rewrite add_message_keeps
            by (repeat first [ apply List.Forall_nil
                             | apply List.Forall_cons;
                               [apply H; reflexivity|] ]) ]. }
  assert (Hkyc : view (kyc_block msg s2) = view s2).
  { unfold kyc_block.
    destruct (nonempty msg); [|reflexivity].
    set (us := concat _). set (ms := concat _).
    assert (Hus : Forall (keeps view) us).
    { subst us. cbn [fmap list_fmap fst concat app].
      repeat case_match;
        repeat first [ apply List.Forall_nil
                     | apply List.Forall_cons; [apply H; reflexivity|] ]. }
    clearbody us ms.
    destruct us as [|u us]; [reflexivity|].
    destruct ms as [|m ms].
    - apply update_state_keeps. assumption.
    - rewrite add_message_keeps
        by (repeat first [ apply List.Forall_nil
                         | apply List.Forall_cons; [apply H; reflexivity|] ]).
      apply update_state_keeps. assumption. }
  congruence.
Qed.

(** X14.  The identity flag is set only with the three details on the
    record: whenever an execution of any node turns [kyc_verified] from
    false to true, the node is the verification node and the record it
    returns carries a PAN, a date of birth and an email. *)
Theorem identity_verified_only_with_details n s s' :
  run_node n s = Done s' ->
  kyc_verified s = false -> kyc_verified s' = true ->
  n = verification_agent
  /\ truthy_str (kyc_pan s') = true
  /\ truthy_str (kyc_dob s') = true
  /\ truthy_str (kyc_email s') = true.
Proof.
  intros Hrun Hoff Hon.
  assert (Hother : n <> verification_agent -> kyc_verified s' = kyc_verified s).
  { intros Hn. apply (run_node_blind kyc_verified n s s' Hrun).
    intros T k v Hk r.
    destruct n; try congruence; destruct k; try discriminate Hk; reflexivity. }
  destruct n; try (rewrite Hother in Hon by discriminate; congruence).
  clear Hother. split; [reflexivity|]. simpl in Hrun. revert Hrun.
  unfold verification_agent_node.
  generalize (default EmptyString
                (strip <$> last_user_content (conversation_history s))).
  intros msg.
  destruct (not_initialized s).
  { intros [= <-]. exfalso. revert Hon. unfold start_block, verification_reply.
    case_match; rewrite update_state_keeps by kept;
      try rewrite add_message_keeps by kept; congruence. }
  destruct (send_block msg s) as [sent|] eqn:Hsend.
  { intros [= <-]. exfalso. revert Hsend.
    unfold send_block, verification_reply, agent_send_otp.
    repeat case_match; intros [= <-];
      rewrite update_state_keeps in Hon by kept;
      rewrite add_message_keeps in Hon by kept; congruence. }
  destruct (address_block msg (code_block msg s)) as [s2|e] eqn:Haddr;
    simpl; [|discriminate].
  intros [= <-].
  assert (Hx : kyc_verified (kyc_block msg s2) = kyc_verified s).
  { apply (checks_blind kyc_verified msg s s2); [|assumption].
    intros T k v Hk r. destruct k; try discriminate Hk; reflexivity. }
  revert Hon Hx. generalize (kyc_block msg s2). intros x.
  unfold identity_block.
  destruct (negb (kyc_verified x)
            && (truthy_str (kyc_pan x) && truthy_str (kyc_dob x)
                && truthy_str (kyc_email x))) eqn:Hcond.
  - intros _ _.
    apply andb_true_iff in Hcond as [_ Hcond].
    apply andb_true_iff in Hcond as [Hcond He].
    apply andb_true_iff in Hcond as [Hp Hd].
    repeat split; assumption.
  - intros Hon Hx. rewrite update_state_keeps in Hon by kept. congruence.
Qed.

(** ** The attempt counter *)

Lemma code_block_attempts text s :
  attempts_in_range s -> attempts_in_range (code_block text s).
Proof.
  unfold attempts_in_range, code_block, verification_reply. intros Hs.
  repeat case_match;
    match goal with
    | |- 0 <= otp_attempts ?x < 3 =>
        first
          [ replace (otp_attempts x) with 0 by reflexivity; lia
          | replace (otp_attempts x) with (otp_attempts s) by reflexivity;
            exact Hs
          | replace (otp_attempts x) with (otp_attempts s + 1) by reflexivity;
            match goal with
            | H : (3 <=? otp_attempts s + 1) = false |- _ =>
                apply Z.leb_gt in H; lia
            end ]
    end.
Qed.

Lemma node_attempts n t t' :
  run_node n t = Done t' -> attempts_in_range t -> attempts_in_range t'.
Proof.
  intros Hrun Ht.
  assert (Hother : n <> verification_agent -> otp_attempts t' = otp_attempts t).
  { intros Hn. apply (run_node_blind otp_attempts n t t' Hrun).
    intros T k v Hk r.
    destruct n; try congruence; destruct k; try discriminate Hk; reflexivity. }
  unfold attempts_in_range in *.
  destruct n; try (rewrite Hother by discriminate; exact Ht).
  clear Hother. simpl in Hrun.
  destruct (verification_cases t t' Hrun)
    as [[_ ->]|[[_ Hsend]|(_ & _ & Hflow & _)]].
  - pose proof (start_block_flow t) as Hf. unfold flow_view in Hf.
    injection Hf as _ _ _ Ha _ _. rewrite Ha. exact Ht.
  - revert Hsend. unfold send_block, verification_reply, agent_send_otp.
    repeat case_match; intros [= <-];
      match goal with
      | |- 0 <= otp_attempts ?x < 3 =>
          replace (otp_attempts x) with 0 by reflexivity; lia
      end.
  - unfold flow_view in Hflow. injection Hflow as _ _ _ Ha _ _.
    rewrite Ha. apply code_block_attempts. exact Ht.
Qed.

(** X15.  The attempt counter stays within bounds: on every record
    that results from creating a session and completing calls of
    [process_message], the number of wrong codes counted is at least 0 and
    below 3. *)
Theorem attempts_stay_below_three sid sessions n s :
  calls_completed sid sessions n ->
  sessions !! sid = Some s ->
  attempts_in_range s.
Proof.
  intros Hcalls. revert s.
  induction Hcalls
    as [sessions cid
       |sessions n text sessions' rep Hprev IH Hcall
       |sessions n sid' text sessions' rep Hne Hprev IH Hcall];
    intros s Hs.
  - unfold create_session in Hs. cbn [fst session_id create_initial_state] in Hs.
    rewrite lookup_insert_eq in Hs. injection Hs as <-.
    unfold attempts_in_range. cbn. lia.
  - destruct (sessions !! sid) as [st|] eqn:Hst.
    + apply (call_invariant attempts_in_range)
        with (3 := Hst) (4 := Hcall) (5 := Hs).
      * exact node_attempts.
      * intros t txt Ht. exact Ht.
      * apply IH. reflexivity.
    + unfold process_message in Hcall. rewrite Hst in Hcall.
      injection Hcall as <- _. congruence.
  - apply IH. rewrite <- Hs. symmetry.
    eapply process_message_elsewhere; eassumption.
Qed.

(** ** The application status *)

(** X16.  The application status is written by the underwriting node
    alone, together with its decision: an execution of any node leaves
    [application_status] as it was, unless the node is the underwriting
    node and the new status is approved or rejected and equals the
    underwriting decision on the record it returns. *)
Theorem status_changes_only_with_the_decision n s s' :
  run_node n s = Done s' ->
  application_status s' = application_status s
  \/ (n = underwriting_agent
      /\ underwriting_decision s' = Some (application_status s')
      /\ (application_status s' = "approved"
          \/ application_status s' = "rejected")).
Proof.
  intros Hrun.
  assert (Hother : n <> underwriting_agent ->
                   application_status s' = application_status s).
  { intros Hn. apply (run_node_blind application_status n s s' Hrun).
    intros T k v Hk r.
    destruct n; try congruence; destruct k; try discriminate Hk; reflexivity. }
  destruct n; try (left; apply Hother; discriminate).
  clear Hother. simpl in Hrun. injection Hrun as <-.
  unfold underwriting_agent_node.
  destruct (process_underwriting s)
    as [message score risk decision approved conditions eligibility recs
       |error]; [|left; reflexivity].
  cbv zeta.
  destruct (String.eqb_spec decision "approved") as [->|Hna].
  { right. split; [reflexivity|]. split; [reflexivity|]. left. reflexivity. }
  destruct (String.eqb_spec decision "rejected") as [->|Hnr].
  { right. split; [reflexivity|]. split; [reflexivity|]. right. reflexivity. }
  left. reflexivity.
Qed.

(** ** The amount typed during the needs assessment *)

Lemma last_user_content_snoc h x :
  last_user_content (h ++ [x])
  = match role x with
    | user => Some (content x)
    | _ => last_user_content h
    end.
Proof.
  induction h as [|y h IH]; simpl.
  - destruct (role x); reflexivity.
  - rewrite IH. destruct (role x); reflexivity.
Qed.

Lemma last_user_content_last h m :
  last h = Some m -> role m = user -> last_user_content h = Some (content m).
Proof.
  intros Hlast Hrole.
  destruct h as [|y h _] using rev_ind; [discriminate|].
  rewrite last_snoc in Hlast. injection Hlast as ->.
  rewrite last_user_content_snoc, Hrole. reflexivity.
Qed.

Lemma decision_needs_assessment msg s :
  MasterAgent._determine_next_action "needs_assessment" msg s
  = if truthy_num (requested_amount s)
    then ((Some "delegate_to_sales", "sales_negotiation"), s)
    else if matches MasterAgent.amount_match (lower msg)
    then ((Some "delegate_to_sales", "sales_negotiation"), s)
    else ((None, "needs_assessment"), s).
Proof. reflexivity. Qed.

(** X17.  An amount typed during the needs assessment is recognised but
    not kept: with the cursor on needs_assessment, no amount and no offers
    on the record, a text in which the amount pattern matches makes the
    orchestrator delegate to sales without writing [requested_amount], and
    the sales node, finding no amount, asks the customer to confirm the
    amount.  The cycle is orchestrator, sales, orchestrator. *)
Theorem amount_of_needs_assessment_is_not_kept fuel s m :
  last (conversation_history s) = Some m -> role m = user ->
  current_stage s = "needs_assessment" ->
  truthy_num (requested_amount s) = false ->
  recommended_offers s = [] ->
  matches MasterAgent.amount_match (lower (content m)) = true ->
  exists s',
    run (3 + fuel) master_agent s
    = Done ([master_agent; sales_agent; master_agent], s')
    /\ requested_amount s' = requested_amount s
    /\ current_stage s' = "sales_negotiation"
    /\ last (conversation_history s')
       = Some (mkMessage assistant
                 "Could you please confirm the loan amount you need (e.g., 3 lakh, 500000, 50k)?"
                 (Some "sales")).
Proof.
  intros Hlast Hrole Hstage Hamt Hoffers Hmatch.
  destruct (master_decides s m Hlast Hrole) as (Hna & Hst & Hreq & _).
  rewrite Hstage, decision_needs_assessment, Hamt, Hmatch in Hna, Hst, Hreq.
  cbn [fst snd] in Hna, Hst, Hreq.
  pose proof (master_first_reply s m Hlast Hrole) as Hlog.
  assert (Hoff1 : recommended_offers (master_agent_node s) = []).
  { rewrite <- Hoffers.
    apply (run_node_blind recommended_offers master_agent s); [reflexivity|].
    intros T k v Hk r. destruct k; try discriminate Hk; reflexivity. }
  revert Hna Hst Hreq Hlog Hoff1.
  generalize (cleared_delegation_run fuel s m sales_agent
                (sales_agent_node (master_agent_node s)) Hlast Hrole).
  generalize (master_agent_node s). intros s1 Hrun Hna Hst Hreq Hlog Hoff1.
  assert (Hsales : sales_agent_node s1
            = sales_reply s1
                "Could you please confirm the loan amount you need (e.g., 3 lakh, 500000, 50k)?"
                [ K.active_agent ::= "master"; K.next_action ::= None ]).
  { unfold sales_agent_node. cbv zeta. rewrite Hoff1, Hreq, Hamt.
    generalize (default EmptyString
                  (lower <$> last_user_content (conversation_history s1))).
    intros text.
    assert (Hsel : (if nonempty text then selected_of text [] else None)
                   = None) by (destruct (nonempty text); reflexivity).
    rewrite Hsel. rewrite andb_false_r. reflexivity. }
  exists (sales_agent_node s1). split.
  - apply Hrun; [rewrite Hna; reflexivity|reflexivity|].
    rewrite Hsales. reflexivity.
  - rewrite Hsales. unfold sales_reply.
    split; [rewrite update_state_keeps by kept;
            rewrite add_message_keeps by kept; exact Hreq|].
    split; [rewrite update_state_keeps by kept;
            rewrite add_message_keeps by kept; exact Hst|].
    destruct (update_state_off_log
                [K.active_agent ::= "master"; K.next_action ::= None]
                (add_message s1 assistant
                   "Could you please confirm the loan amount you need (e.g., 3 lakh, 500000, 50k)?"
                   (Some "sales"))) as [-> _]; [solve_off_log|].
    apply last_snoc.
Qed.

(** ** The first reply of a call *)

(** X18.  The greeting is never sent through the session manager: a new
    session has an empty log, so the chat page has no greeting to show,
    and in every call of [process_message] that returns, the entry that
    follows the inbound text is the text generator's answer to that text,
    signed by the orchestrator. *)
Theorem greeting_is_never_sent sessions sid :
  (forall cid,
     let sessions' := fst (create_session sessions cid sid) in
     (conversation_history <$> sessions' !! sid) = Some []
     /\ Ui.initial_messages sessions' sid = [])
  /\ (forall text st sessions' rep,
        sessions !! sid = Some st ->
        process_message sessions sid text = Done (sessions', rep) ->
        exists result rest,
          sessions' !! sid = Some result
          /\ conversation_history result
             = conversation_history st
               ++ [ mkMessage user text None;
                    mkMessage assistant
                      (llm_response (add_message st user text None) text)
                      (Some "master") ]
               ++ rest).
Proof.
  split.
  - intros cid. cbv zeta. unfold Ui.initial_messages, create_session.
    cbn [fst session_id create_initial_state].
    rewrite lookup_insert_eq. split; reflexivity.
  - intros text st sessions' rep Hst Hcall.
    destruct (call_shape _ _ _ _ _ _ Hst Hcall)
      as (result & rest & final & -> & Hh & _).
    exists result, rest. rewrite lookup_insert_eq.
    split; [reflexivity|exact Hh].
Qed.

(** ** The conversation context *)

Lemma render_empty shown :
  render shown = "No previous conversation" <-> shown = [].
Proof.
  split; [|intros ->; reflexivity].
  destruct shown as [|x l]; [reflexivity|].
  intros H. exfalso.
  destruct x as [r c a]; destruct r; destruct l as [|y l];
    cbv in H; discriminate H.
Qed.

(** X19.  [get_conversation_context] renders a window at the end of the
    log: for a positive [last_n] the last [last_n] entries (all of them
    when the log is shorter), for [last_n = 0] the whole log and not an
    empty window, for a negative [last_n] the log without its first
    [-last_n] entries; the text is the fallback line exactly when the
    window is empty. *)
Theorem context_is_a_window_at_the_end_of_the_log s n :
  exists shown,
    shown `suffix_of` conversation_history s
    /\ length shown = window_length n (length (conversation_history s))
    /\ get_conversation_context s n = render shown
    /\ (get_conversation_context s n = "No previous conversation"
        <-> shown = []).
Proof.
  set (h := conversation_history s).
  assert (Hget : forall shown,
             (if negb (n =? 0) then slice_from (- n) h else h) = shown ->
             get_conversation_context s n = render shown).
  { intros shown <-. unfold get_conversation_context, render. fold h.
    cbv zeta. destruct (if negb (n =? 0) then _ else _); reflexivity. }
  assert (Hwin : exists shown,
             (if negb (n =? 0) then slice_from (- n) h else h) = shown
             /\ shown `suffix_of` h
             /\ length shown = window_length n (length h)).
  { unfold window_length, slice_from.
    destruct (Z.eqb_spec n 0) as [->|Hn0]; cbn [negb].
    - exists h. split; [reflexivity|]. split; [reflexivity|]. reflexivity.
    - destruct (Z.ltb_spec 0 n) as [Hpos|Hneg].
      + destruct (Z.ltb_spec (- n) 0) as [_|Hc]; [|lia].
        eexists. split; [reflexivity|]. split; [apply suffix_drop|].
        rewrite length_drop. lia.
      + destruct (Z.ltb_spec (- n) 0) as [Hc|_]; [lia|].
        eexists. split; [reflexivity|]. split; [apply suffix_drop|].
        rewrite length_drop. reflexivity. }
  destruct Hwin as (shown & Heq & Hsuf & Hlen).
  exists shown. split; [assumption|]. split; [assumption|].
  rewrite (Hget shown Heq). split; [reflexivity|apply render_empty].
Qed.

(** ** The code store of the verification agent *)

Lemma verify_right (store : gmap string OtpEntry) cid e :
  store !! cid = Some e ->
  VerificationAgent.verify_otp_input store cid (entry_otp e)
  = (delete cid store, OtpVerified).
Proof.
  intros He. unfold VerificationAgent.verify_otp_input. rewrite He.
  cbn [entry_otp]. rewrite String.eqb_refl, delete_insert_eq. reflexivity.
Qed.

Lemma verify_wrong (store : gmap string OtpEntry) cid e w :
  store !! cid = Some e -> w <> entry_otp e ->
  VerificationAgent.verify_otp_input store cid w
  = if 3 <=? entry_attempts e + 1
    then (delete cid store, MaxAttemptsReached)
    else (<[cid := mkOtpEntry (entry_otp e) (entry_phone e)
                              (entry_attempts e + 1)]> store,
          IncorrectOtp (3 - (entry_attempts e + 1))).
Proof.
  intros He Hw. apply String.eqb_neq in Hw.
  unfold VerificationAgent.verify_otp_input. rewrite He.
  cbn [entry_otp entry_attempts]. rewrite Hw.
  destruct (3 <=? entry_attempts e + 1); [|reflexivity].
  rewrite delete_insert_eq. reflexivity.
Qed.

(** X20.  The agent's code store over one code: the code just issued is
    accepted and removes the entry; a first and a second wrong code are
    answered with two and one attempts remaining and keep the entry; at
    the third attempt a wrong code removes the entry (the right one is
    still accepted); after that even the issued code finds no entry, until
    a new code is sent.  Entries of other customers are not touched. *)
Theorem code_store_locks_after_three_wrong_codes store cid phone w1 w2 w3 :
  let issued := simulate_otp_generation phone in
  let fresh := fst (VerificationAgent.send_otp store cid phone) in
  w1 <> issued -> w2 <> issued -> w3 <> issued ->
  VerificationAgent.verify_otp_input fresh cid issued
  = (delete cid store, OtpVerified)
  /\ exists after1 after2,
       VerificationAgent.verify_otp_input fresh cid w1
       = (after1, IncorrectOtp 2)
       /\ VerificationAgent.verify_otp_input after1 cid w2
          = (after2, IncorrectOtp 1)
       /\ VerificationAgent.verify_otp_input after2 cid w3
          = (delete cid store, MaxAttemptsReached)
       /\ VerificationAgent.verify_otp_input after2 cid issued
          = (delete cid store, OtpVerified)
       /\ VerificationAgent.verify_otp_input (delete cid store) cid issued
          = (delete cid store, NoOtpFound)
       /\ (forall other, other <> cid -> after2 !! other = store !! other).
Proof.
  intros issued fresh H1 H2 H3. subst fresh.
  unfold VerificationAgent.send_otp. fold issued. cbn [fst].
  set (e0 := mkOtpEntry issued phone 0).
  set (e1 := mkOtpEntry issued phone 1).
  set (e2 := mkOtpEntry issued phone 2).
  split.
  { rewrite (verify_right (<[cid:=e0]> store) cid e0)
      by apply lookup_insert_eq.
    rewrite delete_insert_eq. reflexivity. }
  exists (<[cid:=e1]> store), (<[cid:=e2]> store).
  split.
  { rewrite (verify_wrong (<[cid:=e0]> store) cid e0 w1)
      by (first [apply lookup_insert_eq | exact H1]).
    cbn. rewrite insert_insert_eq. reflexivity. }
  split.
  { rewrite (verify_wrong (<[cid:=e1]> store) cid e1 w2)
      by (first [apply lookup_insert_eq | exact H2]).
    cbn. rewrite insert_insert_eq. reflexivity. }
  split.
  { rewrite (verify_wrong (<[cid:=e2]> store) cid e2 w3)
      by (first [apply lookup_insert_eq | exact H3]).
    cbn. rewrite delete_insert_eq. reflexivity. }
  split.
  { rewrite (verify_right (<[cid:=e2]> store) cid e2)
      by apply lookup_insert_eq.
    rewrite delete_insert_eq. reflexivity. }
  split.
  { unfold VerificationAgent.verify_otp_input.
    rewrite lookup_delete_eq. reflexivity. }
  intros other Hne. apply lookup_insert_ne. congruence.
Qed.

(** X21.  The code check of the verification node agrees with the
    agent's [verify_otp_input]: when the record and the store describe
    the same outstanding code and the code was not issued by Twilio, the
    check on a text that carries a code leaves the record and the store in
    agreement again, and the phone flag is set exactly when the store
    check verifies the code. *)
Theorem record_check_agrees_with_the_store store cid s text e :
  mirrors store cid s ->
  is_str (otp_provider s) "twilio" = false ->
  carries_code text = true ->
  entered_code text = Some e ->
  let checked := VerificationAgent.verify_otp_input store cid e in
  mirrors (fst checked) cid (code_block text s)
  /\ phone_verified (code_block text s)
     = phone_verified s || verdict_verified (snd checked).
Proof.
  unfold mirrors, carries_code, code_block, verification_reply,
    VerificationAgent.verify_otp_input.
  intros Hm Htw -> He. fold (entered_code text). rewrite He, Htw.
  cbv zeta. rewrite !andb_false_r. cbn [andb].
  destruct (store !! cid) as [entry|] eqn:Hentry.
  - destruct Hm as (Hsent & Hcode & Htruthy & Hatt).
    rewrite Hsent, Htruthy, Hcode, Hatt. cbn [andb entry_otp entry_attempts].
    destruct (String.eqb_spec e (entry_otp entry)) as [->|Hne].
    + rewrite bool_decide_eq_true_2 by reflexivity. cbn [fst snd].
      rewrite lookup_delete_eq. cbn [verdict_verified].
      rewrite orb_true_r. repeat split; reflexivity.
    + rewrite bool_decide_eq_false_2 by congruence.
      destruct (3 <=? entry_attempts entry + 1); cbn [fst snd].
      * rewrite lookup_delete_eq. cbn [verdict_verified].
        rewrite orb_false_r. repeat split; reflexivity.
      * rewrite lookup_insert_eq. cbn [verdict_verified entry_otp entry_attempts].
        rewrite orb_false_r.
        split; [|reflexivity].
        split; [exact Hsent|]. split; [exact Hcode|].
        split; [exact Htruthy|].
        reflexivity.
  - destruct Hm as (Hsent & Hcode). rewrite Hsent. cbn [andb fst snd].
    rewrite Hentry. cbn [verdict_verified]. rewrite orb_false_r.
    split; [split; [exact Hsent|exact Hcode]|reflexivity].
Qed.

(** ** The provider selection *)

(** X22.  The provider [get_llm] returns is the mock model or one of the
    providers [get_available_providers] lists; it is the mock model
    exactly when no provider with a usable key can be initialised; and
    when every package can be initialised, it is the provider the banner
    of the chat page names. *)
Theorem selected_provider_is_listed env initialises :
  let chosen := LlmConfig.get_llm env initialises in
  (chosen = LlmConfig.Mock
   \/ LlmConfig.provider_name chosen ∈ LlmConfig.get_available_providers env)
  /\ (chosen = LlmConfig.Mock
      <-> (LlmConfig.google_usable env && initialises LlmConfig.GoogleGemini)
          || (LlmConfig.openai_usable env && initialises LlmConfig.OpenAI)
          || (LlmConfig.anthropic_usable env && initialises LlmConfig.Anthropic)
          = false)
  /\ ((forall p, initialises p = true) ->
      LlmConfig.banner env = LlmConfig.provider_name chosen).
Proof.
  unfold LlmConfig.get_llm, LlmConfig.banner,
    LlmConfig.get_available_providers.
  cbv zeta.
  destruct (LlmConfig.google_usable env), (LlmConfig.openai_usable env),
    (LlmConfig.anthropic_usable env);
    destruct (initialises LlmConfig.GoogleGemini) eqn:Hg,
      (initialises LlmConfig.OpenAI) eqn:Ho,
      (initialises LlmConfig.Anthropic) eqn:Ha;
    cbn [andb orb app head default LlmConfig.provider_name];
    (split; [first [left; reflexivity
                   | right; rewrite !elem_of_cons; auto 6]|]);
    (split; [split; intros; solve [reflexivity|discriminate]|]);
    intros Hall;
    try reflexivity;
    first [ rewrite Hall in Hg; discriminate
          | rewrite Hall in Ho; discriminate
          | rewrite Hall in Ha; discriminate ].
Qed.

(** ** The selection of an offer *)

Lemma closest_tenure_spec months offers :
  match closest_tenure months offers with
  | None => offers = []
  | Some o =>
      o ∈ offers
      /\ forall o', o' ∈ offers ->
           Z.abs (offer_tenure_months o - months)
           <= Z.abs (offer_tenure_months o' - months)
  end.
Proof.
  induction offers as [|x offers IH]; [reflexivity|].
  cbn [closest_tenure].
  destruct (closest_tenure months offers) as [best|].
  - destruct IH as [Hin Hmin].
    destruct (Z.leb_spec (Z.abs (offer_tenure_months x - months))
                         (Z.abs (offer_tenure_months best - months))).
    + split; [apply list_elem_of_here|].
      intros o' [->|Ho']%elem_of_cons; [lia|].
      specialize (Hmin o' Ho'). lia.
    + split; [apply list_elem_of_further; assumption|].
      intros o' [->|Ho']%elem_of_cons; [lia|]. auto.
  - subst offers. split; [apply list_elem_of_here|].
    intros o' [->|Ho']%elem_of_cons; [lia|].
    apply elem_of_nil in Ho'. destruct Ho'.
Qed.

Lemma selected_of_listed msg offers o :
  selected_of msg offers = Some o -> o ∈ offers.
Proof.
  unfold selected_of. destruct offers as [|x offers]; [discriminate|].
  destruct (search option_number msg) as [m|].
  - cbv zeta. apply list_elem_of_lookup_2.
  - destruct (search MasterAgent.tenure_phrase msg) as [m|]; [|discriminate].
    cbv zeta. intros Hsel.
    match type of Hsel with
    | closest_tenure ?months ?l = _ =>
        pose proof (closest_tenure_spec months l) as Hspec
    end.
    rewrite Hsel in Hspec. apply Hspec.
Qed.

(** X23.  The sales node selects offers from the record's list only: the
    offer a tenure phrase selects is one on the list whose tenure is
    closest to the months asked for; an option number always selects an
    offer when the list is not empty, whatever the number; and whenever
    the node changes [selected_offer], the new offer is on the list of
    recommended offers and the tenure, rate and instalment on the record
    are that offer's. *)
Theorem sales_selects_from_the_recommended_offers :
  (forall months offers o,
     closest_tenure months offers = Some o ->
     o ∈ offers
     /\ forall o', o' ∈ offers ->
          Z.abs (offer_tenure_months o - months)
          <= Z.abs (offer_tenure_months o' - months))
  /\ (forall msg offers,
        offers <> [] -> is_Some (search option_number msg) ->
        exists o, selected_of msg offers = Some o /\ o ∈ offers)
  /\ (forall s,
        let s' := sales_agent_node s in
        selected_offer s' = selected_offer s
        \/ exists o,
             o ∈ recommended_offers s
             /\ selected_offer s' = Some o
             /\ tenure_months s' = Some (offer_tenure_months o)
             /\ interest_rate s' = Some (offer_interest_rate o)
             /\ monthly_emi s' = Some (offer_monthly_emi o)
             /\ recommended_offers s' = recommended_offers s).
Proof.
  split; [|split].
  - intros months offers o Hsel.
    pose proof (closest_tenure_spec months offers) as Hspec.
    rewrite Hsel in Hspec. exact Hspec.
  - intros msg offers Hne [m Hm].
    assert (Hsome : is_Some (selected_of msg offers)).
    { unfold selected_of. destruct offers as [|x offers]; [congruence|].
      rewrite Hm. cbv zeta. apply lookup_lt_is_Some.
      cbn [length]. lia. }
    destruct Hsome as [o Ho]. exists o. split; [exact Ho|].
    eapply selected_of_listed; eassumption.
  - intros s. cbv zeta. unfold sales_agent_node. cbv zeta.
    destruct (if nonempty _ then selected_of _ (recommended_offers s) else None)
      as [o|] eqn:Hsel.
    + right. exists o. split.
      * destruct (nonempty _); [|discriminate].
        eapply selected_of_listed; eassumption.
      * unfold sales_reply. repeat split; reflexivity.
    + left. unfold sales_reply.
      repeat case_match;
        repeat first [ reflexivity
                     | rewrite update_state_keeps by kept
                     | rewrite add_message_keeps by kept ].
Qed.

(** ** The chat page *)

Lemma assign_in_session_spec {T} (k : K.key T) (v : T) sessions sid st :
  sessions !! sid = Some st ->
  Ui.assign_in_session k v sessions sid
  = Some (<[sid := set_key k v st]> sessions).
Proof. intros H. unfold Ui.assign_in_session. rewrite H. reflexivity. Qed.

(** What a chat turn that is shown did: the record the workflow received,
    the call, and the page. *)
Lemma chat_turn_cases page sessions sid text page' sessions' st :
  sessions !! sid = Some st ->
  Ui.chat_turn page sessions sid text = Ui.Shown (page', sessions') ->
  let typed := Ui.extract_customer_id text in
  let takes_id := negb (truthy_str (Ui.page_customer_id page))
                  && truthy_str typed in
  let amount := Ui.extract_amount text in
  exists sessions2 st2 response result,
    sessions2 !! sid = Some st2
    /\ customer_id st2 = (if takes_id then typed else customer_id st)
    /\ requested_amount st2
       = (if truthy_num amount then amount else requested_amount st)
    /\ process_message sessions2 sid text
       = Done (sessions', Response response result)
    /\ Ui.page_customer_id page'
       = (if takes_id then typed else Ui.page_customer_id page)
    /\ Ui.page_messages page'
       = Ui.page_messages page
         ++ [ mkMessage user text None;
              mkMessage assistant response
                match sessions' !! sid
                      ≫= (fun after =>
                            last (List.filter
                                    (fun m => Role_eqb (role m) assistant)
                                    (conversation_history after))) with
                | Some m => agent m
                | None => Some "master"
                end ]
    /\ Ui.page_stage page' = current_stage result
    /\ Ui.page_status page' = application_status result.
Proof.
  intros Hst. unfold Ui.chat_turn. cbv zeta.
  unfold Ui.store_customer_id.
  cbn [Ui.page_customer_id Ui.page_messages Ui.page_stage Ui.page_status].
  set (typed := Ui.extract_customer_id text).
  set (takes_id := negb (truthy_str (Ui.page_customer_id page))
                   && truthy_str typed).
  assert (Hid : exists st1 sessions1,
            sessions1 !! sid = Some st1
            /\ customer_id st1 = (if takes_id then typed else customer_id st)
            /\ requested_amount st1 = requested_amount st
            /\ (if negb (truthy_str (Ui.page_customer_id page))
                then
                  if truthy_str typed
                  then
                    (fun sessions =>
                       (Ui.mkPage
                          (Ui.page_messages page ++ [mkMessage user text None])
                          (Ui.page_stage page) typed (Ui.page_status page),
                        sessions))
                      <$> Ui.assign_in_session K.customer_id typed sessions sid
                  else
                    Some (Ui.mkPage
                            (Ui.page_messages page
                             ++ [mkMessage user text None])
                            (Ui.page_stage page) (Ui.page_customer_id page)
                            (Ui.page_status page), sessions)
                else
                  Some (Ui.mkPage
                          (Ui.page_messages page ++ [mkMessage user text None])
                          (Ui.page_stage page) (Ui.page_customer_id page)
                          (Ui.page_status page), sessions))
               = Some (Ui.mkPage
                         (Ui.page_messages page ++ [mkMessage user text None])
                         (Ui.page_stage page)
                         (if takes_id then typed else Ui.page_customer_id page)
                         (Ui.page_status page), sessions1)).
  { subst takes_id.
    destruct (truthy_str (Ui.page_customer_id page)); cbn [negb andb];
      [exists st, sessions; auto|].
    destruct (truthy_str typed); [|exists st, sessions; auto].
    rewrite (assign_in_session_spec _ _ _ _ st Hst).
    exists (set_key K.customer_id typed st),
           (<[sid := set_key K.customer_id typed st]> sessions).
    rewrite lookup_insert_eq. repeat split; reflexivity. }
  destruct Hid as (st1 & sessions1 & Hst1 & Hcid & Hreq & ->).
  unfold Ui.store_amount. cbv zeta.
  set (amount := Ui.extract_amount text).
  assert (Hamt : exists st2 sessions2,
            sessions2 !! sid = Some st2
            /\ customer_id st2 = customer_id st1
            /\ requested_amount st2
               = (if truthy_num amount then amount else requested_amount st1)
            /\ (if truthy_num amount
                then
                  Ui.assign_in_session K.requested_amount amount sessions1 sid
                  ≫= (fun sessions0 =>
                        sessions0 !! sid
                        ≫= (fun state =>
                              if negb (truthy_str (customer_needs state))
                              then Ui.assign_in_session K.customer_needs
                                     (Some text) sessions0 sid
                              else Some sessions0))
                else Some sessions1)
               = Some sessions2).
  { destruct (truthy_num amount); [|exists st1, sessions1; auto].
    rewrite (assign_in_session_spec _ _ _ _ st1 Hst1). cbn [mbind option_bind].
    rewrite lookup_insert_eq. cbn [mbind option_bind].
    destruct (negb (truthy_str
                      (customer_needs (set_key K.requested_amount amount st1)))).
    - rewrite (assign_in_session_spec _ _ _ _ _ (lookup_insert_eq _ _ _)).
      exists (set_key K.customer_needs (Some text)
                (set_key K.requested_amount amount st1)),
             (<[sid := set_key K.customer_needs (Some text)
                         (set_key K.requested_amount amount st1)]>
                (<[sid := set_key K.requested_amount amount st1]> sessions1)).
      rewrite lookup_insert_eq. repeat split; reflexivity.
    - exists (set_key K.requested_amount amount st1),
             (<[sid := set_key K.requested_amount amount st1]> sessions1).
      rewrite lookup_insert_eq. repeat split; reflexivity. }
  destruct Hamt as (st2 & sessions2 & Hst2 & Hcid2 & Hreq2 & Heq).
  unfold mbind in Heq |- *. rewrite Heq.
  destruct (process_message sessions2 sid text) as [[table rep]|e] eqn:Hcall;
    [|discriminate].
  destruct rep as [|response result].
  { unfold process_message in Hcall. rewrite Hst2 in Hcall.
    destruct (invoke _) as [[tr r]|e]; discriminate. }
  destruct (table !! sid) as [after|] eqn:Hafter; [|discriminate].
  intros [= <- <-].
  exists sessions2, st2, response, result.
  cbn [Ui.page_customer_id Ui.page_messages Ui.page_stage Ui.page_status].
  rewrite Hafter. cbn [mbind option_bind].
  split; [assumption|]. split; [rewrite Hcid2; exact Hcid|].
  split; [rewrite Hreq2, Hreq; reflexivity|].
  split; [exact Hcall|]. split; [reflexivity|].
  split; [rewrite <- app_assoc; reflexivity|]. split; reflexivity.
Qed.




(** X25.  The customer id typed in the chat is taken while the page has
    none, and only then: in a chat turn that is shown, if the page holds
    no customer id and the text contains one, the record and the page hold
    that id afterwards (whatever id the record held); otherwise the
    record's and the page's customer id are what they were. *)
Theorem typed_customer_id_is_taken_once
    page sessions sid text page' sessions' st :
  sessions !! sid = Some st ->
  Ui.chat_turn page sessions sid text = Ui.Shown (page', sessions') ->
  exists result,
    sessions' !! sid = Some result
    /\ if negb (truthy_str (Ui.page_customer_id page))
          && truthy_str (Ui.extract_customer_id text)
       then customer_id result = Ui.extract_customer_id text
            /\ Ui.page_customer_id page' = Ui.extract_customer_id text
       else customer_id result = customer_id st
            /\ Ui.page_customer_id page' = Ui.page_customer_id page.
Proof.
  intros Hst Hturn.
  destruct (chat_turn_cases _ _ _ _ _ _ _ Hst Hturn)
    as (sessions2 & st2 & response & result & Hst2 & Hcid & _ & Hcall
        & Hpage & _).
  destruct (process_message_run _ _ _ _ _ _ Hst2 Hcall)
    as (trace & result' & Hrun & -> & [= _ ->]).
  exists result'. rewrite lookup_insert_eq. split; [reflexivity|].
  assert (Hkeep : customer_id result' = customer_id st2).
  { apply (call_invariant (fun t => customer_id t = customer_id st2))
      with (3 := Hst2) (4 := Hcall).
    - intros n t t' Hnode Ht. rewrite <- Ht.
      apply (run_node_blind customer_id n t t' Hnode).
      intros T k v Hk r. destruct n; destruct k; try discriminate Hk;
        reflexivity.
    - intros t txt Ht. unfold add_message.
      rewrite update_state_keeps by kept. exact Ht.
    - apply lookup_insert_eq.
    - reflexivity. }
  rewrite Hkeep, Hcid, Hpage.
  destruct (negb (truthy_str (Ui.page_customer_id page))
            && truthy_str (Ui.extract_customer_id text)); auto.
Qed.

Lemma last_filter_last (h : list ConversationMessage) final :
  last h = Some final -> role final = assistant ->
  last (List.filter (fun m => Role_eqb (role m) assistant) h) = Some final.
Proof.
  intros Hlast Hrole.
  destruct h as [|x h _] using rev_ind; [discriminate|].
  rewrite last_snoc in Hlast. injection Hlast as ->.
  rewrite List.filter_app. cbn [List.filter]. rewrite Hrole. cbn [Role_eqb].
  apply last_snoc.
Qed.

(** X26.  The page shows one reply per turn, the last one: a chat turn
    that is shown appends exactly two messages to the page, the text
    typed and the content and agent of the last entry of the stored log
    (so when the orchestrator and a specialist both reply, the page shows
    the specialist's reply only), and sets the page's stage and status to
    those of the stored record. *)
Theorem page_shows_the_last_reply
    page sessions sid text page' sessions' st :
  sessions !! sid = Some st ->
  Ui.chat_turn page sessions sid text = Ui.Shown (page', sessions') ->
  exists result final,
    sessions' !! sid = Some result
    /\ last (conversation_history result) = Some final
    /\ Ui.page_messages page'
       = Ui.page_messages page
         ++ [ mkMessage user text None;
              mkMessage assistant (content final) (agent final) ]
    /\ Ui.page_stage page' = current_stage result
    /\ Ui.page_status page' = application_status result.
Proof.
  intros Hst Hturn.
  destruct (chat_turn_cases _ _ _ _ _ _ _ Hst Hturn)
    as (sessions2 & st2 & response & result & Hst2 & _ & _ & Hcall
        & _ & Hmsgs & Hstage & Hstatus).
  destruct (call_shape _ _ _ _ _ _ Hst2 Hcall)
    as (result' & rest & final & -> & Hh & Hall & Hfinal & [= -> ->]).
  assert (Hrole : role final = assistant).
  { assert (Hin : Forall (fun m => role m = assistant)
                    (mkMessage assistant
                       (llm_response (add_message st2 user text None) text)
                       (Some "master") :: rest))
      by (constructor; [reflexivity|assumption]).
    rewrite Forall_forall in Hin. apply Hin.
    apply last_Some_elem_of. exact Hfinal. }
  assert (Hlast : last (conversation_history result') = Some final).
  { rewrite Hh.
    change (conversation_history st2 ++ mkMessage user text None :: ?l)
      with (conversation_history st2 ++ [mkMessage user text None] ++ l).
    rewrite app_assoc, last_app, Hfinal. reflexivity. }
  exists result', final. rewrite lookup_insert_eq in Hmsgs |- *.
  cbn [mbind option_bind] in Hmsgs.
  rewrite (last_filter_last _ _ Hlast Hrole) in Hmsgs.
  repeat split; assumption.
Qed.

(** ** Specialists that fail, and the approved path *)

(** A specialist that returns without clearing the pending action and
    without changing the log is called again and again. *)
Lemma stuck_specialist fuel : forall t x,
  last_is_assistant t ->
  delegate_of (next_action t) = Some x ->
  (forall t', exists t'',
     run_node x t' = Done t''
     /\ next_action t'' = next_action t'
     /\ conversation_history t'' = conversation_history t') ->
  run fuel master_agent t = Raised GraphRecursionError.
Proof.
  induction fuel as [fuel IH] using lt_wf_ind.
  intros t x (f & Hf & Hfr) Hdel Hstuck.
  destruct fuel as [|fuel]; [reflexivity|].
  rewrite run_S. simpl run_node. cbv beta iota.
  rewrite (master_idle t f Hf) by (rewrite Hfr; discriminate).
  rewrite (delegate_of_successor t x Hdel).
  destruct fuel as [|fuel]; [reflexivity|].
  rewrite run_S.
  destruct (Hstuck t) as (t2 & Hnode & Hna & Hh). rewrite Hnode.
  pose proof (delegate_of_specialist _ _ Hdel) as Hspec.
  assert (Hsucc : successor x t2 = Some master_agent)
    by (destruct x; try reflexivity; congruence).
  rewrite Hsucc.
  rewrite (IH fuel ltac:(lia) t2 x); [reflexivity| | |assumption].
  - exists f. rewrite Hh. auto.
  - rewrite Hna. assumption.
Qed.

(** X27.  A failing underwriting or sanction step never returns: when
    the orchestrator delegates to underwriting and the underwriting
    collaborator reports a failure on every record, or delegates to
    sanction and the sanction generator does, the node records the error
    without clearing the pending action, the router sends the record back
    to it, and the run ends in [GraphRecursionError] whatever the node
    budget. *)
Theorem failing_specialist_never_returns fuel s m :
  last (conversation_history s) = Some m -> role m = user ->
  (next_action (master_agent_node s) = Some "delegate_to_underwriting"
   /\ forall t, exists e, process_underwriting t = UwFailed e)
  \/ (next_action (master_agent_node s) = Some "delegate_to_sanction"
      /\ forall t, exists e, generate_sanction t = SanctionFailed e) ->
  run fuel master_agent s = Raised GraphRecursionError.
Proof.
  intros Hlast Hrole Hcase.
  rewrite (run_after_master fuel s m Hlast Hrole).
  destruct (master_decides s m Hlast Hrole) as (_ & _ & _ & r & Hr & Hrr).
  assert (Hfin : last_is_assistant (master_agent_node s)) by (exists r; auto).
  destruct Hcase as [[Hna Hfail]|[Hna Hfail]].
  - apply (stuck_specialist fuel _ underwriting_agent Hfin);
      [rewrite Hna; reflexivity|].
    intros t'. destruct (Hfail t') as [e He].
    eexists. split; [reflexivity|].
    simpl. unfold underwriting_agent_node. rewrite He.
    split; reflexivity.
  - apply (stuck_specialist fuel _ sanction_agent Hfin);
      [rewrite Hna; reflexivity|].
    intros t'. destruct (Hfail t') as [e He].
    eexists. split; [reflexivity|].
    simpl. unfold sanction_agent_node. rewrite He.
    split; reflexivity.
Qed.

(** X28.  An approved application is sanctioned and closed in one cycle:
    with the cursor on underwriting and the decision approved, the next
    text makes the orchestrator delegate to sanction; when the generator
    succeeds the cycle is orchestrator, sanction, orchestrator, the letter
    and its reference are on the record, the cursor is on closure, no
    action is pending and the last reply is the sanction message. *)
Theorem approved_application_is_sanctioned_and_closed
    fuel s m message url reference :
  last (conversation_history s) = Some m -> role m = user ->
  current_stage s = "underwriting" ->
  underwriting_decision s = Some "approved" ->
  generate_sanction (master_agent_node s)
  = SanctionOk message url reference ->
  exists s',
    run (3 + fuel) master_agent s
    = Done ([master_agent; sanction_agent; master_agent], s')
    /\ current_stage s' = "closure"
    /\ sanction_letter_url s' = Some url
    /\ sanction_letter_ref_no s' = Some reference
    /\ next_action s' = None
    /\ application_status s' = application_status s
    /\ last (conversation_history s')
       = Some (mkMessage assistant message (Some "sanction")).
Proof.
  intros Hlast Hrole Hstage Hdecision Hgen.
  destruct (master_decides s m Hlast Hrole) as (Hna & _).
  rewrite Hstage, decision_underwriting, Hdecision in Hna.
  cbn [is_str String.eqb Ascii.eqb Bool.eqb fst snd] in Hna.
  assert (Hstatus : application_status (master_agent_node s)
                    = application_status s).
  { apply (run_node_blind application_status master_agent s); [reflexivity|].
    intros T k v Hk r. destruct k; try discriminate Hk; reflexivity. }
  revert Hna Hgen Hstatus.
  generalize (cleared_delegation_run fuel s m sanction_agent
                (sanction_agent_node (master_agent_node s)) Hlast Hrole).
  generalize (master_agent_node s). intros s1 Hrun Hna Hgen Hstatus.
  assert (Hnode : sanction_agent_node s1
            = update_state (add_message s1 assistant message (Some "sanction"))
                [ K.sanction_letter_url ::= Some url;
                  K.sanction_letter_ref_no ::= Some reference;
                  K.current_stage ::= "closure";
                  K.active_agent ::= "master";
                  K.next_action ::= None ]).
  { unfold sanction_agent_node. rewrite Hgen. reflexivity. }
  exists (sanction_agent_node s1). split.
  - apply Hrun; [rewrite Hna; reflexivity|reflexivity|].
    rewrite Hnode. reflexivity.
  - rewrite Hnode. repeat (split; [reflexivity|]).
    split; [exact Hstatus|].
    destruct (update_state_off_log
                [ K.sanction_letter_url ::= Some url;
                  K.sanction_letter_ref_no ::= Some reference;
                  K.current_stage ::= "closure";
                  K.active_agent ::= "master";
                  K.next_action ::= None ]
                (add_message s1 assistant message (Some "sanction")))
      as [-> _]; [solve_off_log|].
    apply last_snoc.
Qed.

(** ** The resend counter *)

(** X29.  The resend counter counts resends: an execution of any node
    leaves [otp_resend_count] as it was, or it is the verification node
    sending a code while one is already out, and the counter moves up by
    one; and a code request by a known customer on a record with a
    verification signal moves it by one exactly when a code was out. *)
Theorem resend_counter_counts_resends :
  (forall n s s',
     run_node n s = Done s' ->
     otp_resend_count s' = otp_resend_count s
     \/ (n = verification_agent /\ otp_sent s = true
         /\ otp_resend_count s' = otp_resend_count s + 1))
  /\ (forall s s',
        verification_agent_node s = Done s' ->
        not_initialized s = false ->
        code_request (inbound_text s) s = true ->
        otp_resend_count s'
        = if otp_sent s then otp_resend_count s + 1 else otp_resend_count s).
Proof.
  assert (Hsend : forall text s s',
            send_block text s = Some s' ->
            otp_resend_count s'
            = if otp_sent s then otp_resend_count s + 1
              else otp_resend_count s).
  { intros text s s'. unfold send_block, verification_reply, agent_send_otp.
    repeat case_match; intros [= <-]; try reflexivity;
      unfold resend_count;
      match goal with H : otp_sent s = _ |- _ => rewrite H end;
      reflexivity. }
  split.
  - intros n s s' Hrun.
    assert (Hother : n <> verification_agent ->
                     otp_resend_count s' = otp_resend_count s).
    { intros Hn. apply (run_node_blind otp_resend_count n s s' Hrun).
      intros T k v Hk r.
      destruct n; try congruence; destruct k; try discriminate Hk;
        reflexivity. }
    destruct n; try (left; apply Hother; discriminate).
    clear Hother. simpl in Hrun. revert Hrun.
    unfold verification_agent_node.
    generalize (default EmptyString
                  (strip <$> last_user_content (conversation_history s))).
    intros msg.
    destruct (not_initialized s).
    { intros [= <-]. left. unfold start_block, verification_reply.
      case_match; rewrite update_state_keeps by kept;
        try rewrite add_message_keeps by kept; reflexivity. }
    destruct (send_block msg s) as [sent|] eqn:Hsent.
    { intros [= <-]. rewrite (Hsend _ _ _ Hsent).
      destruct (otp_sent s); [right; auto|left; reflexivity]. }
    destruct (address_block msg (code_block msg s)) as [s2|e] eqn:Haddr;
      simpl; [|discriminate].
    intros [= <-]. left.
    rewrite update_state_keeps by kept.
    assert (Hid : forall x, otp_resend_count (identity_block x)
                            = otp_resend_count x).
    { intros x. unfold identity_block.
      case_match; [|reflexivity].
      rewrite update_state_keeps by kept.
      rewrite add_message_keeps by kept. reflexivity. }
    rewrite Hid.
    apply (checks_blind otp_resend_count msg s s2); [|assumption].
    intros T k v Hk r. destruct k; try discriminate Hk; reflexivity.
  - intros s s' Hrun Hinit Hreq.
    destruct (verification_cases s s' Hrun)
      as [[Hi _]|[[_ Hsent]|(_ & Hnone & _)]].
    + congruence.
    + apply (Hsend _ _ _ Hsent).
    + exfalso. revert Hnone. unfold send_block.
      unfold code_request in Hreq. rewrite Hreq.
      destruct is_twilio_configured; [discriminate|].
      destruct (agent_send_otp _ _). discriminate.
Qed.

(** ** An address typed in capitals *)

(** X30.  An address typed in capitals makes the verification node
    raise: on a record with a verification signal, when the inbound text
    is no code request, starts (whatever its case) with my address is and
    not with address:, and does not contain the lower-case letters is, the
    node splits the text at is, finds nothing after it and raises
    [IndexError]; nothing is returned. *)
Theorem address_in_capitals_raises s :
  let text := inbound_text s in
  not_initialized s = false ->
  code_request text s = false ->
  startswith (lower text) "address:" = false ->
  startswith (lower text) "my address is" = true ->
  find text "is" = None ->
  verification_agent_node s = Raised IndexError.
Proof.
  intros text Hinit Hreq Hcolon Hstarts Hfind.
  unfold verification_agent_node. fold (inbound_text s). fold text.
  rewrite Hinit, (send_block_skips _ _ Hreq).
  assert (Hne : nonempty text = true).
  { destruct text; [discriminate Hstarts|reflexivity]. }
  generalize (code_block text s). intros s1.
  unfold address_block. rewrite Hne.
  unfold address_of. cbv zeta. rewrite Hcolon, Hstarts.
  unfold after_first. rewrite Hfind. reflexivity.
Qed.

End MoreFacts.

(** * The further properties on concrete inputs *)

(** X1 on the sales node: the identity flag is not among its entries. *)
Lemma stages_write_only_their_entries_witness :
  writes sales_agent K.kyc_verified = false
  /\ get_key K.kyc_verified
       (sales_agent_node (collab := Demo.fallback) Cases.request)
     = get_key K.kyc_verified Cases.request.
Proof.
  split; [reflexivity|].
  destruct (stages_write_only_their_entries (collab := Demo.fallback)
              sales_agent Cases.request
              (sales_agent_node (collab := Demo.fallback) Cases.request)
              eq_refl) as [_ Hkeys].
  apply Hkeys. reflexivity.
Defined.

(** X2 after a first call on the demo table. *)
Lemma sessions_stay_keyed_witness :
  well_keyed (Demo.table_after Cases.first_call).
Proof.
  assert (Hkeyed : well_keyed Demo.sessions).
  { intros sid s H. unfold Demo.sessions in H.
    apply lookup_singleton_Some in H as [<- <-]. reflexivity. }
  destruct (sessions_stay_keyed (collab := Demo.fallback) Demo.sessions Hkeyed)
    as [_ Hcall].
  apply (Hcall "session-1" "hello" (Demo.table_after Cases.first_call)
           (Cases.reply_of Cases.first_call)).
  vm_compute. reflexivity.
Defined.

(** X4 on a call that the orchestrator and the sales node both answer. *)
Lemma call_appends_text_then_replies_witness :
  exists result replies final,
    Demo.table_after Cases.request_call !! "session-1" = Some result
    /\ conversation_history result
       = conversation_history Demo.fresh
         ++ mkMessage user "I need 3 lakh rupees" None :: replies
    /\ Forall (fun m => role m = assistant) replies
    /\ last replies = Some final
    /\ last (conversation_history result) = Some final
    /\ Cases.reply_of Cases.request_call = Response (content final) result.
Proof.
  apply (call_appends_text_then_replies (collab := Demo.fallback)
           Demo.sessions "session-1" "I need 3 lakh rupees" Demo.fresh);
    vm_compute; reflexivity.
Defined.

(** X5 on the same text: one round trip to the sales node. *)
Lemma cycle_is_round_trips_to_one_specialist_witness :
  exists k x,
    [master_agent; sales_agent; master_agent] = round_trips k x
    /\ x <> master_agent
    /\ (k = 0%nat
        \/ delegate_of
             (next_action
                (master_agent_node (collab := Demo.fallback) Cases.request))
           = Some x)
    /\ (2 * k + 1 <= 25)%nat
    /\ is_delegation (next_action (Cases.stored Cases.request_call)) = false
    /\ last_is_assistant (Cases.stored Cases.request_call).
Proof.
  apply (cycle_is_round_trips_to_one_specialist (collab := Demo.fallback)
           25 Cases.request (mkMessage user "I need 3 lakh rupees" None));
    vm_compute; reflexivity.
Defined.

(** X6 on the same text. *)
Lemma cleared_delegation_takes_three_nodes_witness :
  run (collab := Demo.fallback) 25 master_agent Cases.request
  = Done ([master_agent; sales_agent; master_agent],
          sales_agent_node (collab := Demo.fallback)
            (master_agent_node (collab := Demo.fallback) Cases.request)).
Proof.
  destruct (cleared_delegation_takes_three_nodes (collab := Demo.fallback)
              22 Cases.request (mkMessage user "I need 3 lakh rupees" None)
              eq_refl eq_refl) as [_ Hsales].
  apply Hsales. vm_compute. reflexivity.
Defined.

(** X7 on a session without a customer that accepts an offer, with a
    budget of a thousand nodes. *)
Lemma failed_verification_start_never_returns_witness :
  run (collab := Demo.fallback) 1000 master_agent
      (Demo.hears Demo.anonymous_in_sales "proceed")
  = Raised GraphRecursionError.
Proof.
  apply (failed_verification_start_never_returns (collab := Demo.fallback)
           1000 (Demo.hears Demo.anonymous_in_sales "proceed")
           (mkMessage user "proceed" None) "Customer ID not available");
    vm_compute; reflexivity.
Defined.

(** X10 on the call that asks for an amount: from greeting to the sales
    stage. *)
Lemma stage_cursor_never_goes_back_witness :
  current_stage (Cases.stored Cases.request_call) = "sales_negotiation"
  /\ stage_advances (current_stage Demo.fresh)
       (current_stage (Cases.stored Cases.request_call)).
Proof.
  split; [vm_compute; reflexivity|].
  apply (stage_cursor_never_goes_back (collab := Demo.fallback)
           Demo.sessions "session-1" "I need 3 lakh rupees" Demo.fresh
           (Demo.table_after Cases.request_call)
           (Cases.reply_of Cases.request_call));
    vm_compute; reflexivity.
Defined.

(** X11 on a closed session with a stale pending action. *)
Lemma closed_session_stays_closed_witness :
  next_action Cases.closed = Some "delegate_to_sales"
  /\ run (collab := Demo.fallback) 25 master_agent Cases.closed
     = Done ([master_agent],
             master_agent_node (collab := Demo.fallback) Cases.closed)
  /\ next_action (master_agent_node (collab := Demo.fallback) Cases.closed)
     = None.
Proof.
  destruct (closed_session_stays_closed (collab := Demo.fallback)
              24 Cases.closed (mkMessage user "one more loan please" None)
              eq_refl eq_refl eq_refl) as (Hrun & _ & Hna & _).
  split; [reflexivity|]. split; [exact Hrun|exact Hna].
Defined.

(** X12 on a session whose phone is verified. *)
Lemma verification_flags_are_never_cleared_witness :
  phone_verified Demo.phone_done = true
  /\ flags_kept Demo.phone_done (Cases.stored Cases.verifying_call).
Proof.
  split; [reflexivity|].
  apply (verification_flags_are_never_cleared (collab := Demo.fallback)
           Cases.verifying "session-1" "hello" Demo.phone_done
           (Demo.table_after Cases.verifying_call)
           (Cases.reply_of Cases.verifying_call));
    vm_compute; reflexivity.
Defined.

(** X13 on the issued code typed back. *)
Lemma phone_verified_only_by_accepted_code_witness :
  verification_agent = verification_agent
  /\ carries_code (inbound_text Cases.code_entered) = true
  /\ code_verdict (collab := Demo.fallback) Cases.code_entered
       (inbound_text Cases.code_entered) = Some true.
Proof.
  apply (phone_verified_only_by_accepted_code (collab := Demo.fallback)
           verification_agent Cases.code_entered
           (Cases.after Cases.code_entered
              (verification_agent_node (collab := Demo.fallback)
                 Cases.code_entered)));
    vm_compute; reflexivity.
Defined.

(** X14 on the three identity details typed in one text. *)
Lemma identity_verified_only_with_details_witness :
  let s' :=
    Cases.after Cases.details_entered
      (verification_agent_node (collab := Demo.fallback)
         Cases.details_entered) in
  verification_agent = verification_agent
  /\ truthy_str (kyc_pan s') = true
  /\ truthy_str (kyc_dob s') = true
  /\ truthy_str (kyc_email s') = true.
Proof.
  apply (identity_verified_only_with_details (collab := Demo.fallback)
           verification_agent Cases.details_entered);
    vm_compute; reflexivity.
Defined.

(** X15 after one completed call. *)
Lemma attempts_stay_below_three_witness :
  attempts_in_range (Cases.stored Cases.first_call).
Proof.
  apply (attempts_stay_below_three (collab := Demo.fallback) "session-1"
           (Demo.table_after Cases.first_call) 1).
  - eapply (call_completed (collab := Demo.fallback) "session-1"
              (fst (create_session ∅ (Some "CUST001") "session-1")) 0 "hello").
    + apply session_created.
    + vm_compute. reflexivity.
  - vm_compute. reflexivity.
Defined.

(** X16 on an underwriting node that approves. *)
Lemma status_changes_only_with_the_decision_witness :
  let s' := underwriting_agent_node (collab := Cases.approving) Demo.fresh in
  application_status s' = "approved"
  /\ underwriting_decision s' = Some "approved".
Proof.
  intros s'.
  destruct (status_changes_only_with_the_decision (collab := Cases.approving)
              underwriting_agent Demo.fresh s' eq_refl)
    as [Hsame|(_ & Hdecision & _)].
  - vm_compute in Hsame. discriminate Hsame.
  - split; [reflexivity|exact Hdecision].
Defined.

(** X17 on the text 5 lakh typed during the needs assessment. *)
Lemma amount_of_needs_assessment_is_not_kept_witness :
  exists s',
    run (collab := Demo.fallback) 25 master_agent Cases.assessing
    = Done ([master_agent; sales_agent; master_agent], s')
    /\ requested_amount s' = requested_amount Cases.assessing
    /\ current_stage s' = "sales_negotiation"
    /\ last (conversation_history s')
       = Some (mkMessage assistant
                 "Could you please confirm the loan amount you need (e.g., 3 lakh, 500000, 50k)?"
                 (Some "sales")).
Proof.
  apply (amount_of_needs_assessment_is_not_kept (collab := Demo.fallback)
           22 Cases.assessing (mkMessage user "5 lakh" None));
    vm_compute; reflexivity.
Defined.

(** X20 with the code 123456 issued and three wrong codes. *)
Lemma code_store_locks_after_three_wrong_codes_witness :
  exists after1 after2,
    VerificationAgent.verify_otp_input
      (fst (VerificationAgent.send_otp (collab := Demo.fallback)
              ∅ "CUST001" (Some "9876543210")))
      "CUST001" "000000"
    = (after1, IncorrectOtp 2)
    /\ VerificationAgent.verify_otp_input after1 "CUST001" "111111"
       = (after2, IncorrectOtp 1)
    /\ VerificationAgent.verify_otp_input after2 "CUST001" "222222"
       = (delete "CUST001" ∅, MaxAttemptsReached)
    /\ VerificationAgent.verify_otp_input (delete "CUST001" ∅) "CUST001"
         "123456"
       = (delete "CUST001" ∅, NoOtpFound).
Proof.
  destruct (code_store_locks_after_three_wrong_codes (collab := Demo.fallback)
              ∅ "CUST001" (Some "9876543210") "000000" "111111" "222222")
    as (_ & after1 & after2 & H1 & H2 & H3 & _ & H5 & _);
    try (intros H; vm_compute in H; discriminate H).
  exists after1, after2. repeat split; assumption.
Defined.

(** X21 on the issued code typed back. *)
Lemma record_check_agrees_with_the_store_witness :
  let checked :=
    VerificationAgent.verify_otp_input Cases.store "CUST001" "123456" in
  snd checked = OtpVerified
  /\ mirrors (fst checked) "CUST001"
       (code_block (collab := Demo.fallback) "123456" (Demo.code_issued 0))
  /\ phone_verified
       (code_block (collab := Demo.fallback) "123456" (Demo.code_issued 0))
     = phone_verified (Demo.code_issued 0) || verdict_verified (snd checked).
Proof.
  intros checked. split; [vm_compute; reflexivity|].
  apply (record_check_agrees_with_the_store (collab := Demo.fallback)
           Cases.store "CUST001" (Demo.code_issued 0) "123456" "123456").
  - vm_compute. repeat split; reflexivity.
  - vm_compute. reflexivity.
  - vm_compute. reflexivity.
  - vm_compute. reflexivity.
Defined.


(** X25 on a page without a customer: the id typed in lower case is
    taken. *)
Lemma typed_customer_id_is_taken_once_witness :
  exists result,
    Cases.table_after_turn Cases.id_turn !! "session-2" = Some result
    /\ customer_id result = Some "CUST001"
    /\ Ui.page_customer_id (Cases.page_after Cases.id_turn) = Some "CUST001".
Proof.
  destruct (typed_customer_id_is_taken_once (collab := Demo.fallback)
              Cases.blank_page Cases.blank_table "session-2"
              "my id is cust001 and I need a loan"
              (Cases.page_after Cases.id_turn)
              (Cases.table_after_turn Cases.id_turn)
              Demo.anonymous)
    as (result & Hres & Hid);
    [vm_compute; reflexivity | vm_compute; reflexivity |].
  exists result. split; [exact Hres|].
  vm_compute in Hid. destruct Hid as [Hrec Hpage].
  split; [exact Hrec|vm_compute; reflexivity].
Defined.

(** X26 on a turn that the orchestrator and the sales node both answer:
    the page shows the sales reply. *)
Lemma page_shows_the_last_reply_witness :
  exists result final,
    Cases.table_after_turn Cases.request_turn !! "session-1" = Some result
    /\ last (conversation_history result) = Some final
    /\ Ui.page_messages (Cases.page_after Cases.request_turn)
       = Ui.page_messages Cases.known_page
         ++ [ mkMessage user "I need 3 lakh rupees" None;
              mkMessage assistant (content final) (agent final) ]
    /\ Ui.page_stage (Cases.page_after Cases.request_turn)
       = current_stage result
    /\ Ui.page_status (Cases.page_after Cases.request_turn)
       = application_status result.
Proof.
  apply (page_shows_the_last_reply (collab := Demo.fallback)
           Cases.known_page Demo.sessions "session-1" "I need 3 lakh rupees"
           (Cases.page_after Cases.request_turn)
           (Cases.table_after_turn Cases.request_turn)
           Demo.fresh);
    vm_compute; reflexivity.
Defined.

(** X27 on an uploaded salary slip, with an underwriting collaborator
    that is unavailable, and a budget of a thousand nodes. *)
Lemma failing_specialist_never_returns_witness :
  run (collab := Demo.fallback) 1000 master_agent Cases.slip_uploaded
  = Raised GraphRecursionError.
Proof.
  apply (failing_specialist_never_returns (collab := Demo.fallback)
           1000 Cases.slip_uploaded
           (mkMessage user "Uploaded salary slip successfully" None));
    [vm_compute; reflexivity | vm_compute; reflexivity |].
  left. split; [vm_compute; reflexivity|].
  intros t. eexists. reflexivity.
Defined.

(** X28 on an approved application, with a generator that succeeds. *)
Lemma approved_application_is_sanctioned_and_closed_witness :
  exists s',
    run (collab := Cases.approving) 25 master_agent Cases.approved
    = Done ([master_agent; sanction_agent; master_agent], s')
    /\ current_stage s' = "closure"
    /\ sanction_letter_url s' = Some "/sanction/SL-1.pdf"
    /\ sanction_letter_ref_no s' = Some "SL-1"
    /\ next_action s' = None
    /\ application_status s' = application_status Cases.approved
    /\ last (conversation_history s')
       = Some (mkMessage assistant "Your sanction letter is ready."
                 (Some "sanction")).
Proof.
  apply (approved_application_is_sanctioned_and_closed
           (collab := Cases.approving) 22 Cases.approved
           (mkMessage user "what happens next?" None));
    vm_compute; reflexivity.
Defined.

(** X30 on an address typed in capitals. *)
Lemma address_in_capitals_raises_witness :
  verification_agent_node (collab := Demo.fallback) Cases.capitals
  = Raised IndexError.
Proof.
  apply (address_in_capitals_raises (collab := Demo.fallback) Cases.capitals);
    vm_compute; reflexivity.
Defined.
